(** * parse_trace.py: reference resolution, stack reconstruction and
      frame aggregation

    A shallow embedding of [TimeProfileParser] and [ProfileAnalyzer] from
    [scripts/parse_trace.py], with the properties of the trace engine proved
    over it.

    Conventions of the embedding:
    - a Python [str] is a [string] whose characters are the code points
      below 256;
    - a Python [float] is a binary64 value of [SpecFloat.spec_float]
      ([prec = 53], [emax = 1024]), with its rounding, infinities and NaN;
    - a Python [int] is a [Z];
    - a [dict] that is only looked up is a [gmap]; a [dict] whose iteration
      order is observed ([frame_weights]) is an association list in
      insertion order; a [set] is a [gset];
    - a raised exception is a [Raise] result. *)

From Stdlib Require Import ZArith String Ascii List Bool Lia DecimalString.
From Stdlib Require Import Floats.SpecFloat.
From stdpp Require Import base option list gmap strings fin_maps sorting.

Local Open Scope string_scope.
Local Open Scope Z_scope.

#[local] Set Warnings "-clear-no-such-hyp".

(* ===================================================================== *)
(** * Python strings *)
(* ===================================================================== *)

Module PyStr.

(** Truth value of a string: [if s:]. *)
Definition truthy (s : string) : bool :=
  match s with
  | EmptyString => false
  | String _ _ => true
  end.

(** [s.startswith(p)]. *)
Definition startswith (s p : string) : bool := String.prefix p s.

(** [needle in hay]. *)
Fixpoint contains (needle hay : string) : bool :=
  String.prefix needle hay ||
  match hay with
  | EmptyString => false
  | String _ hay' => contains needle hay'
  end.

(** [s.replace(old, new)]: the occurrences of [old] are replaced from the
    left, without overlap.  [skip] counts the characters of a matched
    occurrence that are still to be passed over. *)
Fixpoint replace_from (old new : string) (skip : nat) (s : string) : string :=
  match s with
  | EmptyString => EmptyString
  | String c s' =>
      match skip with
      | S k => replace_from old new k s'
      | O =>
          if String.prefix old s
          then new +:+ replace_from old new (Nat.pred (String.length old)) s'
          else String c (replace_from old new O s')
      end
  end.

(** With an empty [old], Python puts [new] before every character and at
    the end. *)
Fixpoint replace_empty (new s : string) : string :=
  match s with
  | EmptyString => new
  | String c s' => new +:+ String c (replace_empty new s')
  end.

Definition replace (s old new : string) : string :=
  match old with
  | EmptyString => replace_empty new s
  | String _ _ => replace_from old new O s
  end.

(** Whitespace in the sense of [str.strip()] and [str.isspace()], for
    code points below 256. *)
Definition is_space (c : ascii) : bool :=
  let n := N_of_ascii c in
  ((9 <=? n) && (n <=? 13) || (28 <=? n) && (n <=? 32)
   || (n =? 133) || (n =? 160))%N.

Fixpoint lstrip (s : string) : string :=
  match s with
  | EmptyString => EmptyString
  | String c s' => if is_space c then lstrip s' else s
  end.

Fixpoint rstrip (s : string) : string :=
  match s with
  | EmptyString => EmptyString
  | String c s' =>
      match rstrip s' with
      | EmptyString => if is_space c then EmptyString else String c EmptyString
      | r => String c r
      end
  end.

(** [s.strip()]. *)
Definition strip (s : string) : string := rstrip (lstrip s).

(** [c.lower()] for a code point below 256: the letters A-Z and the
    Latin-1 capitals (0xC0-0xDE but the multiplication sign 0xD7). *)
Definition lower_char (c : ascii) : ascii :=
  let n := N_of_ascii c in
  if ((65 <=? n) && (n <=? 90)
      || (192 <=? n) && (n <=? 222) && negb (n =? 215))%N
  then ascii_of_N (n + 32)
  else c.

(** [s.lower()]. *)
Fixpoint lower (s : string) : string :=
  match s with
  | EmptyString => EmptyString
  | String c s' => String (lower_char c) (lower s')
  end.

(** [sep.join(l)]. *)
Definition join (sep : string) (l : list string) : string :=
  String.concat sep l.

(** [str(n)] and [f"{n}"] for an [int]. *)
Definition of_int (n : Z) : string :=
  NilZero.string_of_int (Z.to_int n).

End PyStr.

(* ===================================================================== *)
(** * Exceptions *)
(* ===================================================================== *)

Inductive pyexn : Set := ValueError | OverflowError.

Inductive result (A : Type) : Type :=
| Ok (a : A)
| Raise (e : pyexn).
Arguments Ok {A} a.
Arguments Raise {A} e.

Definition result_bind {A B : Type} (r : result A) (k : A -> result B) : result B :=
  match r with
  | Ok a => k a
  | Raise e => Raise e
  end.

(* ===================================================================== *)
(** * Python floats *)
(* ===================================================================== *)

Module PyFloat.

Definition prec : Z := 53.
Definition emax : Z := 1024.

Definition float : Set := spec_float.

(** [x + y]. *)
Definition add (x y : float) : float := SFadd prec emax x y.

(** [x < y]. *)
Definition ltb (x y : float) : bool := SFltb x y.

(** The literals [0.0] and [1.0]. *)
Definition zero : float := S754_zero false.
Definition one : float := S754_finite false 4503599627370496 (-52).

Definition is_nan (x : float) : bool :=
  match x with S754_nan => true | _ => false end.

Definition is_finite (x : float) : bool :=
  match x with S754_zero _ | S754_finite _ _ _ => true | _ => false end.

(** [int(x)]: truncation towards zero; [int(nan)] raises [ValueError]
    and [int(inf)] raises [OverflowError]. *)
Definition to_int (x : float) : result Z :=
  match x with
  | S754_zero _ => Ok 0
  | S754_finite s m e => Ok (cond_Zopp s (Z.shiftl (Zpos m) e))
  | S754_infinity _ => Raise OverflowError
  | S754_nan => Raise ValueError
  end.

(** The binary64 value nearest to [(-1)^s * n / d] (ties to even): the
    correctly rounded quotient, as in the division of [SpecFloat]. *)
Definition round_ratio (s : bool) (n d : positive) : float :=
  SFdiv prec emax (S754_finite s n 0) (S754_finite false d 0).

(** ** [float(s)] for a string *)

Definition is_digit (c : ascii) : bool :=
  let n := N_of_ascii c in ((48 <=? n) && (n <=? 57))%N.

Definition digit_val (c : ascii) : Z := Z.of_N (N_of_ascii c) - 48.

(** Whitespace in the sense of C's [Py_ISSPACE]. *)
Definition is_c_space (c : ascii) : bool :=
  let n := N_of_ascii c in
  ((9 <=? n) && (n <=? 13) || (n =? 32))%N.

(** Non-ASCII spaces become a blank and other non-ASCII characters a
    question mark, before anything is parsed. *)
Definition to_ascii_char (c : ascii) : ascii :=
  let n := N_of_ascii c in
  if (n <? 128)%N then c
  else if ((n =? 133) || (n =? 160))%N then " "%char
  else "?"%char.

Fixpoint to_ascii (s : string) : string :=
  match s with
  | EmptyString => EmptyString
  | String c s' => String (to_ascii_char c) (to_ascii s')
  end.

Fixpoint c_lstrip (s : string) : string :=
  match s with
  | EmptyString => EmptyString
  | String c s' => if is_c_space c then c_lstrip s' else s
  end.

Fixpoint c_rstrip (s : string) : string :=
  match s with
  | EmptyString => EmptyString
  | String c s' =>
      match c_rstrip s' with
      | EmptyString => if is_c_space c then EmptyString else String c EmptyString
      | r => String c r
      end
  end.

(** An underscore is accepted between two digits only; the accepted ones
    are removed.  [prev] is the character before [s]. *)
Fixpoint drop_underscores (prev : option ascii) (s : string) : option string :=
  let prev_digit := match prev with Some p => is_digit p | None => false end in
  let prev_under := match prev with Some p => Ascii.eqb p "_" | None => false end in
  match s with
  | EmptyString => if prev_under then None else Some EmptyString
  | String c s' =>
      if Ascii.eqb c "_" then
        if prev_digit then drop_underscores (Some c) s' else None
      else if prev_under && negb (is_digit c) then None
      else r ← drop_underscores (Some c) s'; Some (String c r)
  end.

(** The longest prefix of digits, and what follows it. *)
Fixpoint span_digits (s : string) : string * string :=
  match s with
  | EmptyString => (EmptyString, EmptyString)
  | String c s' =>
      if is_digit c
      then let '(ds, r) := span_digits s' in (String c ds, r)
      else (EmptyString, s)
  end.

Fixpoint digits_value (acc : Z) (ds : string) : Z :=
  match ds with
  | EmptyString => acc
  | String c ds' => digits_value (10 * acc + digit_val c) ds'
  end.

Definition split_sign (s : string) : bool * string :=
  match s with
  | String "-" r => (true, r)
  | String "+" r => (false, r)
  | _ => (false, s)
  end.

(** [digits [. digits] [(e|E) [sign] digits]] with a digit before or
    after the point: the decimal mantissa and the power of ten. *)
Definition parse_decimal (s : string) : option (Z * Z) :=
  let '(ip, r1) := span_digits s in
  let '(fp, r2) :=
    match r1 with
    | String "." r => span_digits r
    | _ => (EmptyString, r1)
    end in
  let mant := digits_value 0 (ip +:+ fp) in
  let scale := - Z.of_nat (String.length fp) in
  if negb (PyStr.truthy ip) && negb (PyStr.truthy fp) then None
  else
    match r2 with
    | EmptyString => Some (mant, scale)
    | String c r3 =>
        if Ascii.eqb c "e" || Ascii.eqb c "E" then
          let '(es, r4) := split_sign r3 in
          let '(ed, r5) := span_digits r4 in
          if PyStr.truthy ed && negb (PyStr.truthy r5)
          then Some (mant, scale + cond_Zopp es (digits_value 0 ed))
          else None
        else None
    end.

(** The float of a decimal [(-1)^s * mant * 10^e]. *)
Definition of_decimal (s : bool) (mant e : Z) : float :=
  match mant with
  | Zpos m =>
      if 0 <=? e
      then round_ratio s (m * Z.to_pos (10 ^ e)) 1
      else round_ratio s m (Z.to_pos (10 ^ (- e)))
  | _ => S754_zero s
  end.

(** [float(s)]; [None] is the [ValueError] of a string that is not a
    number. *)
Definition of_string (s : string) : option float :=
  body ← drop_underscores None (c_rstrip (c_lstrip (to_ascii s)));
  let '(sg, r) := split_sign body in
  let w := PyStr.lower r in
  if String.eqb w "inf" || String.eqb w "infinity" then Some (S754_infinity sg)
  else if String.eqb w "nan" then Some S754_nan
  else '(mant, e) ← parse_decimal r; Some (of_decimal sg mant e).

End PyFloat.

(* ===================================================================== *)
(** * XML elements ([xml.etree.ElementTree]) *)
(* ===================================================================== *)

Module ET.

#[warnings="-register-all"]
Inductive Element : Type :=
| Elem (tag : string) (attrib : list (string * string)) (children : list Element).

Definition tag (e : Element) : string :=
  match e with Elem t _ _ => t end.
Definition attrib (e : Element) : list (string * string) :=
  match e with Elem _ a _ => a end.
Definition children (e : Element) : list Element :=
  match e with Elem _ _ cs => cs end.

Fixpoint lookup_attr (k : string) (a : list (string * string)) : option string :=
  match a with
  | [] => None
  | (k', v) :: a' => if String.eqb k k' then Some v else lookup_attr k a'
  end.

(** [e.get(k)]: [None] when the attribute is absent. *)
Definition get (e : Element) (k : string) : option string :=
  lookup_attr k (attrib e).

(** [e.get(k, d)]. *)
Definition get_default (e : Element) (k d : string) : string :=
  default d (get e k).

(** [e.iter()]: the element and all its descendants, in document order. *)
Fixpoint iter (e : Element) : list Element :=
  match e with
  | Elem _ _ cs =>
      e :: (fix iter_all (l : list Element) : list Element :=
              match l with
              | [] => []
              | c :: l' => (iter c ++ iter_all l')%list
              end) cs
  end.

Definition has_tag (t : string) (e : Element) : bool := String.eqb (tag e) t.

(** [e.iter(t)]. *)
Definition iter_tag (e : Element) (t : string) : list Element :=
  List.filter (has_tag t) (iter e).

(** [e.find(".//t")]: the first proper descendant with tag [t]. *)
Definition find_descendant (e : Element) (t : string) : option Element :=
  head (List.filter (has_tag t) (tail (iter e))).

(** The first child with tag [t], if any: [for child in e: if child.tag
    == t: ...; break]. *)
Definition first_child (e : Element) (t : string) : option Element :=
  List.find (has_tag t) (children e).

End ET.
Import ET.

(* ===================================================================== *)
(** * Frames and samples *)
(* ===================================================================== *)

Record Frame : Type := mkFrame {
  name : string;
  addr : string;
  binary : option string
}.

Record Sample : Type := mkSample {
  time : string;
  thread : string;
  process : string;
  weight_ms : PyFloat.float;
  backtrace : list Frame
}.

(** Truth value of an [Optional[str]]: [None] and the empty string are
    false. *)
Definition truthy_opt (o : option string) : bool :=
  match o with
  | Some s => PyStr.truthy s
  | None => false
  end.

(* ===================================================================== *)
(** * TimeProfileParser *)
(* ===================================================================== *)

Module TimeProfileParser.

(** [_build_id_cache]: every element with a non-empty [id], in document
    order; a later element takes the place of an earlier one with the
    same [id]. *)
Definition cache_step (cache : gmap string Element) (elem : Element)
  : gmap string Element :=
  match get elem "id" with
  | Some elem_id => if PyStr.truthy elem_id then <[elem_id := elem]> cache else cache
  | None => cache
  end.

Definition _build_id_cache (id_cache : gmap string Element) (root : Element)
  : gmap string Element :=
  fold_left cache_step (iter root) id_cache.

(** [_resolve_ref]. *)
Definition _resolve_ref (id_cache : gmap string Element) (elem : Element) : Element :=
  match get elem "ref" with
  | Some ref =>
      if PyStr.truthy ref then
        match id_cache !! ref with
        | Some target => target
        | None => elem
        end
      else elem
  | None => elem
  end.

(** The [fmt] of the resolved first descendant with tag [t], or the
    empty string. *)
Definition field (id_cache : gmap string Element) (row : Element) (t : string) : string :=
  match find_descendant row t with
  | Some e => get_default (_resolve_ref id_cache e) "fmt" ""
  | None => ""
  end.

(** The weight text with the unit and the separators removed. *)
Definition clean_weight (fmt : string) : string :=
  PyStr.strip (PyStr.replace (PyStr.replace fmt "ms" "") "," "").

Definition parse_weight (fmt : string) : PyFloat.float :=
  match PyFloat.of_string (clean_weight fmt) with
  | Some w => w
  | None => PyFloat.one
  end.

Definition weight (id_cache : gmap string Element) (row : Element) : PyFloat.float :=
  match find_descendant row "weight" with
  | Some e => parse_weight (get_default (_resolve_ref id_cache e) "fmt" "1 ms")
  | None => PyFloat.one
  end.

(** The binary of a resolved frame element: the [name] of its first
    [binary] child, through the child's reference when it has one. *)
Definition frame_binary_of (id_cache : gmap string Element) (frame_elem : Element)
  : option string :=
  match first_child frame_elem "binary" with
  | Some child => Some (get_default (_resolve_ref id_cache child) "name" "")
  | None => None
  end.

(** One turn of the loop over [bt_elem.iter("frame")]. *)
Definition frame_step (id_cache : gmap string Element)
    (backtrace : list Frame) (frame_elem : Element) : list Frame :=
  let frame_elem := _resolve_ref id_cache frame_elem in
  let name := get_default frame_elem "name" "" in
  let addr := get_default frame_elem "addr" "" in
  let binary := frame_binary_of id_cache frame_elem in
  if PyStr.truthy name
  then (backtrace ++ [mkFrame name addr binary])%list
  else backtrace.

Definition row_backtrace (id_cache : gmap string Element) (row : Element) : list Frame :=
  match find_descendant row "backtrace" with
  | Some bt_elem =>
      fold_left (frame_step id_cache)
                (iter_tag (_resolve_ref id_cache bt_elem) "frame") []
  | None => []
  end.

(** [_parse_row]. *)
Definition _parse_row (id_cache : gmap string Element) (row : Element) : option Sample :=
  let time_str := field id_cache row "sample-time" in
  let thread_str := field id_cache row "thread" in
  let process_str := field id_cache row "process" in
  let weight_ms := weight id_cache row in
  let backtrace := row_backtrace id_cache row in
  match backtrace with
  | [] => None
  | _ :: _ => Some (mkSample time_str thread_str process_str weight_ms backtrace)
  end.

Definition row_step (id_cache : gmap string Element)
    (samples : list Sample) (row : Element) : list Sample :=
  match _parse_row id_cache row with
  | Some sample => (samples ++ [sample])%list
  | None => samples
  end.

(** [parse], from the root of the parsed document. *)
Definition parse (root : Element) : list Sample :=
  let id_cache := _build_id_cache ∅ root in
  fold_left (row_step id_cache) (iter_tag root "row") [].

End TimeProfileParser.

(* ===================================================================== *)
(** * Dictionaries in insertion order, slices and [sorted] *)
(* ===================================================================== *)

Section OrderedDict.
Context {V : Type}.

(** [d.get(k)]. *)
Fixpoint od_get (d : list (string * V)) (k : string) : option V :=
  match d with
  | [] => None
  | (k', v) :: d' => if String.eqb k k' then Some v else od_get d' k
  end.

(** [d[k] = v]: a key that is present keeps its place, a new key goes to
    the end. *)
Fixpoint od_set (d : list (string * V)) (k : string) (v : V) : list (string * V) :=
  match d with
  | [] => [(k, v)]
  | (k', v') :: d' =>
      if String.eqb k k' then (k, v) :: d' else (k', v') :: od_set d' k v
  end.

End OrderedDict.

(** [l[:n]] for any integer [n]: a negative [n] counts from the end. *)
Definition slice_to {A : Type} (l : list A) (n : Z) : list A :=
  if 0 <=? n then take (Z.to_nat n) l
  else take (length l - Z.to_nat (- n))%nat l.

Section Sorted.
Context {A : Type} (key : A -> PyFloat.float).

(** [x] goes before the first element that is not smaller than it, so
    that it stays before the elements equal to it that came after it. *)
Fixpoint insert_asc (x : A) (l : list A) : list A :=
  match l with
  | [] => [x]
  | y :: l' =>
      if PyFloat.ltb (key y) (key x) then y :: insert_asc x l' else x :: l
  end.

(** A stable ascending sort that compares with [<] only. *)
Definition sort_asc (l : list A) : list A := fold_right insert_asc [] l.

(** [sorted(l, key=key, reverse=True)].  The list is reversed, sorted in
    ascending order by a stable sort, and reversed again.  Where [<] on the
    keys is a strict weak order (no NaN among them), a stable sort has one
    possible result, which is the one computed here.  With a NaN among the
    keys the result of [sorted] depends on the comparisons that its merge
    sort happens to make, and this definition stands for it only where the
    two are seen to agree. *)
Definition sorted_reverse (l : list A) : list A := rev (sort_asc (rev l)).

End Sorted.

(* ===================================================================== *)
(** * ProfileAnalyzer *)
(* ===================================================================== *)

Module ProfileAnalyzer.

Definition raw_address (f : Frame) : bool := PyStr.startswith (name f) "0x".

Definition system_prefixes : list string :=
  ["dyld"; "libsystem"; "libobjc"; "libdispatch";
   "CoreFoundation"; "Foundation"; "UIKit"; "QuartzCore";
   "_CF"; "_NS"; "objc_"].

(** [_is_system_frame]. *)
Definition _is_system_frame (frame : Frame) : bool :=
  existsb (fun p =>
             PyStr.startswith (name frame) p
             || match binary frame with
                | Some b => PyStr.truthy b && PyStr.startswith b p
                | None => false
                end)
          system_prefixes.

(** [filter_binary and frame.binary != filter_binary]. *)
Definition binary_differs (filter_binary : option string) (frame : Frame) : bool :=
  truthy_opt filter_binary && bool_decide (binary frame ≠ filter_binary).

(** The three dictionaries of an aggregation. *)
Record Stats : Type := mkStats {
  frame_counts : gmap string Z;
  frame_weights : list (string * PyFloat.float);
  frame_binary : gmap string string
}.

Definition empty_stats : Stats := mkStats ∅ [] ∅.

(** [frame_counts[n] += 1] on a [defaultdict(int)]. *)
Definition count_up (counts : gmap string Z) (n : string) : gmap string Z :=
  <[n := default 0 (counts !! n) + 1]> counts.

(** [frame_weights[n] += w] on a [defaultdict(float)]. *)
Definition weight_up (weights : list (string * PyFloat.float)) (n : string)
    (w : PyFloat.float) : list (string * PyFloat.float) :=
  od_set weights n (PyFloat.add (default PyFloat.zero (od_get weights n)) w).

(** [if b: frame_binary[n] = b]. *)
Definition binary_up (binaries : gmap string string) (n : string)
    (b : option string) : gmap string string :=
  match b with
  | Some b' => if PyStr.truthy b' then <[n := b']> binaries else binaries
  | None => binaries
  end.

Definition accumulate (st : Stats) (frame : Frame) (w : PyFloat.float) : Stats :=
  mkStats (count_up (frame_counts st) (name frame))
          (weight_up (frame_weights st) (name frame) w)
          (binary_up (frame_binary st) (name frame) (binary frame)).

(** The rows that the aggregations return: the sorted weights, cut to
    [top_n], with the count and the binary of each name. *)
Definition ranked (st : Stats) (top_n : Z)
  : list (string * Z * PyFloat.float * option string) :=
  map (fun '(n, w) => (n, default 0 (frame_counts st !! n), w, frame_binary st !! n))
      (slice_to (sorted_reverse snd (frame_weights st)) top_n).

(** ** [get_hot_frames] *)

(** Whether the loop body goes on to the [seen_in_sample] test. *)
Definition hot_passes (filter_binary : option string) (exclude_system : bool)
    (frame : Frame) : bool :=
  negb (raw_address frame)
  && negb (binary_differs filter_binary frame)
  && negb (exclude_system && _is_system_frame frame).

Definition hot_frame_step (filter_binary : option string) (exclude_system : bool)
    (w : PyFloat.float) (acc : Stats * gset string) (frame : Frame)
  : Stats * gset string :=
  let '(st, seen_in_sample) := acc in
  if raw_address frame then acc
  else if binary_differs filter_binary frame then acc
  else if exclude_system && _is_system_frame frame then acc
  else if bool_decide (name frame ∈ seen_in_sample) then acc
  else (accumulate st frame w, seen_in_sample ∪ {[name frame]}).

Definition hot_sample_step (filter_binary : option string) (exclude_system : bool)
    (st : Stats) (sample : Sample) : Stats :=
  fst (fold_left (hot_frame_step filter_binary exclude_system (weight_ms sample))
                 (backtrace sample) (st, ∅)).

Definition hot_stats (samples : list Sample) (filter_binary : option string)
    (exclude_system : bool) : Stats :=
  fold_left (hot_sample_step filter_binary exclude_system) samples empty_stats.

Definition get_hot_frames (samples : list Sample) (top_n : Z)
    (filter_binary : option string) (exclude_system : bool)
  : list (string * Z * PyFloat.float * option string) :=
  ranked (hot_stats samples filter_binary exclude_system) top_n.

(** ** [get_self_time_frames] *)

(** The loop that looks for [leaf_frame], with its [continue] and
    [break]. *)
Fixpoint find_leaf (filter_binary : option string) (bt : list Frame) : option Frame :=
  match bt with
  | [] => None
  | frame :: bt' =>
      if negb (raw_address frame) then
        if binary_differs filter_binary frame then find_leaf filter_binary bt'
        else Some frame
      else find_leaf filter_binary bt'
  end.

Definition self_sample_step (filter_binary : option string)
    (st : Stats) (sample : Sample) : Stats :=
  match find_leaf filter_binary (backtrace sample) with
  | Some leaf_frame => accumulate st leaf_frame (weight_ms sample)
  | None => st
  end.

Definition self_stats (samples : list Sample) (filter_binary : option string) : Stats :=
  fold_left (self_sample_step filter_binary) samples empty_stats.

Definition get_self_time_frames (samples : list Sample) (top_n : Z)
    (filter_binary : option string)
  : list (string * Z * PyFloat.float * option string) :=
  ranked (self_stats samples filter_binary) top_n.

(** ** [get_app_frames] *)

(** [not frame.binary or app_binary.lower() not in frame.binary.lower()]. *)
Definition not_app (app_binary : string) (frame : Frame) : bool :=
  match binary frame with
  | Some b =>
      negb (PyStr.truthy b)
      || negb (PyStr.contains (PyStr.lower app_binary) (PyStr.lower b))
  | None => true
  end.

Definition app_frame_step (app_binary : string) (w : PyFloat.float)
    (acc : Stats * gset string) (frame : Frame) : Stats * gset string :=
  let '(st, seen_in_sample) := acc in
  if raw_address frame then acc
  else if not_app app_binary frame then acc
  else if bool_decide (name frame ∈ seen_in_sample) then acc
  else (mkStats (count_up (frame_counts st) (name frame))
                (weight_up (frame_weights st) (name frame) w)
                (frame_binary st),
        seen_in_sample ∪ {[name frame]}).

Definition app_sample_step (app_binary : string) (st : Stats) (sample : Sample) : Stats :=
  fst (fold_left (app_frame_step app_binary (weight_ms sample))
                 (backtrace sample) (st, ∅)).

Definition app_stats (samples : list Sample) (app_binary : string) : Stats :=
  fold_left (app_sample_step app_binary) samples empty_stats.

Definition get_app_frames (samples : list Sample) (app_binary : string) (top_n : Z)
  : list (string * Z * PyFloat.float) :=
  map (fun '(n, c, w, _) => (n, c, w)) (ranked (app_stats samples app_binary) top_n).

(** ** [get_swiftui_frames] *)

Definition swiftui_keywords : list string :=
  ["SwiftUI"; "AG::"; "View"; "Layout"; "DisplayList"; "Attribute"].

Definition is_swiftui (n : string) (b : option string) : bool :=
  existsb (fun kw => PyStr.contains kw n) swiftui_keywords
  || match b with
     | Some b' => PyStr.truthy b' && PyStr.contains "SwiftUI" b'
     | None => false
     end.

(** The loop over the hot frames; it [break]s once [len(results) >= top_n],
    a test made after an append only. *)
Fixpoint swiftui_loop (top_n : Z)
    (rows : list (string * Z * PyFloat.float * option string))
    (results : list (string * Z * PyFloat.float))
  : list (string * Z * PyFloat.float) :=
  match rows with
  | [] => results
  | (n, c, w, b) :: rows' =>
      if is_swiftui n b then
        let results' := (results ++ [(n, c, w)])%list in
        if top_n <=? Z.of_nat (length results') then results'
        else swiftui_loop top_n rows' results'
      else swiftui_loop top_n rows' results
  end.

Definition get_swiftui_frames (samples : list Sample) (top_n : Z)
  : list (string * Z * PyFloat.float) :=
  swiftui_loop top_n (get_hot_frames samples 100 None false) [].

(** ** [generate_collapsed_stacks] *)

Definition newline : string := String "010"%char EmptyString.

(** [filter_binary and frame.binary and filter_binary.lower() not in
    frame.binary.lower()]. *)
Definition collapsed_rejects (filter_binary : option string) (frame : Frame) : bool :=
  match filter_binary with
  | Some fb =>
      PyStr.truthy fb
      && match binary frame with
         | Some b =>
             PyStr.truthy b
             && negb (PyStr.contains (PyStr.lower fb) (PyStr.lower b))
         | None => false
         end
  | None => false
  end.

Definition clean_name (n : string) : string :=
  PyStr.replace (PyStr.replace n ";" ":") " " "_".

Definition stack_step (filter_binary : option string)
    (stack : list string) (frame : Frame) : list string :=
  if raw_address frame then stack
  else if collapsed_rejects filter_binary frame then stack
  else (stack ++ [clean_name (name frame)])%list.

Definition sample_stack (filter_binary : option string) (sample : Sample) : list string :=
  fold_left (stack_step filter_binary) (rev (backtrace sample)) [].

Definition line_step (filter_binary : option string)
    (lines : result (list string)) (sample : Sample) : result (list string) :=
  result_bind lines (fun lines =>
    match sample_stack filter_binary sample with
    | [] => Ok lines
    | stack =>
        result_bind (PyFloat.to_int (weight_ms sample)) (fun n =>
          Ok (lines ++ [PyStr.join ";" stack +:+ " " +:+ PyStr.of_int n])%list)
    end).

Definition generate_collapsed_stacks (samples : list Sample)
    (filter_binary : option string) : result string :=
  result_bind (fold_left (line_step filter_binary) samples (Ok []))
              (fun lines => Ok (PyStr.join newline lines)).

End ProfileAnalyzer.


(* ===================================================================== *)
(** * [sorted] on integer keys and [>=] on floats *)
(* ===================================================================== *)

Section SortedInt.
Context {A : Type} (key : A -> Z).

Fixpoint insert_asc_int (x : A) (l : list A) : list A :=
  match l with
  | [] => [x]
  | y :: l' => if key y <? key x then y :: insert_asc_int x l' else x :: l
  end.

Definition sort_asc_int (l : list A) : list A := fold_right insert_asc_int [] l.

(** [sorted(l, key=key, reverse=True)] for a key that is an [int]: the
    order on the keys is total, so that a stable sort has one possible
    result. *)
Definition sorted_reverse_int (l : list A) : list A := rev (sort_asc_int (rev l)).

End SortedInt.

(** [a >= b] on floats: false when one of them is NaN. *)
Definition float_ge (a b : PyFloat.float) : bool := SFleb b a.

(* ===================================================================== *)
(** * SwiftUIUpdatesParser *)
(* ===================================================================== *)

Module SwiftUIUpdatesParser.

Record SwiftUIUpdate : Type := mkSwiftUIUpdate {
  start_time : string;
  duration_us : PyFloat.float;
  description : string;
  category : string;
  severity : string;
  view_name : string
}.

(** [[u for u in self.updates if u.duration_us >= threshold_us]]. *)
Definition get_slow_updates (updates : list SwiftUIUpdate)
    (threshold_us : PyFloat.float) : list SwiftUIUpdate :=
  List.filter (fun u => float_ge (duration_us u) threshold_us) updates.

End SwiftUIUpdatesParser.

(* ===================================================================== *)
(** * LeaksParser *)
(* ===================================================================== *)

Module LeaksParser.

Record MemoryLeak : Type := mkMemoryLeak {
  address : string;
  size_bytes : Z;
  responsible_frame : string;
  responsible_library : string;
  backtrace : list Frame;
  leak_type : string
}.

(** [sum(l.size_bytes for l in v)]. *)
Definition sum_sizes (v : list MemoryLeak) : Z :=
  fold_left Z.add (map size_bytes v) 0.

(** [d[k].append(leak)] on a [defaultdict(list)]. *)
Definition append_to (d : list (string * list MemoryLeak)) (k : string)
    (leak : MemoryLeak) : list (string * list MemoryLeak) :=
  od_set d k (default [] (od_get d k) ++ [leak])%list.

(** The body of the loop, on [by_library] and [by_frame]. *)
Definition leak_step
    (st : list (string * list MemoryLeak) * list (string * list MemoryLeak))
    (leak : MemoryLeak)
  : list (string * list MemoryLeak) * list (string * list MemoryLeak) :=
  let by_library :=
    if PyStr.truthy (responsible_library leak)
    then append_to st.1 (responsible_library leak) leak else st.1 in
  let by_frame :=
    if PyStr.truthy (responsible_frame leak)
    then append_to st.2 (responsible_frame leak) leak else st.2 in
  (by_library, by_frame).

(** [{k: (len(v), sum(l.size_bytes for l in v)) for k, v in items}]. *)
Definition summarize (items : list (string * list MemoryLeak))
  : list (string * (Z * Z)) :=
  fold_left (fun d kv => od_set d kv.1 (Z.of_nat (length kv.2), sum_sizes kv.2))
            items [].

(** The dictionary of the summary. *)
Record LeakSummary : Type := mkLeakSummary {
  total_count : Z;
  total_bytes : Z;
  by_library : list (string * (Z * Z));
  by_frame : list (string * (Z * Z))
}.

Definition get_leak_summary (leaks : list MemoryLeak) : LeakSummary :=
  let total_bytes := sum_sizes leaks in
  let groups := fold_left leak_step leaks ([], []) in
  mkLeakSummary
    (Z.of_nat (length leaks))
    total_bytes
    (summarize (sorted_reverse_int (fun x => sum_sizes x.2) groups.1))
    (summarize (slice_to (sorted_reverse_int (fun x => sum_sizes x.2) groups.2) 20)).

End LeaksParser.

(* ===================================================================== *)
(** * AllocationStatisticsParser *)
(* ===================================================================== *)

Module AllocationStatisticsParser.

Record AllocationStatistics : Type := mkAllocationStatistics {
  category : string;
  persistent_bytes : Z;
  persistent_count : Z;
  total_bytes : Z;
  total_count : Z
}.

Definition get_top_categories (statistics : list AllocationStatistics)
    (top_n : Z) (by_ : string) : list AllocationStatistics :=
  if String.eqb by_ "persistent"
  then slice_to (sorted_reverse_int persistent_bytes statistics) top_n
  else slice_to (sorted_reverse_int total_bytes statistics) top_n.

End AllocationStatisticsParser.

(* ===================================================================== *)
(** * EnergyUsageParser *)
(* ===================================================================== *)

Module EnergyUsageParser.

Record EnergyUsage : Type := mkEnergyUsage {
  timestamp : string;
  cpu_usage : PyFloat.float;
  gpu_usage : PyFloat.float;
  energy_impact : PyFloat.float;
  process : string
}.

(** [[s for s in self.samples if s.energy_impact >= threshold]]. *)
Definition get_high_energy_samples (samples : list EnergyUsage)
    (threshold : PyFloat.float) : list EnergyUsage :=
  List.filter (fun s => float_ge (energy_impact s) threshold) samples.

End EnergyUsageParser.

(* ===================================================================== *)
(** * [parse_toc] *)
(* ===================================================================== *)

Definition toc_step (schemas : list string) (table : Element) : list string :=
  match get table "schema" with
  | Some schema => if PyStr.truthy schema then (schemas ++ [schema])%list else schemas
  | None => schemas
  end.

(** [toc] is the root of the table of contents, or [None] for a file that
    is not there or is not XML: the exception is caught, and the list is
    still empty then. *)
Definition parse_toc (toc : option Element) : list string :=
  match toc with
  | Some root => fold_left toc_step (iter_tag root "table") []
  | None => []
  end.
(* ===================================================================== *)
(** * Notions used in the statements *)
(* ===================================================================== *)

Import TimeProfileParser.
Local Open Scope list_scope.

(** ** Documents and rows *)

(** Whether an element declares the identifier [r]: it has the attribute
    [id] with the value [r], and [r] is not empty. *)
Definition declares (r : string) (e : Element) : bool :=
  match get e "id" with
  | Some i => String.eqb i r && PyStr.truthy r
  | None => false
  end.

(** The node at identifier [r] in the document under [root]: the last
    element, in document order, that declares [r]. *)
Definition node_at (root : Element) (r : string) : option Element :=
  last (List.filter (declares r) (iter root)).

(** The name that a frame element has once it is resolved. *)
Definition resolved_name (id_cache : gmap string Element) (frame_elem : Element) : string :=
  get_default (_resolve_ref id_cache frame_elem) "name" "".

(** The frame of a frame element, when it has a name. *)
Definition frame_of (id_cache : gmap string Element) (frame_elem : Element) : option Frame :=
  let resolved := _resolve_ref id_cache frame_elem in
  if PyStr.truthy (resolved_name id_cache frame_elem)
  then Some (mkFrame (get_default resolved "name" "")
                     (get_default resolved "addr" "")
                     (frame_binary_of id_cache resolved))
  else None.

(** The frame elements of a row, in traversal order. *)
Definition frame_elems (id_cache : gmap string Element) (row : Element) : list Element :=
  match find_descendant row "backtrace" with
  | Some bt_elem => iter_tag (_resolve_ref id_cache bt_elem) "frame"
  | None => []
  end.

(** A document in which the node at identifier 1 refers to identifier 2. *)
Definition chain_doc : Element :=
  Elem "doc" []
    [Elem "frame" [("id", "2"); ("name", "main")] [];
     Elem "frame" [("id", "1"); ("ref", "2")] [];
     Elem "frame" [("ref", "1")] []].

Import ProfileAnalyzer.

(** ** Floats *)

Definition not_nan (x : PyFloat.float) : bool := negb (PyFloat.is_nan x).

(** Zero, a positive finite value or plus infinity: what a sum of
    durations can be. *)
Definition nonneg (x : PyFloat.float) : bool :=
  match x with
  | S754_zero _ => true
  | S754_infinity s | S754_finite s _ _ => negb s
  | S754_nan => false
  end.

(** ** Order of first appearance *)

(** [x] comes before [y] in [l]. *)
Definition precedes {A : Type} (l : list A) (x y : A) : Prop :=
  exists l1 l2 l3, l = (l1 ++ x :: l2 ++ y :: l3)%list.

(** The names of [l] that are not in [seen], each one at its first
    appearance. *)
Fixpoint uniq_from (seen : gset string) (l : list string) : list string :=
  match l with
  | [] => []
  | x :: l' =>
      if bool_decide (x ∈ seen) then uniq_from seen l'
      else x :: uniq_from (seen ∪ {[x]}) l'
  end.

(** The frames of [l] whose name is not in [seen], one for each name: the
    first. *)
Fixpoint first_seen (seen : gset string) (l : list Frame) : list Frame :=
  match l with
  | [] => []
  | f :: l' =>
      if bool_decide (name f ∈ seen) then first_seen seen l'
      else f :: first_seen (seen ∪ {[name f]}) l'
  end.

(** ** Aggregation as a sequence of accumulations *)

(** The accumulations [(frame, weight)] made one after the other. *)
Definition replay (st : Stats) (events : list (Frame * PyFloat.float)) : Stats :=
  fold_left (fun st ev => accumulate st ev.1 ev.2) events st.

(** The frames that pass the tests of the leaf-only aggregation. *)
Definition leaf_passes (filter_binary : option string) (frame : Frame) : bool :=
  negb (raw_address frame) && negb (binary_differs filter_binary frame).

(** The names that the inclusive aggregation meets, in traversal order:
    sample after sample, frame after frame. *)
Definition hot_trace (filter_binary : option string) (exclude_system : bool)
    (samples : list Sample) : list string :=
  flat_map (fun s => map name (List.filter (hot_passes filter_binary exclude_system)
                                           (backtrace s)))
           samples.

(** The names that the leaf-only aggregation meets, in traversal order. *)
Definition self_trace (filter_binary : option string) (samples : list Sample)
  : list string :=
  omap (fun s => name <$> List.find (leaf_passes filter_binary) (backtrace s)) samples.

(** The frames that pass the tests of the scoped aggregation. *)
Definition app_passes (app_binary : string) (frame : Frame) : bool :=
  negb (raw_address frame) && negb (not_app app_binary frame).

(** The names that the scoped aggregation meets, in traversal order. *)
Definition app_trace (app_binary : string) (samples : list Sample) : list string :=
  flat_map (fun s => map name (List.filter (app_passes app_binary) (backtrace s)))
           samples.

(** The frame without its binary: the scoped aggregation records none. *)
Definition without_binary (f : Frame) : Frame := mkFrame (name f) (addr f) None.


(** The accumulated count and weight of a name in the dictionaries. *)
Definition count_of (st : Stats) (n : string) : Z := default 0 (frame_counts st !! n).
Definition weight_of (st : Stats) (n : string) : PyFloat.float :=
  default PyFloat.zero (od_get (frame_weights st) n).

(** ** Ranked lists *)

Section Orders.
Context {A : Type} (key : A -> PyFloat.float).

(** [a] may come before [b] in an ascending stable sort of [l]: [b] is not
    smaller, and when [a] is not smaller either, [a] was before [b] in
    [l]. *)
Definition asc_stable (l : list A) (a b : A) : Prop :=
  PyFloat.ltb (key b) (key a) = false
  /\ (PyFloat.ltb (key a) (key b) = false -> precedes l a b).

(** The same for a descending stable sort. *)
Definition desc_stable (l : list A) (a b : A) : Prop :=
  PyFloat.ltb (key a) (key b) = false
  /\ (PyFloat.ltb (key b) (key a) = false -> precedes l a b).

End Orders.

(** A row of an aggregation result. *)
Definition row : Type := string * Z * PyFloat.float * option string.
Definition row_name (r : row) : string := r.1.1.1.
Definition row_count (r : row) : Z := r.1.1.2.
Definition row_weight (r : row) : PyFloat.float := r.1.2.

(** The row of a name and its weight. *)
Definition stats_row (st : Stats) (kv : string * PyFloat.float) : row :=
  (kv.1, default 0 (frame_counts st !! kv.1), kv.2, frame_binary st !! kv.1).

(** [r1] may stand before [r2] in a ranking: its weight is not smaller,
    and when the two weights are equal its name comes first in [order]. *)
Definition ranked_before (order : list string) (r1 r2 : row) : Prop :=
  PyFloat.ltb (row_weight r1) (row_weight r2) = false
  /\ (PyFloat.ltb (row_weight r2) (row_weight r1) = false ->
      precedes order (row_name r1) (row_name r2)).

(** [rows] is the ranking of the names of [order] by the weights of [st],
    cut by [top_n]: the slice [[:top_n]] (the first [top_n] rows, or, for a
    negative [top_n], all the rows but the last [-top_n]) of a list that
    has one row for each name, with its accumulated count and weight, in
    descending order of weight, equal weights in the order of [order]. *)
Definition is_ranking (st : Stats) (order : list string) (top_n : Z)
    (rows : list row) : Prop :=
  exists full : list row,
    rows = slice_to full top_n
    /\ map row_name full ≡ₚ order
    /\ Forall (fun r => row_weight r = weight_of st (row_name r)
                        /\ row_count r = count_of st (row_name r)) full
    /\ StronglySorted (ranked_before order) full.

(** No accumulated weight is NaN. *)
Definition sums_are_numbers (st : Stats) : Prop :=
  Forall (fun kv : string * PyFloat.float => not_nan kv.2 = true) (frame_weights st).

(** Weights whose sums are numbers in whatever order they are added: all
    finite, or all durations (zero or more, plus infinity included). *)
Definition addable (samples : list Sample) : Prop :=
  Forall (fun s => PyFloat.is_finite (weight_ms s) = true) samples
  \/ Forall (fun s => nonneg (weight_ms s) = true) samples.

(** The floats 1.0 and 2.0. *)
Definition float_1 : PyFloat.float := S754_finite false 4503599627370496 (-52).
Definition float_2 : PyFloat.float := S754_finite false 4503599627370496 (-51).

(** A row with one frame and a weight text. *)
Definition one_frame_row (frame_name weight_fmt : string) : Element :=
  Elem "row" []
    [Elem "weight" [("fmt", weight_fmt)] [];
     Elem "backtrace" [] [Elem "frame" [("name", frame_name)] []]].

(** A document whose second row has a weight that is not a number. *)
Definition nan_doc : Element :=
  Elem "doc" []
    [one_frame_row "a" "1 ms"; one_frame_row "b" "nan ms"; one_frame_row "c" "2 ms"].

(** ** Raw addresses *)

(** The sample with the raw-address frames taken out of its backtrace. *)
Definition without_raw (s : Sample) : Sample :=
  mkSample (time s) (thread s) (process s) (weight_ms s)
           (List.filter (fun f => negb (raw_address f)) (backtrace s)).

(** A name that is a raw address. *)
Definition raw_name (n : string) : bool := PyStr.startswith n "0x".

(** No key of the weights is a raw address. *)
Definition no_raw_key (st : Stats) : Prop :=
  Forall (fun kv : string * PyFloat.float => raw_name kv.1 = false) (frame_weights st).

(** ** Some samples

    Row A has the backtrace [funcA, funcB] in binX and the weight 5; row B
    has the backtrace [funcA, funcC] in binY and the weight 3. *)
Definition float_5 : PyFloat.float := S754_finite false 5629499534213120 (-50).
Definition float_3 : PyFloat.float := S754_finite false 6755399441055744 (-51).
Definition float_8 : PyFloat.float := S754_finite false 4503599627370496 (-49).

Definition two_rows : list Sample :=
  [mkSample "" "" "" float_5
     [mkFrame "funcA" "" (Some "binX"); mkFrame "funcB" "" (Some "binX")];
   mkSample "" "" "" float_3
     [mkFrame "funcA" "" (Some "binY"); mkFrame "funcC" "" (Some "binY")]].


(** ** Collapsed stacks *)

(** A frame that the normalizer keeps. *)
Definition survives (filter_binary : option string) (f : Frame) : bool :=
  negb (raw_address f) && negb (collapsed_rejects filter_binary f).

(** The binary of the frame is recorded and contains the filter, letter
    case apart. *)
Definition binary_matches (fb : string) (f : Frame) : bool :=
  match binary f with
  | Some b => PyStr.contains (PyStr.lower fb) (PyStr.lower b)
  | None => false
  end.

(** The frame has no binary, or an empty one. *)
Definition binary_unrecorded (f : Frame) : bool := negb (truthy_opt (binary f)).

(** The integer part of a finite float: the quotient rounded towards
    zero. *)
Definition truncate (x : PyFloat.float) : Z :=
  match x with
  | S754_finite s m e =>
      if 0 <=? e then cond_Zopp s (Zpos m) * 2 ^ e
      else Z.quot (cond_Zopp s (Zpos m)) (2 ^ (- e))
  | _ => 0
  end.

(** The character put for a separator or a blank in a frame name. *)
Definition clean_char (c : ascii) : ascii :=
  if Ascii.eqb c ";" then ":"%char
  else if Ascii.eqb c " " then "_"%char
  else c.

Fixpoint string_map (f : ascii -> ascii) (s : string) : string :=
  match s with
  | EmptyString => EmptyString
  | String c s' => String (f c) (string_map f s')
  end.

(** The line of a sample: the cleaned names of the frames that survive,
    root first, then the truncated weight; no line when no frame
    survives. *)
Definition line_of (filter_binary : option string) (s : Sample) : option string :=
  match List.filter (survives filter_binary) (rev (backtrace s)) with
  | [] => None
  | frames =>
      Some (PyStr.join ";" (map (fun f => string_map clean_char (name f)) frames)
            +:+ " " +:+ PyStr.of_int (truncate (weight_ms s)))
  end.

(** The float 12.9, and the sample of the example. *)
Definition float_12_9 : PyFloat.float := S754_finite false 7262054399134925 (-49).

Definition leaf_mid_root : Sample :=
  mkSample "" "" "" float_12_9
           [mkFrame "leaf" "" None; mkFrame "mid" "" None; mkFrame "root" "" None].

(** A sample with one frame, whose binary is not recorded. *)
Definition unknown_binary_sample : Sample :=
  mkSample "" "" "" PyFloat.one [mkFrame "main" "0x1" None].

(** The sample has a line, and its weight has no integer part. *)
Definition unprintable (filter_binary : option string) (s : Sample) : bool :=
  match List.filter (survives filter_binary) (rev (backtrace s)) with
  | [] => false
  | _ :: _ => negb (PyFloat.is_finite (weight_ms s))
  end.

(** The exception of [int] on a weight that is not finite. *)
Definition weight_error (x : PyFloat.float) : pyexn :=
  if PyFloat.is_nan x then ValueError else OverflowError.

(** A document with one row, whose weight is infinite. *)
Definition endless_doc : Element :=
  Elem "doc" [] [one_frame_row "spin" "inf ms"].

(** ** Weight texts *)

Fixpoint string_forallb (p : ascii -> bool) (s : string) : bool :=
  match s with
  | EmptyString => true
  | String c s' => p c && string_forallb p s'
  end.

Fixpoint string_filter (p : ascii -> bool) (s : string) : string :=
  match s with
  | EmptyString => EmptyString
  | String c s' => if p c then String c (string_filter p s') else string_filter p s'
  end.

(** A digit or the decimal point. *)
Definition numeric_char (c : ascii) : bool := PyFloat.is_digit c || Ascii.eqb c ".".

Definition is_comma (c : ascii) : bool := Ascii.eqb c ",".

(** A run of digits, with thousands separators or without. *)
Definition separated_digits (t : string) : bool :=
  string_forallb (fun c => PyFloat.is_digit c || is_comma c) t.

Definition all_digits (f : string) : bool := string_forallb PyFloat.is_digit f.

(** The digits of [t], without the separators. *)
Definition no_commas (t : string) : string :=
  string_filter (fun c => negb (is_comma c)) t.

(** The float 1234.5, which is 12345 / 10 and needs no rounding. *)
Definition float_1234_5 : PyFloat.float := S754_finite false 5429388417957888 (-42).

(** The row gives a sample with the weight [w] and with all the named
    frames of the row. *)
Definition row_gives (id_cache : gmap string Element) (row : Element)
    (w : PyFloat.float) : Prop :=
  exists sample,
    _parse_row id_cache row = Some sample
    /\ weight_ms sample = w
    /\ backtrace sample = row_backtrace id_cache row.

(** The text of the weight of a row: the [fmt] of its resolved [weight]
    element. *)
Definition weight_text (id_cache : gmap string Element) (row : Element)
    (fmt : string) : Prop :=
  exists e,
    find_descendant row "weight" = Some e
    /\ get (_resolve_ref id_cache e) "fmt" = Some fmt.

(** A row whose weight is not a number, with a backtrace of one frame. *)
Definition bad_weight_row : Element :=
  Elem "row" []
    [Elem "weight" [("fmt", "n/a")] [];
     Elem "backtrace" [] [Elem "frame" [("name", "main"); ("addr", "0x1")] []]].

(* ===================================================================== *)
(** * Further notions *)
(* ===================================================================== *)

(** ** Documents *)

(** The row has a frame with a name. *)
Definition has_named_frame (id_cache : gmap string Element) (row : Element) : bool :=
  existsb (fun fe => PyStr.truthy (resolved_name id_cache fe)) (frame_elems id_cache row).

(** A document without chains of references. *)
Definition plain_doc : Element :=
  Elem "doc" []
    [Elem "frame" [("id", "7"); ("name", "main")] [];
     Elem "row" []
       [Elem "backtrace" [] [Elem "frame" [("ref", "7")] []]];
     Elem "row" [] [Elem "weight" [] []]].

(** ** Samples that bring a name *)

(** The sample has a frame named [n] that the inclusive aggregation does
    not skip. *)
Definition mentions (filter_binary : option string) (exclude_system : bool)
    (n : string) (s : Sample) : bool :=
  existsb (fun f => hot_passes filter_binary exclude_system f && String.eqb (name f) n)
          (backtrace s).

(** The sample has a frame named [n] that the scoped aggregation does not
    skip. *)
Definition app_mentions (app_binary : string) (n : string) (s : Sample) : bool :=
  existsb (fun f => app_passes app_binary f && String.eqb (name f) n) (backtrace s).

(** The leaf of the sample, for the leaf-only aggregation, is named [n]. *)
Definition leaf_is (filter_binary : option string) (n : string) (s : Sample) : bool :=
  match List.find (leaf_passes filter_binary) (backtrace s) with
  | Some f => String.eqb (name f) n
  | None => false
  end.

(** The sample has a leaf. *)
Definition has_leaf (filter_binary : option string) (s : Sample) : bool :=
  match List.find (leaf_passes filter_binary) (backtrace s) with
  | Some _ => true
  | None => false
  end.

(** The accumulation is one of the name [n]. *)
Definition named (n : string) (e : Frame * PyFloat.float) : bool :=
  String.eqb (name e.1) n.

(** The sum of floats from left to right, from [0.0]. *)
Definition float_sum (l : list PyFloat.float) : PyFloat.float :=
  fold_left PyFloat.add l PyFloat.zero.

(** The sum of integers. *)
Definition int_sum (l : list Z) : Z := fold_left Z.add l 0.

Definition row_binary (r : row) : option string := r.2.

(** The binary that a sample records for the name [n]: the one of the
    first frame named [n] that is not skipped, when it is not empty. *)
Definition binary_seen (passes : Frame -> bool) (n : string) (s : Sample) : option string :=
  match List.find (fun f => passes f && String.eqb (name f) n) (backtrace s) with
  | Some f => if truthy_opt (binary f) then binary f else None
  | None => None
  end.

(** ** Collapsed stacks *)

(** Neither a separator nor a blank. *)
Definition plain_char (c : ascii) : bool :=
  negb (Ascii.eqb c ";") && negb (Ascii.eqb c " ").

(** ** Rows *)

(** The row has a keyword of the keyword subset in its name, or the marker
    in its binary. *)
Definition is_swiftui_row (r : row) : bool := is_swiftui (row_name r) (row_binary r).

(** The name, the count and the weight of a row. *)
Definition row_triple (r : row) : string * Z * PyFloat.float :=
  (row_name r, row_count r, row_weight r).

(** All the frames of the samples. *)
Definition all_frames (samples : list Sample) : list Frame :=
  flat_map backtrace samples.

(** ** Binaries *)

(** The binary that an accumulation records for the name [n]. *)
Definition event_binary (n : string) (e : Frame * PyFloat.float) : option string :=
  if named n e && truthy_opt (binary e.1) then binary e.1 else None.

(** The binary of a frame, when it is not empty. *)
Definition recorded_binary (f : Frame) : option string :=
  if truthy_opt (binary f) then binary f else None.

(** The binary that a sample records for the name [n] in the leaf-only
    aggregation: the one of its leaf, when the leaf has this name. *)
Definition leaf_binary_seen (filter_binary : option string) (n : string) (s : Sample)
  : option string :=
  match List.find (leaf_passes filter_binary) (backtrace s) with
  | Some f => if String.eqb (name f) n then recorded_binary f else None
  | None => None
  end.



(** ** Integer keys *)

Section IntOrders.
Context {A : Type} (key : A -> Z).

(** [a] may come before [b] in an ascending stable sort of [l]. *)
Definition asc_stable_int (l : list A) (a b : A) : Prop :=
  key a <= key b /\ (key b <= key a -> precedes l a b).

(** The same for a descending stable sort: the key of [b] is not larger,
    and when the two keys are equal [a] was before [b] in [l]. *)
Definition desc_stable_int (l : list A) (a b : A) : Prop :=
  key b <= key a /\ (key a <= key b -> precedes l a b).

End IntOrders.

(** What [l[:n]] leaves out. *)
Definition slice_rest {A : Type} (l : list A) (n : Z) : list A :=
  if 0 <=? n then drop (Z.to_nat n) l
  else drop (length l - Z.to_nat (- n))%nat l.

(** ** Thresholds *)

(** Updates of 5, 3 and 8 microseconds. *)
Definition three_updates : list SwiftUIUpdatesParser.SwiftUIUpdate :=
  [SwiftUIUpdatesParser.mkSwiftUIUpdate "" float_5 "" "" "" "A";
   SwiftUIUpdatesParser.mkSwiftUIUpdate "" float_3 "" "" "" "B";
   SwiftUIUpdatesParser.mkSwiftUIUpdate "" float_8 "" "" "" "A"].

(** Energy samples of impact 8 and 3. *)
Definition two_energy_samples : list EnergyUsageParser.EnergyUsage :=
  [EnergyUsageParser.mkEnergyUsage "" float_5 float_5 float_8 "";
   EnergyUsageParser.mkEnergyUsage "" float_5 float_5 float_3 ""].

(** ** Allocations *)

(** The key that [by] selects. *)
Definition bytes_key (by_ : string)
    (x : AllocationStatisticsParser.AllocationStatistics) : Z :=
  if String.eqb by_ "persistent"
  then AllocationStatisticsParser.persistent_bytes x
  else AllocationStatisticsParser.total_bytes x.

(** ** Tables of contents *)

(** The element is a table with a schema that is not empty. *)
Definition table_schema (e : Element) : option string :=
  if has_tag "table" e
  then match get e "schema" with
       | Some s => if PyStr.truthy s then Some s else None
       | None => None
       end
  else None.

(** ** Leaks *)

Section LeakGroups.
Context (key : LeaksParser.MemoryLeak -> string).

(** The leak names a library, or a frame. *)
Definition has_key (leak : LeaksParser.MemoryLeak) : bool := PyStr.truthy (key leak).

(** The leak is one of [k]. *)
Definition keyed (k : string) (leak : LeaksParser.MemoryLeak) : bool :=
  String.eqb (key leak) k.

(** The leaks of [k], in their order. *)
Definition leaks_of (k : string) (leaks : list LeaksParser.MemoryLeak)
  : list LeaksParser.MemoryLeak :=
  List.filter (keyed k) leaks.

(** The leaks that join the group of [k]. *)
Definition joining (k : string) (leaks : list LeaksParser.MemoryLeak)
  : list LeaksParser.MemoryLeak :=
  List.filter (fun leak => has_key leak && keyed k leak) leaks.

(** The libraries, or the frames, of the leaks: each one once, in the order
    of first appearance, the empty one left out. *)
Definition keys_of (leaks : list LeaksParser.MemoryLeak) : list string :=
  uniq_from ∅ (List.filter PyStr.truthy (map key leaks)).

(** What the loop does to one of the two dictionaries. *)
Definition group_step (d : list (string * list LeaksParser.MemoryLeak))
    (leak : LeaksParser.MemoryLeak) : list (string * list LeaksParser.MemoryLeak) :=
  if has_key leak then LeaksParser.append_to d (key leak) leak else d.

(** The entry of [k] in a summary: the number of its leaks and the sum of
    their sizes. *)
Definition entry_of (leaks : list LeaksParser.MemoryLeak) (k : string)
  : string * (Z * Z) :=
  (k, (Z.of_nat (length (leaks_of k leaks)), LeaksParser.sum_sizes (leaks_of k leaks))).

End LeakGroups.

(** A group after more leaks have joined it. *)
Definition merge_group {A : Type} (o : option (list A)) (new : list A)
  : option (list A) :=
  match o with
  | Some v => Some (v ++ new)
  | None => match new with [] => None | _ :: _ => Some new end
  end.

(** The entry of a group. *)
Definition group_entry (kv : string * list LeaksParser.MemoryLeak)
  : string * (Z * Z) :=
  (kv.1, (Z.of_nat (length kv.2), LeaksParser.sum_sizes kv.2)).

Definition entry_count (e : string * (Z * Z)) : Z := e.2.1.
Definition entry_bytes (e : string * (Z * Z)) : Z := e.2.2.

(** [e1] may stand before [e2] in a summary: it has not fewer bytes, and
    when both have the same its key comes first in [order]. *)
Definition entry_before (order : list string) (e1 e2 : string * (Z * Z)) : Prop :=
  entry_bytes e2 <= entry_bytes e1
  /\ (entry_bytes e1 <= entry_bytes e2 -> precedes order e1.1 e2.1).
(* ===================================================================== *)
(** * Reference resolution *)
(* ===================================================================== *)

Lemma truthy_false (s : string) : PyStr.truthy s = false -> s = "".
Proof. destruct s; [reflexivity | discriminate]. Qed.

Lemma declares_empty (e : Element) : declares "" e = false.
Proof.
  unfold declares. destruct (get e "id"); [|reflexivity].
  apply andb_false_r.
Qed.

Lemma filter_declares_empty (l : list Element) : List.filter (declares "") l = [].
Proof.
  induction l as [|e l IH]; [reflexivity|].
  simpl. rewrite declares_empty. exact IH.
Qed.

Lemma cache_step_lookup (m : gmap string Element) (e : Element) (r : string) :
  cache_step m e !! r = if declares r e then Some e else m !! r.
Proof.
  unfold cache_step, declares.
  destruct (get e "id") as [i|]; [|reflexivity].
  destruct (PyStr.truthy i) eqn:Hi.
  - destruct (String.eqb_spec i r) as [->|Hne].
    + rewrite Hi. simpl. apply lookup_insert_eq.
    + simpl. apply lookup_insert_ne. exact Hne.
  - apply truthy_false in Hi. subst i.
    destruct (String.eqb_spec "" r) as [<-|Hne]; reflexivity.
Qed.

Lemma cache_fold_lookup (l : list Element) (m : gmap string Element) (r : string) :
  fold_left cache_step l m !! r =
  match last (List.filter (declares r) l) with
  | Some e => Some e
  | None => m !! r
  end.
Proof.
  revert m. induction l as [|e l IH]; intros m; [reflexivity|].
  simpl. rewrite IH, cache_step_lookup.
  destruct (declares r e) eqn:He; [|reflexivity].
  destruct (List.filter (declares r) l) as [|e' l'] eqn:Hf; [reflexivity|].
  change (last (e :: e' :: l')) with (last (e' :: l')).
  destruct (last (e' :: l')) eqn:Hl; [reflexivity|].
  apply last_None in Hl. discriminate.
Qed.

(** The index built from a document holds, at every identifier, the node
    at that identifier. *)
Lemma build_id_cache_lookup (root : Element) (r : string) :
  _build_id_cache ∅ root !! r = node_at root r.
Proof.
  unfold _build_id_cache, node_at. rewrite cache_fold_lookup.
  destruct (last _); [reflexivity | apply lookup_empty].
Qed.

Lemma node_at_empty (root : Element) : node_at root "" = None.
Proof. unfold node_at. rewrite filter_declares_empty. reflexivity. Qed.

Lemma last_filter_In {A : Type} (f : A -> bool) (l : list A) (x : A) :
  last (List.filter f l) = Some x -> In x l /\ f x = true.
Proof.
  intros H. apply last_Some_elem_of in H. apply list_elem_of_In in H.
  apply filter_In in H. exact H.
Qed.

Lemma node_at_declares (root : Element) (r : string) (target : Element) :
  node_at root r = Some target ->
  In target (iter root) /\ get target "id" = Some r /\ PyStr.truthy r = true.
Proof.
  intros H. apply last_filter_In in H. destruct H as [Hin Hd].
  split; [exact Hin|]. unfold declares in Hd.
  destruct (get target "id") as [i|]; [|discriminate].
  apply andb_true_iff in Hd. destruct Hd as [Hi Ht].
  apply String.eqb_eq in Hi. subst i. split; [reflexivity | exact Ht].
Qed.

(** What one resolution returns, in terms of the document. *)
Lemma resolve_ref_node_at (root elem : Element) :
  _resolve_ref (_build_id_cache ∅ root) elem =
  match get elem "ref" with
  | Some r => default elem (node_at root r)
  | None => elem
  end.
Proof.
  unfold _resolve_ref.
  destruct (get elem "ref") as [r|]; [|reflexivity].
  rewrite build_id_cache_lookup.
  destruct (PyStr.truthy r) eqn:Ht.
  - destruct (node_at root r); reflexivity.
  - apply truthy_false in Ht. subst r. rewrite node_at_empty. reflexivity.
Qed.

(** C3. Reference resolution against the index of a document: a node with
    a reference to an identifier that some node of the document declares is
    replaced by the node at that identifier, which is a node of the document
    declaring it, so the attributes read after resolution are that node's; a
    node whose reference is to an identifier that no node declares, and a
    node with no reference, are returned as they are. *)
Theorem resolve_ref_substitutes (root elem : Element) :
  let id_cache := _build_id_cache ∅ root in
  match get elem "ref" with
  | Some r =>
      match node_at root r with
      | Some target =>
          _resolve_ref id_cache elem = target
          /\ attrib (_resolve_ref id_cache elem) = attrib target
          /\ In target (iter root) /\ get target "id" = Some r
      | None => _resolve_ref id_cache elem = elem
      end
  | None => _resolve_ref id_cache elem = elem
  end.
Proof.
  intros id_cache. unfold id_cache. rewrite resolve_ref_node_at.
  destruct (get elem "ref") as [r|]; [|reflexivity].
  destruct (node_at root r) as [target|] eqn:Hn; [|reflexivity].
  destruct (node_at_declares _ _ _ Hn) as (Hin & Hid & _). simpl. auto.
Qed.

(** C10. Resolution is one lookup: when the node at the identifier that a
    node refers to carries a reference itself, that node is returned as it
    is, with its reference still on it; the node that this second reference
    leads to is reached by a second resolution only. *)
Theorem resolve_ref_single_hop (root elem target target' : Element) (r r' : string) :
  get elem "ref" = Some r ->
  node_at root r = Some target ->
  get target "ref" = Some r' ->
  node_at root r' = Some target' ->
  let id_cache := _build_id_cache ∅ root in
  _resolve_ref id_cache elem = target
  /\ get (_resolve_ref id_cache elem) "ref" = Some r'
  /\ _resolve_ref id_cache (_resolve_ref id_cache elem) = target'.
Proof.
  intros He Hn Ht Hn' id_cache. unfold id_cache.
  rewrite !resolve_ref_node_at, He, Hn. simpl.
  rewrite Ht, Hn'. auto.
Qed.

Lemma resolve_ref_single_hop_witness :
  let id_cache := _build_id_cache ∅ chain_doc in
  let elem := Elem "frame" [("ref", "1")] [] in
  _resolve_ref id_cache elem = Elem "frame" [("id", "1"); ("ref", "2")] []
  /\ get (_resolve_ref id_cache elem) "ref" = Some "2"
  /\ _resolve_ref id_cache (_resolve_ref id_cache elem)
     = Elem "frame" [("id", "2"); ("name", "main")] [].
Proof.
  apply (resolve_ref_single_hop chain_doc (Elem "frame" [("ref", "1")] [])
           (Elem "frame" [("id", "1"); ("ref", "2")] [])
           (Elem "frame" [("id", "2"); ("name", "main")] []) "1" "2");
    reflexivity.
Defined.

(* ===================================================================== *)
(** * Stack reconstruction *)
(* ===================================================================== *)

Lemma frame_step_fold (id_cache : gmap string Element) (l : list Element) (acc : list Frame) :
  fold_left (frame_step id_cache) l acc = (acc ++ omap (frame_of id_cache) l)%list.
Proof.
  revert acc. induction l as [|fe l IH]; intros acc.
  - simpl. symmetry. apply app_nil_r.
  - simpl. rewrite IH. unfold frame_step, frame_of, resolved_name.
    destruct (PyStr.truthy _); [|reflexivity].
    rewrite <- app_assoc. reflexivity.
Qed.

Lemma row_backtrace_omap (id_cache : gmap string Element) (row : Element) :
  row_backtrace id_cache row = omap (frame_of id_cache) (frame_elems id_cache row).
Proof.
  unfold row_backtrace, frame_elems.
  destruct (find_descendant row "backtrace"); [|reflexivity].
  apply frame_step_fold.
Qed.

Lemma parse_row_backtrace (id_cache : gmap string Element) (row : Element) :
  match _parse_row id_cache row with
  | Some sample =>
      backtrace sample = row_backtrace id_cache row /\ backtrace sample <> []
  | None => row_backtrace id_cache row = []
  end.
Proof.
  unfold _parse_row. destruct (row_backtrace id_cache row); [reflexivity|].
  simpl. split; [reflexivity | discriminate].
Qed.

Lemma frame_of_name (id_cache : gmap string Element) (fe : Element) (f : Frame) :
  frame_of id_cache fe = Some f ->
  name f = resolved_name id_cache fe /\ PyStr.truthy (name f) = true.
Proof.
  unfold frame_of. destruct (PyStr.truthy (resolved_name id_cache fe)) eqn:Ht; [|discriminate].
  intros [= <-]. simpl. split; [reflexivity | exact Ht].
Qed.

Lemma omap_frame_of_names (id_cache : gmap string Element) (l : list Element) :
  map name (omap (frame_of id_cache) l)
  = List.filter PyStr.truthy (map (resolved_name id_cache) l).
Proof.
  induction l as [|fe l IH]; [reflexivity|].
  cbn [omap list_omap map List.filter].
  destruct (frame_of id_cache fe) as [f|] eqn:Hf.
  - destruct (frame_of_name _ _ _ Hf) as [Hn Ht].
    cbn [map]. rewrite <- Hn, Ht, IH. reflexivity.
  - unfold frame_of in Hf.
    destruct (PyStr.truthy (resolved_name id_cache fe)); [discriminate|].
    exact IH.
Qed.

Lemma parse_fold (id_cache : gmap string Element) (rows : list Element) (acc : list Sample) :
  fold_left (row_step id_cache) rows acc
  = (acc ++ omap (_parse_row id_cache) rows)%list.
Proof.
  revert acc. induction rows as [|row rows IH]; intros acc.
  - simpl. symmetry. apply app_nil_r.
  - simpl. rewrite IH. unfold row_step.
    destruct (_parse_row id_cache row); [|reflexivity].
    rewrite <- app_assoc. reflexivity.
Qed.

Lemma parse_omap (root : Element) :
  parse root = omap (_parse_row (_build_id_cache ∅ root)) (iter_tag root "row").
Proof. unfold parse. apply parse_fold. Qed.

(** C5. No sample has an empty backtrace.  The backtrace of a row is made
    of the frames of its frame elements that have a name, the others being
    left out; when some frame has a name the row gives a sample with exactly
    these frames, all named, and when none has the row gives no sample.
    Hence every sample of a parsed document has a frame. *)
Theorem parse_row_nonempty_backtrace
    (id_cache : gmap string Element) (row root : Element) :
  match _parse_row id_cache row with
  | Some sample =>
      backtrace sample = omap (frame_of id_cache) (frame_elems id_cache row)
      /\ backtrace sample <> []
      /\ Forall (fun f => name f <> "") (backtrace sample)
  | None => omap (frame_of id_cache) (frame_elems id_cache row) = []
  end
  /\ Forall (fun sample => backtrace sample <> []) (parse root).
Proof.
  split.
  - pose proof (parse_row_backtrace id_cache row) as H.
    rewrite row_backtrace_omap in H.
    destruct (_parse_row id_cache row) as [sample|]; [|exact H].
    destruct H as [Hb Hne]. split; [exact Hb|]. split; [exact Hne|].
    rewrite Hb. apply Forall_forall. intros f Hin.
    apply list_elem_of_omap in Hin.
    destruct Hin as (fe & _ & Hf).
    apply frame_of_name in Hf. destruct Hf as [_ Ht].
    intros E. rewrite E in Ht. discriminate.
  - rewrite parse_omap. apply Forall_forall. intros sample Hin.
    apply list_elem_of_omap in Hin.
    destruct Hin as (r & _ & Hr).
    pose proof (parse_row_backtrace (_build_id_cache ∅ root) r) as H.
    rewrite Hr in H. apply H.
Qed.

(* ===================================================================== *)
(** * Facts on floats *)
(* ===================================================================== *)

Ltac compare_cases :=
  change (PosDef.Pos.compare_cont Eq) with Pos.compare in *;
  repeat match goal with
         | |- context [Z.compare ?a ?b] => destruct (Z.compare_spec a b)
         | |- context [Pos.compare ?a ?b] => destruct (Pos.compare_spec a b)
         end;
  simpl; try discriminate; try reflexivity; try lia.

Lemma ltb_asym (x y : PyFloat.float) :
  PyFloat.ltb x y = true -> PyFloat.ltb y x = false.
Proof.
  unfold PyFloat.ltb, SFltb, SFcompare.
  destruct x as [sx|sx| |sx mx ex], y as [sy|sy| |sy my ey];
    try destruct sx; try destruct sy; try discriminate; try reflexivity;
    compare_cases.
Qed.

Lemma ltb_neg_trans (x y z : PyFloat.float) :
  not_nan y = true ->
  PyFloat.ltb x y = false -> PyFloat.ltb y z = false -> PyFloat.ltb x z = false.
Proof.
  unfold PyFloat.ltb, SFltb, SFcompare.
  destruct x as [sx|sx| |sx mx ex], y as [sy|sy| |sy my ey], z as [sz|sz| |sz mz ez];
    try destruct sx; try destruct sy; try destruct sz;
    try discriminate; try reflexivity; intros _;
    compare_cases.
Qed.

Lemma nonneg_not_nan (x : PyFloat.float) : nonneg x = true -> not_nan x = true.
Proof. destruct x; try reflexivity. discriminate. Qed.

Lemma shr_1_nonneg (mrs : shr_record) : 0 <= shr_m mrs -> 0 <= shr_m (shr_1 mrs).
Proof.
  destruct mrs as [m r s]. simpl.
  destruct m as [|p|p]; [reflexivity | | lia].
  intros _. destruct p; simpl; lia.
Qed.

Lemma iter_pos_shr_1_nonneg (p : positive) (mrs : shr_record) :
  0 <= shr_m mrs -> 0 <= shr_m (SpecFloat.iter_pos shr_1 p mrs).
Proof.
  revert mrs. induction p as [p IH|p IH|]; intros mrs H; simpl.
  - apply IH, IH, shr_1_nonneg, H.
  - apply IH, IH, H.
  - apply shr_1_nonneg, H.
Qed.

Lemma shr_fexp_nonneg (prec emax m e : Z) (l : location) :
  0 <= m -> 0 <= shr_m (fst (shr_fexp prec emax m e l)).
Proof.
  intros H. unfold shr_fexp, shr.
  assert (H0 : 0 <= shr_m (shr_record_of_loc m l)).
  { destruct l as [|[]]; exact H. }
  destruct (fexp prec emax (Zdigits2 m + e) - e); simpl; auto.
  apply iter_pos_shr_1_nonneg, H0.
Qed.

Lemma round_nearest_even_nonneg (m : Z) (l : location) :
  0 <= m -> 0 <= round_nearest_even m l.
Proof.
  intros H. destruct l as [|[]]; simpl; try lia.
  destruct (Z.even m); lia.
Qed.

Lemma binary_round_aux_nonneg (prec emax mx ex : Z) (lx : location) :
  0 <= mx -> nonneg (binary_round_aux prec emax false mx ex lx) = true.
Proof.
  intros H. unfold binary_round_aux.
  pose proof (shr_fexp_nonneg prec emax mx ex lx H) as H1.
  destruct (shr_fexp prec emax mx ex lx) as [mrs' e']. simpl in H1.
  pose proof (shr_fexp_nonneg prec emax _ e' loc_Exact
                (round_nearest_even_nonneg _ (loc_of_shr_record mrs') H1)) as H2.
  destruct (shr_fexp prec emax (round_nearest_even _ _) e' loc_Exact) as [mrs'' e''].
  simpl in H2. destruct (shr_m mrs''); [reflexivity | | lia].
  destruct (e'' <=? emax - prec); reflexivity.
Qed.

(** A sum of durations is a duration: no NaN comes out of it. *)
Lemma add_nonneg (x y : PyFloat.float) :
  nonneg x = true -> nonneg y = true -> nonneg (PyFloat.add x y) = true.
Proof.
  unfold PyFloat.add.
  destruct x as [sx|sx| |sx mx ex], y as [sy|sy| |sy my ey]; simpl;
    try destruct sx; try destruct sy; try discriminate; try reflexivity.
  intros _ _.
  destruct (shl_align mx ex (Z.min ex ey)) as [a ?],
           (shl_align my ey (Z.min ex ey)) as [b ?].
  simpl. unfold binary_round.
  destruct (shl_align _ _ _) as [mz ez].
  apply binary_round_aux_nonneg. lia.
Qed.

Lemma binary_round_aux_not_nan (prec emax : Z) (sx : bool) (mx ex : Z) (lx : location) :
  0 <= mx -> not_nan (binary_round_aux prec emax sx mx ex lx) = true.
Proof.
  intros H. unfold binary_round_aux.
  pose proof (shr_fexp_nonneg prec emax mx ex lx H) as H1.
  destruct (shr_fexp prec emax mx ex lx) as [mrs' e']. simpl in H1.
  pose proof (shr_fexp_nonneg prec emax _ e' loc_Exact
                (round_nearest_even_nonneg _ (loc_of_shr_record mrs') H1)) as H2.
  destruct (shr_fexp prec emax (round_nearest_even _ _) e' loc_Exact) as [mrs'' e''].
  simpl in H2. destruct (shr_m mrs''); [reflexivity | | lia].
  destruct (e'' <=? emax - prec); reflexivity.
Qed.

Lemma binary_round_not_nan (prec emax : Z) (sx : bool) (mx : positive) (ex : Z) :
  not_nan (binary_round prec emax sx mx ex) = true.
Proof.
  unfold binary_round. destruct (shl_align _ _ _) as [mz ez].
  apply binary_round_aux_not_nan. lia.
Qed.

(** Adding a finite weight to a sum that is a number gives a number: the
    sum may overflow to an infinity, and stays there. *)
Lemma add_finite_not_nan (x y : PyFloat.float) :
  not_nan x = true -> PyFloat.is_finite y = true -> not_nan (PyFloat.add x y) = true.
Proof.
  unfold PyFloat.add.
  destruct x as [sx|sx| |sx mx ex], y as [sy|sy| |sy my ey]; simpl;
    try discriminate; try reflexivity; intros _ _.
  - destruct sx, sy; reflexivity.
  - unfold binary_normalize.
    destruct (cond_Zopp sx _ + cond_Zopp sy _);
      [reflexivity | apply binary_round_not_nan | apply binary_round_not_nan].
Qed.

(* ===================================================================== *)
(** * The stable sort *)
(* ===================================================================== *)

Section Precedes.
Context {A : Type}.
Implicit Types (l : list A) (x y : A).

Lemma elem_of_rev l x : x ∈ rev l <-> x ∈ l.
Proof. rewrite !list_elem_of_In. symmetry. apply in_rev. Qed.

Lemma precedes_cons l x y z : precedes l x y -> precedes (z :: l) x y.
Proof.
  intros (l1 & l2 & l3 & ->). exists (z :: l1), l2, l3. reflexivity.
Qed.

Lemma precedes_head l x y : y ∈ l -> precedes (x :: l) x y.
Proof.
  intros Hy. apply list_elem_of_split in Hy. destruct Hy as (l2 & l3 & ->).
  exists [], l2, l3. reflexivity.
Qed.

Lemma precedes_rev l x y : precedes (rev l) y x -> precedes l x y.
Proof.
  intros (l1 & l2 & l3 & H).
  apply (f_equal (@rev A)) in H. rewrite rev_involutive in H. subst l.
  exists (rev l3), (rev l2), (rev l1).
  rewrite rev_app_distr. simpl. rewrite rev_app_distr. simpl.
  rewrite <- !app_assoc. reflexivity.
Qed.

Lemma precedes_app_l l l' x y : precedes l x y -> precedes (l ++ l') x y.
Proof.
  intros (l1 & l2 & l3 & ->). exists l1, l2, (l3 ++ l').
  rewrite <- !app_assoc. simpl. rewrite <- app_assoc. reflexivity.
Qed.

Lemma precedes_map {B : Type} (f : A -> B) l x y :
  precedes l x y -> precedes (map f l) (f x) (f y).
Proof.
  intros (l1 & l2 & l3 & ->). exists (map f l1), (map f l2), (map f l3).
  rewrite map_app. simpl. rewrite map_app. reflexivity.
Qed.

End Precedes.

Section SortFacts.
Context {A : Type} (key : A -> PyFloat.float).
Implicit Types (l : list A) (x y : A).

Lemma insert_asc_perm x l : insert_asc key x l ≡ₚ x :: l.
Proof.
  induction l as [|y l IH]; [reflexivity|].
  simpl. destruct (PyFloat.ltb (key y) (key x)); [|reflexivity].
  rewrite IH. apply Permutation_swap.
Qed.

Lemma sort_asc_perm l : sort_asc key l ≡ₚ l.
Proof.
  induction l as [|x l IH]; [reflexivity|].
  simpl. rewrite insert_asc_perm, IH. reflexivity.
Qed.

Lemma sorted_reverse_perm l : sorted_reverse key l ≡ₚ l.
Proof.
  unfold sorted_reverse.
  rewrite <- Permutation_rev, sort_asc_perm, <- Permutation_rev. reflexivity.
Qed.

Lemma insert_asc_sorted (R : relation A) x l :
  Forall (fun y => not_nan (key y) = true) l ->
  (forall y, y ∈ l -> PyFloat.ltb (key y) (key x) = true -> R y x) ->
  (forall y, y ∈ l -> PyFloat.ltb (key y) (key x) = false -> R x y) ->
  (forall y z, R y z -> PyFloat.ltb (key z) (key y) = false) ->
  StronglySorted R l ->
  (forall y z, y ∈ l -> z ∈ l -> PyFloat.ltb (key y) (key x) = false ->
               PyFloat.ltb (key z) (key y) = false ->
               PyFloat.ltb (key z) (key x) = false) ->
  StronglySorted R (insert_asc key x l).
Proof.
  intros Hnan Hlt Hge HR Hs Htr.
  induction Hs as [|y l Hs IH Hy]; simpl.
  - repeat constructor.
  - destruct (PyFloat.ltb (key y) (key x)) eqn:Hyx.
    + apply StronglySorted_cons. split.
      * rewrite insert_asc_perm. constructor; [|exact Hy].
        apply Hlt; [left | exact Hyx].
      * apply IH.
        -- inversion Hnan; assumption.
        -- intros z Hz. apply Hlt. right. exact Hz.
        -- intros z Hz. apply Hge. right. exact Hz.
        -- intros z z' Hz Hz'. apply Htr; right; assumption.
    + apply StronglySorted_cons. split.
      * constructor.
        -- apply Hge; [left | exact Hyx].
        -- apply Forall_forall. intros z Hz. apply Hge; [right; exact Hz|].
           apply (Htr y z); [left | right; exact Hz | exact Hyx |].
           apply HR. rewrite Forall_forall in Hy. apply Hy, Hz.
      * constructor; assumption.
Qed.

Lemma StronglySorted_weaken (R1 R2 : relation A) l :
  (forall a b, R1 a b -> R2 a b) -> StronglySorted R1 l -> StronglySorted R2 l.
Proof.
  intros HR. induction 1 as [|x l Hs IH Hx]; constructor; [exact IH|].
  eapply Forall_impl; [exact Hx|]. intros b. apply HR.
Qed.

Lemma asc_stable_cons l x a b : asc_stable key l a b -> asc_stable key (x :: l) a b.
Proof.
  intros [H1 H2]. split; [exact H1|].
  intros H. apply precedes_cons, H2, H.
Qed.

Lemma sort_asc_sorted l :
  Forall (fun y => not_nan (key y) = true) l ->
  StronglySorted (asc_stable key l) (sort_asc key l).
Proof.
  induction l as [|x l IH]; intros Hnan; [constructor|].
  inversion Hnan as [|? ? Hx Hl]; subst.
  simpl. apply insert_asc_sorted.
  - rewrite sort_asc_perm. exact Hl.
  - intros y _ Hyx. split; [apply ltb_asym, Hyx|].
    intros E. rewrite E in Hyx. discriminate.
  - intros y Hy Hyx. split; [exact Hyx|].
    intros _. apply precedes_head. rewrite sort_asc_perm in Hy. exact Hy.
  - intros y z [H _]. exact H.
  - apply (StronglySorted_weaken (asc_stable key l)).
    + intros a b. apply asc_stable_cons.
    + apply IH, Hl.
  - intros y z Hy _ Hyx Hzy.
    apply (ltb_neg_trans _ (key y)); [|exact Hzy | exact Hyx].
    rewrite sort_asc_perm in Hy. rewrite Forall_forall in Hl. apply Hl, Hy.
Qed.

Lemma StronglySorted_rev (R : relation A) l :
  StronglySorted R l -> StronglySorted (flip R) (rev l).
Proof.
  induction 1 as [|x l Hs IH Hx]; [constructor|].
  simpl. apply StronglySorted_app_2.
  - intros y z Hy Hz. apply list_elem_of_singleton in Hz. subst z.
    rewrite Forall_forall in Hx. apply Hx.
    apply elem_of_rev, Hy.
  - exact IH.
  - repeat constructor.
Qed.

(** The result of [sorted(..., reverse=True)] on keys without NaN: a
    rearrangement of the list in which no element has a smaller key than a
    later one, and equal keys stay in the order of the list. *)
Lemma sorted_reverse_sorted l :
  Forall (fun y => not_nan (key y) = true) l ->
  StronglySorted (desc_stable key l) (sorted_reverse key l).
Proof.
  intros Hnan. unfold sorted_reverse.
  apply (StronglySorted_weaken (flip (asc_stable key (rev l)))).
  - intros a b [H1 H2]. split; [exact H1|].
    intros H. apply precedes_rev, H2, H.
  - apply StronglySorted_rev, sort_asc_sorted.
    apply Forall_forall. intros y Hy. rewrite Forall_forall in Hnan.
    apply Hnan, elem_of_rev, Hy.
Qed.

End SortFacts.

(* ===================================================================== *)
(** * Dictionaries and first appearances *)
(* ===================================================================== *)

Section OrderedDictFacts.
Context {V : Type}.
Implicit Types (d : list (string * V)) (k : string) (v : V).

Lemma od_get_set d k v k' :
  od_get (od_set d k v) k' = if String.eqb k' k then Some v else od_get d k'.
Proof.
  induction d as [|[k0 v0] d IH]; simpl.
  - destruct (String.eqb k' k); reflexivity.
  - destruct (String.eqb_spec k k0) as [->|Hk]; simpl.
    + destruct (String.eqb k' k0); reflexivity.
    + rewrite IH. destruct (String.eqb_spec k' k0) as [->|Hk'].
      * destruct (String.eqb_spec k0 k); [congruence | reflexivity].
      * reflexivity.
Qed.

Lemma od_get_None d k : od_get d k = None <-> k ∉ map fst d.
Proof.
  induction d as [|[k0 v0] d IH]; simpl.
  - split; [intros _; apply not_elem_of_nil | reflexivity].
  - rewrite not_elem_of_cons. destruct (String.eqb_spec k k0) as [->|Hk].
    + split; [discriminate | intros [H _]; congruence].
    + rewrite IH. tauto.
Qed.

Lemma od_keys_set d k v :
  map fst (od_set d k v)
  = if bool_decide (k ∈ map fst d) then map fst d else map fst d ++ [k].
Proof.
  induction d as [|[k0 v0] d IH]; cbn [od_set map fst].
  - rewrite bool_decide_eq_false_2; [reflexivity | apply not_elem_of_nil].
  - destruct (String.eqb_spec k k0) as [->|Hk]; cbn [od_set map fst].
    + rewrite bool_decide_eq_true_2; [reflexivity | left].
    + rewrite IH. destruct (bool_decide (k ∈ map fst d)) eqn:Hd.
      * apply bool_decide_eq_true in Hd.
        rewrite bool_decide_eq_true_2; [reflexivity | right; exact Hd].
      * apply bool_decide_eq_false in Hd.
        rewrite bool_decide_eq_false_2; [reflexivity|].
        rewrite not_elem_of_cons. split; assumption.
Qed.

Lemma od_set_Forall (P : V -> Prop) d k v :
  Forall (fun kv => P kv.2) d -> P v -> Forall (fun kv => P kv.2) (od_set d k v).
Proof.
  intros Hd Hv. induction Hd as [|[k0 v0] d H0 Hd IH]; simpl.
  - repeat constructor. exact Hv.
  - destruct (String.eqb k k0); constructor; assumption.
Qed.

Lemma od_get_Forall (P : V -> Prop) d k v :
  Forall (fun kv => P kv.2) d -> od_get d k = Some v -> P v.
Proof.
  intros Hd. induction Hd as [|[k0 v0] d H0 Hd IH]; simpl; [discriminate|].
  destruct (String.eqb k k0); [|exact IH].
  intros [= <-]. exact H0.
Qed.

Lemma od_get_elem_of d k v : (k, v) ∈ d -> k ∈ map fst d.
Proof.
  intros H. change k with (fst (k, v)).
  rewrite list_elem_of_In. apply in_map. rewrite <- list_elem_of_In. exact H.
Qed.

Lemma od_elem_of_get d k v : NoDup (map fst d) -> (k, v) ∈ d -> od_get d k = Some v.
Proof.
  induction d as [|[k0 v0] d IH]; simpl; intros Hnd Hin.
  - apply elem_of_nil in Hin. destruct Hin.
  - apply NoDup_cons in Hnd. destruct Hnd as [Hk0 Hnd].
    apply elem_of_cons in Hin. destruct Hin as [[= -> ->]|Hin].
    + rewrite String.eqb_refl. reflexivity.
    + destruct (String.eqb_spec k k0) as [->|Hk]; [|apply IH; assumption].
      exfalso. apply Hk0. eapply od_get_elem_of, Hin.
Qed.

End OrderedDictFacts.

Section FirstAppearance.
Implicit Types (s : gset string) (a b : list string) (x : string).

Lemma uniq_from_app s a b :
  uniq_from s (a ++ b) = uniq_from s a ++ uniq_from (s ∪ list_to_set a) b.
Proof.
  revert s. induction a as [|x a IH]; intros s; simpl.
  - rewrite (right_id_L ∅ (∪)). reflexivity.
  - destruct (bool_decide (x ∈ s)) eqn:Hx.
    + apply bool_decide_eq_true in Hx. rewrite IH. do 2 f_equal. set_solver.
    + simpl. rewrite IH. do 3 f_equal. set_solver.
Qed.

Lemma uniq_from_idem s s' a : s' ⊆ s -> uniq_from s (uniq_from s' a) = uniq_from s a.
Proof.
  revert s s'. induction a as [|x a IH]; intros s s' Hs; simpl; [reflexivity|].
  destruct (bool_decide (x ∈ s')) eqn:Hx'.
  - apply bool_decide_eq_true in Hx'.
    rewrite bool_decide_eq_true_2 by set_solver. apply IH, Hs.
  - simpl. destruct (bool_decide (x ∈ s)) eqn:Hx.
    + apply bool_decide_eq_true in Hx. apply IH. set_solver.
    + f_equal. apply IH. set_solver.
Qed.

Lemma uniq_from_set s a : s ∪ list_to_set (uniq_from s a) = s ∪ list_to_set a.
Proof.
  revert s. induction a as [|x a IH]; intros s; simpl; [reflexivity|].
  destruct (bool_decide (x ∈ s)) eqn:Hx.
  - apply bool_decide_eq_true in Hx. rewrite IH. set_solver.
  - simpl. specialize (IH (s ∪ {[x]})). set_solver.
Qed.

Lemma elem_of_uniq_from s a x : x ∈ uniq_from s a <-> x ∈ a /\ x ∉ s.
Proof.
  revert s. induction a as [|y a IH]; intros s; simpl.
  - split; [intros H; apply elem_of_nil in H; destruct H | intros [H _]; exact H].
  - destruct (bool_decide (y ∈ s)) eqn:Hy.
    + apply bool_decide_eq_true in Hy. rewrite IH, elem_of_cons.
      split; [tauto|]. intros [[->|H] Hs]; [contradiction | tauto].
    + apply bool_decide_eq_false in Hy. rewrite !elem_of_cons, IH.
      split.
      * intros [->|[H Hs]]; [tauto|]. split; [tauto | set_solver].
      * intros [[->|H] Hs]; [tauto|].
        destruct (decide (x = y)) as [->|Hne]; [tauto|]. right. split; [exact H | set_solver].
Qed.

Lemma uniq_from_NoDup s a : NoDup (uniq_from s a).
Proof.
  revert s. induction a as [|x a IH]; intros s; simpl; [constructor|].
  destruct (bool_decide (x ∈ s)); [apply IH|].
  apply NoDup_cons. split; [|apply IH].
  rewrite elem_of_uniq_from. set_solver.
Qed.

Lemma first_seen_names s (l : list Frame) :
  map name (first_seen s l) = uniq_from s (map name l).
Proof.
  revert s. induction l as [|f l IH]; intros s; simpl; [reflexivity|].
  destruct (bool_decide (name f ∈ s)); simpl; rewrite IH; reflexivity.
Qed.

End FirstAppearance.

(* ===================================================================== *)
(** * The aggregation loops as sequences of accumulations *)
(* ===================================================================== *)

Lemma replay_app (st : Stats) (e1 e2 : list (Frame * PyFloat.float)) :
  replay st (e1 ++ e2) = replay (replay st e1) e2.
Proof. apply fold_left_app. Qed.

Lemma replay_flat_map {A : Type} (ev : A -> list (Frame * PyFloat.float))
    (l : list A) (st : Stats) :
  fold_left (fun st x => replay st (ev x)) l st = replay st (flat_map ev l).
Proof.
  revert st. induction l as [|x l IH]; intros st; simpl; [reflexivity|].
  rewrite IH, replay_app. reflexivity.
Qed.

Lemma fold_left_ext {A B : Type} (f g : A -> B -> A) (l : list B) (a : A) :
  (forall a b, f a b = g a b) -> fold_left f l a = fold_left g l a.
Proof.
  intros H. revert a. induction l as [|b l IH]; intros a; simpl; [reflexivity|].
  rewrite H. apply IH.
Qed.

(** ** Effect of one accumulation *)

Lemma count_of_accumulate (st : Stats) (f : Frame) (w : PyFloat.float) (n : string) :
  count_of (accumulate st f w) n
  = if String.eqb n (name f) then count_of st n + 1 else count_of st n.
Proof.
  unfold count_of, accumulate, count_up. simpl.
  destruct (String.eqb_spec n (name f)) as [->|Hn].
  - rewrite lookup_insert_eq. reflexivity.
  - rewrite lookup_insert_ne by congruence. reflexivity.
Qed.

Lemma weight_of_accumulate (st : Stats) (f : Frame) (w : PyFloat.float) (n : string) :
  weight_of (accumulate st f w) n
  = if String.eqb n (name f) then PyFloat.add (weight_of st n) w else weight_of st n.
Proof.
  unfold weight_of, accumulate, weight_up. simpl.
  rewrite od_get_set. destruct (String.eqb_spec n (name f)) as [->|Hn]; reflexivity.
Qed.

Lemma keys_accumulate (st : Stats) (f : Frame) (w : PyFloat.float) :
  map fst (frame_weights (accumulate st f w))
  = if bool_decide (name f ∈ map fst (frame_weights st))
    then map fst (frame_weights st)
    else map fst (frame_weights st) ++ [name f].
Proof. unfold accumulate, weight_up. simpl. apply od_keys_set. Qed.

(** ** Effect of a sequence of accumulations *)

(** The keys of the weights, in the order of the dictionary: the keys that
    were there, then the new names at their first accumulation. *)
Lemma replay_keys (st : Stats) (ev : list (Frame * PyFloat.float)) :
  map fst (frame_weights (replay st ev))
  = map fst (frame_weights st)
    ++ uniq_from (list_to_set (map fst (frame_weights st)))
                 (map (fun e => name e.1) ev).
Proof.
  revert st. induction ev as [|[f w] ev IH]; intros st.
  - simpl. rewrite app_nil_r. reflexivity.
  - change (replay st ((f, w) :: ev)) with (replay (accumulate st f w) ev).
    rewrite IH, keys_accumulate. cbn [map uniq_from fst].
    destruct (bool_decide (name f ∈ map fst (frame_weights st))) eqn:Hk.
    + apply bool_decide_eq_true in Hk.
      rewrite bool_decide_eq_true_2 by (apply elem_of_list_to_set; exact Hk).
      reflexivity.
    + apply bool_decide_eq_false in Hk.
      rewrite bool_decide_eq_false_2 by (rewrite elem_of_list_to_set; exact Hk).
      rewrite <- app_assoc. simpl. do 3 f_equal.
      rewrite list_to_set_app_L. simpl. set_solver.
Qed.


(** No NaN comes into the weights when durations are accumulated. *)
Lemma replay_nonneg (st : Stats) (ev : list (Frame * PyFloat.float)) :
  Forall (fun kv => nonneg kv.2 = true) (frame_weights st) ->
  Forall (fun e => nonneg e.2 = true) ev ->
  Forall (fun kv => nonneg kv.2 = true) (frame_weights (replay st ev)).
Proof.
  intros Hst Hev. revert st Hst.
  induction Hev as [|[f w] ev Hw Hev IH]; intros st Hst; [exact Hst|].
  apply IH. unfold accumulate, weight_up. simpl.
  apply (od_set_Forall (fun v => nonneg v = true)); [exact Hst|].
  apply add_nonneg; [|exact Hw].
  destruct (od_get (frame_weights st) (name f)) as [v|] eqn:Hv; [|reflexivity].
  simpl. eapply (od_get_Forall (fun v => nonneg v = true)); eassumption.
Qed.

(** No NaN comes into the weights when finite weights are accumulated. *)
Lemma replay_finite (st : Stats) (ev : list (Frame * PyFloat.float)) :
  sums_are_numbers st ->
  Forall (fun e => PyFloat.is_finite e.2 = true) ev ->
  sums_are_numbers (replay st ev).
Proof.
  unfold sums_are_numbers. intros Hst Hev. revert st Hst.
  induction Hev as [|[f w] ev Hw Hev IH]; intros st Hst; [exact Hst|].
  apply IH. unfold accumulate, weight_up. simpl.
  apply (od_set_Forall (fun v => not_nan v = true)); [exact Hst|].
  apply add_finite_not_nan; [|exact Hw].
  destruct (od_get (frame_weights st) (name f)) as [v|] eqn:Hv; [|reflexivity].
  simpl. eapply (od_get_Forall (fun v => not_nan v = true)); eassumption.
Qed.

(** ** The inclusive loop *)

Lemma hot_frame_step_passes (fb : option string) (es : bool) (w : PyFloat.float)
    (st : Stats) (seen : gset string) (f : Frame) :
  hot_frame_step fb es w (st, seen) f
  = if hot_passes fb es f
    then if bool_decide (name f ∈ seen) then (st, seen)
         else (accumulate st f w, seen ∪ {[name f]})
    else (st, seen).
Proof.
  unfold hot_frame_step, hot_passes.
  destruct (raw_address f); [reflexivity|].
  destruct (binary_differs fb f); [reflexivity|].
  destruct (es && _is_system_frame f); reflexivity.
Qed.

(** The accumulations that a sample brings to the inclusive aggregation. *)
Lemma hot_inner (fb : option string) (es : bool) (w : PyFloat.float)
    (bt : list Frame) (st : Stats) (seen : gset string) :
  fold_left (hot_frame_step fb es w) bt (st, seen)
  = (replay st (map (fun f => (f, w))
                    (first_seen seen (List.filter (hot_passes fb es) bt))),
     seen ∪ list_to_set (map name (List.filter (hot_passes fb es) bt))).
Proof.
  revert st seen. induction bt as [|f bt IH]; intros st seen.
  - simpl. rewrite (right_id_L ∅ (∪)). reflexivity.
  - cbn [fold_left List.filter]. rewrite hot_frame_step_passes.
    destruct (hot_passes fb es f); [|apply IH].
    cbn [map first_seen list_to_set].
    destruct (bool_decide (name f ∈ seen)) eqn:Hs.
    + apply bool_decide_eq_true in Hs. rewrite IH. f_equal. set_solver.
    + rewrite IH. f_equal. set_solver.
Qed.

Lemma hot_sample_step_replay (fb : option string) (es : bool) (st : Stats) (s : Sample) :
  hot_sample_step fb es st s
  = replay st (map (fun f => (f, weight_ms s))
                   (first_seen ∅ (List.filter (hot_passes fb es) (backtrace s)))).
Proof. unfold hot_sample_step. rewrite hot_inner. reflexivity. Qed.

Lemma hot_stats_replay (samples : list Sample) (fb : option string) (es : bool) :
  hot_stats samples fb es
  = replay empty_stats
      (flat_map (fun s => map (fun f => (f, weight_ms s))
                   (first_seen ∅ (List.filter (hot_passes fb es) (backtrace s))))
                samples).
Proof.
  unfold hot_stats. rewrite <- replay_flat_map.
  apply fold_left_ext. intros st s. apply hot_sample_step_replay.
Qed.

(** ** The scoped loop *)

Lemma app_frame_step_passes (ab : string) (w : PyFloat.float)
    (st : Stats) (seen : gset string) (f : Frame) :
  app_frame_step ab w (st, seen) f
  = if app_passes ab f
    then if bool_decide (name f ∈ seen) then (st, seen)
         else (accumulate st (without_binary f) w, seen ∪ {[name f]})
    else (st, seen).
Proof.
  unfold app_frame_step, app_passes.
  destruct (raw_address f); [reflexivity|].
  destruct (not_app ab f); reflexivity.
Qed.

Lemma app_inner (ab : string) (w : PyFloat.float)
    (bt : list Frame) (st : Stats) (seen : gset string) :
  fold_left (app_frame_step ab w) bt (st, seen)
  = (replay st (map (fun f => (without_binary f, w))
                    (first_seen seen (List.filter (app_passes ab) bt))),
     seen ∪ list_to_set (map name (List.filter (app_passes ab) bt))).
Proof.
  revert st seen. induction bt as [|f bt IH]; intros st seen.
  - simpl. rewrite (right_id_L ∅ (∪)). reflexivity.
  - cbn [fold_left List.filter]. rewrite app_frame_step_passes.
    destruct (app_passes ab f); [|apply IH].
    cbn [map first_seen list_to_set].
    destruct (bool_decide (name f ∈ seen)) eqn:Hs.
    + apply bool_decide_eq_true in Hs. rewrite IH. f_equal. set_solver.
    + rewrite IH. f_equal. set_solver.
Qed.

Lemma app_stats_replay (samples : list Sample) (ab : string) :
  app_stats samples ab
  = replay empty_stats
      (flat_map (fun s => map (fun f => (f, weight_ms s))
                   (map without_binary
                      (first_seen ∅ (List.filter (app_passes ab) (backtrace s)))))
                samples).
Proof.
  unfold app_stats. rewrite <- replay_flat_map.
  apply fold_left_ext. intros st s. unfold app_sample_step.
  rewrite app_inner, map_map. reflexivity.
Qed.

(** ** The leaf-only loop *)

Lemma find_leaf_find (fb : option string) (bt : list Frame) :
  find_leaf fb bt = List.find (leaf_passes fb) bt.
Proof.
  induction bt as [|f bt IH]; [reflexivity|].
  simpl. unfold leaf_passes at 1.
  destruct (raw_address f); [exact IH|].
  destruct (binary_differs fb f); [exact IH | reflexivity].
Qed.

Lemma self_sample_step_replay (fb : option string) (st : Stats) (s : Sample) :
  self_sample_step fb st s
  = replay st (map (fun f => (f, weight_ms s))
                   (option_list (List.find (leaf_passes fb) (backtrace s)))).
Proof.
  unfold self_sample_step. rewrite find_leaf_find.
  destruct (List.find _ _); reflexivity.
Qed.

Lemma self_stats_replay (samples : list Sample) (fb : option string) :
  self_stats samples fb
  = replay empty_stats
      (flat_map (fun s => map (fun f => (f, weight_ms s))
                   (option_list (List.find (leaf_passes fb) (backtrace s))))
                samples).
Proof.
  unfold self_stats. rewrite <- replay_flat_map.
  apply fold_left_ext. intros st s. apply self_sample_step_replay.
Qed.

(* ===================================================================== *)
(** * Inclusive and leaf-only aggregation *)
(* ===================================================================== *)







(* ===================================================================== *)
(** * Ranking *)
(* ===================================================================== *)

Lemma slice_to_take {A : Type} (l : list A) (n : Z) :
  0 <= n -> slice_to l n = take (Z.to_nat n) l.
Proof.
  intros H. unfold slice_to. apply Z.leb_le in H. rewrite H. reflexivity.
Qed.

Lemma slice_to_map {A B : Type} (f : A -> B) (l : list A) (n : Z) :
  slice_to (map f l) n = map f (slice_to l n).
Proof.
  unfold slice_to. rewrite length_map.
  destruct (0 <=? n); apply firstn_map.
Qed.

Lemma ranked_stats_row (st : Stats) (top_n : Z) :
  ranked st top_n
  = map (stats_row st) (slice_to (sorted_reverse snd (frame_weights st)) top_n).
Proof.
  unfold ranked. apply map_ext. intros [n w]. reflexivity.
Qed.

(** What [ranked] returns, for weights without NaN. *)
Lemma ranked_is_ranking (st : Stats) (top_n : Z) :
  sums_are_numbers st ->
  NoDup (map fst (frame_weights st)) ->
  is_ranking st (map fst (frame_weights st)) top_n (ranked st top_n).
Proof.
  intros Hnn Hnd.
  set (items := frame_weights st).
  set (sorted := sorted_reverse snd items).
  assert (Hperm : sorted ≡ₚ items) by apply sorted_reverse_perm.
  exists (map (stats_row st) sorted). split; [|split; [|split]].
  - rewrite ranked_stats_row, slice_to_map. reflexivity.
  - rewrite map_map. simpl. rewrite Hperm. reflexivity.
  - apply Forall_forall. intros r Hr.
    rewrite list_elem_of_In in Hr. apply in_map_iff in Hr.
    destruct Hr as ([k v] & <- & Hkv). rewrite <- list_elem_of_In, Hperm in Hkv.
    unfold row_weight, row_count, row_name, weight_of, count_of, stats_row. simpl.
    fold items. rewrite (od_elem_of_get items k v Hnd Hkv). split; reflexivity.
  - apply (StronglySorted_fmap (stats_row st) (desc_stable snd items)).
    + intros a b [H1 H2]. split; [exact H1|].
      intros H. change (precedes (map fst items) (fst a) (fst b)).
      apply precedes_map, H2, H.
    + apply sorted_reverse_sorted. exact Hnn.
Qed.

(** Accumulating, for each sample, one frame for each name that the
    sample brings gives the names in the order of their first
    appearance. *)
Lemma names_uniq (ev : Sample -> list Frame) (tr : Sample -> list string)
    (samples : list Sample) (seen : gset string) :
  (forall s, map name (ev s) = uniq_from ∅ (tr s)) ->
  uniq_from seen
    (map (fun e : Frame * PyFloat.float => name e.1)
       (flat_map (fun s => map (fun f => (f, weight_ms s)) (ev s)) samples))
  = uniq_from seen (flat_map tr samples).
Proof.
  intros Hev. revert seen.
  induction samples as [|s samples IH]; intros seen; [reflexivity|].
  cbn [flat_map].
  rewrite map_app, !uniq_from_app, map_map. cbn [fst].
  change (map (fun x : Frame => name x)) with (map name).
  rewrite Hev, IH.
  rewrite uniq_from_idem by set_solver.
  f_equal. f_equal.
  pose proof (uniq_from_set ∅ (tr s)) as H.
  rewrite !(left_id_L ∅ (∪)) in H. rewrite H. reflexivity.
Qed.

Lemma self_names (fb : option string) (samples : list Sample) :
  map (fun e : Frame * PyFloat.float => name e.1)
    (flat_map (fun s => map (fun f => (f, weight_ms s))
                 (option_list (List.find (leaf_passes fb) (backtrace s))))
              samples)
  = self_trace fb samples.
Proof.
  induction samples as [|s samples IH]; [reflexivity|].
  unfold self_trace. cbn [flat_map omap list_omap]. fold (self_trace fb samples).
  rewrite map_app, IH.
  destruct (List.find (leaf_passes fb) (backtrace s)); reflexivity.
Qed.

Lemma events_nonneg {A : Type} (ev : Sample -> list A) (samples : list Sample) :
  Forall (fun s => nonneg (weight_ms s) = true) samples ->
  Forall (fun e : A * PyFloat.float => nonneg e.2 = true)
         (flat_map (fun s => map (fun f => (f, weight_ms s)) (ev s)) samples).
Proof.
  induction 1 as [|s samples Hs _ IH]; [constructor|].
  cbn [flat_map]. apply Forall_app. split; [|exact IH].
  apply Forall_forall. intros e He.
  rewrite list_elem_of_In in He. apply in_map_iff in He.
  destruct He as (f & <- & _). exact Hs.
Qed.

Lemma hot_stats_keys (samples : list Sample) (fb : option string) (es : bool) :
  map fst (frame_weights (hot_stats samples fb es))
  = uniq_from ∅ (hot_trace fb es samples).
Proof.
  rewrite hot_stats_replay, replay_keys. simpl.
  apply (names_uniq _ (fun s => map name (List.filter (hot_passes fb es) (backtrace s)))).
  intros s. apply first_seen_names.
Qed.

Lemma app_stats_keys (samples : list Sample) (ab : string) :
  map fst (frame_weights (app_stats samples ab))
  = uniq_from ∅ (app_trace ab samples).
Proof.
  rewrite app_stats_replay, replay_keys. simpl.
  apply (names_uniq _ (fun s => map name (List.filter (app_passes ab) (backtrace s)))).
  intros s. rewrite map_map. apply first_seen_names.
Qed.

Lemma self_stats_keys (samples : list Sample) (fb : option string) :
  map fst (frame_weights (self_stats samples fb))
  = uniq_from ∅ (self_trace fb samples).
Proof.
  rewrite self_stats_replay, replay_keys. simpl. rewrite self_names. reflexivity.
Qed.

Lemma events_finite {A : Type} (ev : Sample -> list A) (samples : list Sample) :
  Forall (fun s => PyFloat.is_finite (weight_ms s) = true) samples ->
  Forall (fun e : A * PyFloat.float => PyFloat.is_finite e.2 = true)
         (flat_map (fun s => map (fun f => (f, weight_ms s)) (ev s)) samples).
Proof.
  induction 1 as [|s samples Hs _ IH]; [constructor|].
  cbn [flat_map]. apply Forall_app. split; [|exact IH].
  apply Forall_forall. intros e He.
  rewrite list_elem_of_In in He. apply in_map_iff in He.
  destruct He as (f & <- & _). exact Hs.
Qed.

(** Weights that are all finite, or all durations, never add up to a
    NaN. *)
Lemma events_sums (ev : Sample -> list Frame) (samples : list Sample) :
  addable samples ->
  sums_are_numbers
    (replay empty_stats
            (flat_map (fun s => map (fun f => (f, weight_ms s)) (ev s)) samples)).
Proof.
  intros [Hf|Hn].
  - apply replay_finite; [constructor|]. apply events_finite, Hf.
  - unfold sums_are_numbers. eapply Forall_impl.
    + apply replay_nonneg; [constructor|]. apply events_nonneg, Hn.
    + intros kv. apply nonneg_not_nan.
Qed.

Lemma addable_sums (samples : list Sample) (fb : option string) (es : bool)
    (app_binary : string) :
  addable samples ->
  sums_are_numbers (hot_stats samples fb es)
  /\ sums_are_numbers (self_stats samples fb)
  /\ sums_are_numbers (app_stats samples app_binary).
Proof.
  intros H. split; [|split].
  - rewrite hot_stats_replay. apply events_sums, H.
  - rewrite self_stats_replay. apply events_sums, H.
  - rewrite app_stats_replay. apply events_sums, H.
Qed.

Lemma filter_sublist {A : Type} (p : A -> bool) (l : list A) :
  sublist (List.filter p l) l.
Proof.
  induction l as [|x l IH]; [constructor|].
  simpl. destruct (p x); [apply sublist_skip | apply sublist_cons]; exact IH.
Qed.

Lemma swiftui_loop_take (top_n : Z) (rows : list row)
    (results : list (string * Z * PyFloat.float)) :
  swiftui_loop top_n rows results
  = results
    ++ take (Z.to_nat (Z.max 1 (top_n - Z.of_nat (length results))))
            (map row_triple (List.filter is_swiftui_row rows)).
Proof.
  revert results. induction rows as [|[[[n c] w] b] rows IH]; intros results.
  - simpl. rewrite take_nil, app_nil_r. reflexivity.
  - cbn [swiftui_loop List.filter]. unfold is_swiftui_row at 1.
    change (row_name (n, c, w, b)) with n. change (row_binary (n, c, w, b)) with b.
    destruct (is_swiftui n b).
    + rewrite length_app. cbn [length map].
      change (row_triple (n, c, w, b)) with (n, c, w).
      destruct (Z.leb_spec top_n (Z.of_nat (length results + 1))) as [Hle|Hgt].
      * replace (Z.to_nat (Z.max 1 (top_n - Z.of_nat (length results)))) with 1%nat by lia.
        simpl. rewrite take_0. reflexivity.
      * rewrite IH, length_app. cbn [length].
        replace (Z.to_nat (Z.max 1 (top_n - Z.of_nat (length results))))
          with (S (Z.to_nat (Z.max 1 (top_n - Z.of_nat (length results + 1)))))
          by lia.
        cbn [take]. rewrite <- app_assoc. reflexivity.
    + apply IH.
Qed.

(** The keyword subset is taken from the first hundred rows of the
    inclusive ranking, in their order. *)
Lemma swiftui_sublist (samples : list Sample) (top_n : Z) :
  sublist (get_swiftui_frames samples top_n)
          (map row_triple (get_hot_frames samples 100 None false)).
Proof.
  unfold get_swiftui_frames. rewrite swiftui_loop_take. cbn [app].
  etransitivity; [apply sublist_take|].
  apply (fmap_sublist row_triple), filter_sublist.
Qed.

(** C8. The inclusive, the leaf-only and the scoped results are rankings,
    as long as no accumulated weight is NaN.  Each result is then the slice
    [[:top_n]] of the list that has one row for each accumulated name, with
    its accumulated count and weight, in descending order of weight, names
    of equal weight standing in the order in which the traversal of the
    samples first met them; the keyword subset is taken, in their order,
    from the first hundred rows of such a ranking.  No accumulated weight is
    NaN when the weights of the samples are all finite, or all durations
    (zero or more). *)
Theorem aggregations_ranked_stably (samples : list Sample) (top_n : Z)
    (fb : option string) (es : bool) (app_binary : string) :
  (sums_are_numbers (hot_stats samples fb es) ->
   is_ranking (hot_stats samples fb es)
              (uniq_from ∅ (hot_trace fb es samples)) top_n
              (get_hot_frames samples top_n fb es))
  /\ (sums_are_numbers (self_stats samples fb) ->
      is_ranking (self_stats samples fb)
                 (uniq_from ∅ (self_trace fb samples)) top_n
                 (get_self_time_frames samples top_n fb))
  /\ (sums_are_numbers (app_stats samples app_binary) ->
      exists rows,
        is_ranking (app_stats samples app_binary)
                   (uniq_from ∅ (app_trace app_binary samples)) top_n rows
        /\ get_app_frames samples app_binary top_n
           = map (fun r => (row_name r, row_count r, row_weight r)) rows)
  /\ (sums_are_numbers (hot_stats samples None false) ->
      exists rows,
        is_ranking (hot_stats samples None false)
                   (uniq_from ∅ (hot_trace None false samples)) 100 rows
        /\ sublist (get_swiftui_frames samples top_n) (map row_triple rows))
  /\ (addable samples ->
      sums_are_numbers (hot_stats samples fb es)
      /\ sums_are_numbers (self_stats samples fb)
      /\ sums_are_numbers (app_stats samples app_binary)).
Proof.
  split; [|split; [|split; [|split]]].
  - intros Hw. rewrite <- hot_stats_keys. apply ranked_is_ranking; [exact Hw|].
    rewrite hot_stats_keys. apply uniq_from_NoDup.
  - intros Hw. rewrite <- self_stats_keys. apply ranked_is_ranking; [exact Hw|].
    rewrite self_stats_keys. apply uniq_from_NoDup.
  - intros Hw. exists (ranked (app_stats samples app_binary) top_n). split.
    + rewrite <- app_stats_keys. apply ranked_is_ranking; [exact Hw|].
      rewrite app_stats_keys. apply uniq_from_NoDup.
    + unfold get_app_frames. apply map_ext. intros [[[n c] w] b]. reflexivity.
  - intros Hw. exists (get_hot_frames samples 100 None false). split.
    + rewrite <- hot_stats_keys. apply ranked_is_ranking; [exact Hw|].
      rewrite hot_stats_keys. apply uniq_from_NoDup.
    + apply swiftui_sublist.
  - apply addable_sums.
Qed.

Lemma aggregations_ranked_stably_witness :
  addable two_rows
  /\ is_ranking (hot_stats two_rows None false)
                (uniq_from ∅ (hot_trace None false two_rows)) (-1)
                (get_hot_frames two_rows (-1) None false)
  /\ is_ranking (self_stats two_rows None)
                (uniq_from ∅ (self_trace None two_rows)) 2
                (get_self_time_frames two_rows 2 None)
  /\ exists rows,
       is_ranking (app_stats two_rows "binx")
                  (uniq_from ∅ (app_trace "binx" two_rows)) 2 rows
       /\ get_app_frames two_rows "binx" 2
          = map (fun r => (row_name r, row_count r, row_weight r)) rows.
Proof.
  assert (Ha : addable two_rows) by (left; repeat constructor).
  split; [exact Ha|].
  destruct (aggregations_ranked_stably two_rows (-1) None false "binx")
    as (Hhot & _ & _ & _ & Hsums).
  destruct (aggregations_ranked_stably two_rows 2 None false "binx")
    as (_ & Hself & Happ & _ & _).
  destruct (Hsums Ha) as (H1 & H2 & H3).
  split; [exact (Hhot H1)|]. split; [exact (Hself H2) | exact (Happ H3)].
Defined.

(** The claim without the condition on the weights fails.  The rows of
    [nan_doc] have the weights 1, NaN and 2: the text "nan ms" is a float
    for [float], so that the fallback does not apply.  [sorted] reverses
    the items to c, b, a; neither [nan < 2] nor [1 < nan] holds, so that
    this is one ascending run for it and nothing moves; reversed again, the
    result is a, b, c, where the name of weight 2 stands after the name of
    weight 1. *)
Lemma aggregations_ranked_counterexample :
  map weight_ms (parse nan_doc) = [float_1; S754_nan; float_2]
  /\ get_hot_frames (parse nan_doc) 3 None false
     = [("a", 1, float_1, None); ("b", 1, S754_nan, None); ("c", 1, float_2, None)]
  /\ PyFloat.ltb float_1 float_2 = true
  /\ ~ StronglySorted (fun r1 r2 => PyFloat.ltb (row_weight r1) (row_weight r2) = false)
                      (get_hot_frames (parse nan_doc) 3 None false).
Proof.
  assert (E : get_hot_frames (parse nan_doc) 3 None false
              = [("a", 1, float_1, None); ("b", 1, S754_nan, None);
                 ("c", 1, float_2, None)]) by (vm_compute; reflexivity).
  split; [vm_compute; reflexivity|]. split; [exact E|].
  split; [reflexivity|]. rewrite E. intros H.
  apply StronglySorted_inv in H. destruct H as [_ H].
  apply Forall_inv_tail, Forall_inv in H. discriminate H.
Qed.

(** The two samples, ranked: [funcA] is in both and is the leaf of both. *)
Example two_rows_ranked :
  get_hot_frames two_rows 2 None false
  = [("funcA", 2, float_8, Some "binY"); ("funcB", 1, float_5, Some "binX")]
  /\ get_self_time_frames two_rows 1 None = [("funcA", 2, float_8, Some "binY")].
Proof. split; vm_compute; reflexivity. Qed.

(* ===================================================================== *)
(** * Raw-address frames *)
(* ===================================================================== *)

Lemma fold_left_filter_skip {A B : Type} (step : A -> B -> A) (q : B -> bool)
    (l : list B) (a : A) :
  (forall a x, q x = false -> step a x = a) ->
  fold_left step (List.filter q l) a = fold_left step l a.
Proof.
  intros Hskip. revert a. induction l as [|x l IH]; intros a; [reflexivity|].
  simpl. destruct (q x) eqn:Hq; simpl.
  - apply IH.
  - rewrite (Hskip a x Hq). apply IH.
Qed.

Lemma fold_left_map {A B C : Type} (step : A -> B -> A) (g : C -> B)
    (l : list C) (a : A) :
  fold_left step (map g l) a = fold_left (fun a x => step a (g x)) l a.
Proof.
  revert a. induction l as [|x l IH]; intros a; [reflexivity|]. simpl. apply IH.
Qed.

Lemma find_filter_skip {A : Type} (p q : A -> bool) (l : list A) :
  (forall x, q x = false -> p x = false) ->
  List.find p (List.filter q l) = List.find p l.
Proof.
  intros H. induction l as [|x l IH]; [reflexivity|].
  simpl. destruct (q x) eqn:Hq; simpl.
  - rewrite IH. reflexivity.
  - rewrite (H x Hq). exact IH.
Qed.

(** ** The aggregations do not see the raw-address frames *)

Lemma hot_sample_step_without_raw (fb : option string) (es : bool) (st : Stats) (s : Sample) :
  hot_sample_step fb es st (without_raw s) = hot_sample_step fb es st s.
Proof.
  unfold hot_sample_step, without_raw. simpl. f_equal.
  apply fold_left_filter_skip. intros [a seen] f Hf.
  apply negb_false_iff in Hf. unfold hot_frame_step. rewrite Hf. reflexivity.
Qed.

Lemma app_sample_step_without_raw (ab : string) (st : Stats) (s : Sample) :
  app_sample_step ab st (without_raw s) = app_sample_step ab st s.
Proof.
  unfold app_sample_step, without_raw. simpl. f_equal.
  apply fold_left_filter_skip. intros [a seen] f Hf.
  apply negb_false_iff in Hf. unfold app_frame_step. rewrite Hf. reflexivity.
Qed.

Lemma self_sample_step_without_raw (fb : option string) (st : Stats) (s : Sample) :
  self_sample_step fb st (without_raw s) = self_sample_step fb st s.
Proof.
  unfold self_sample_step, without_raw. simpl.
  rewrite !find_leaf_find, find_filter_skip; [reflexivity|].
  intros f Hf. apply negb_false_iff in Hf. unfold leaf_passes. rewrite Hf. reflexivity.
Qed.

Lemma hot_stats_without_raw (samples : list Sample) (fb : option string) (es : bool) :
  hot_stats (map without_raw samples) fb es = hot_stats samples fb es.
Proof.
  unfold hot_stats. rewrite fold_left_map. apply fold_left_ext.
  intros st s. apply hot_sample_step_without_raw.
Qed.

Lemma self_stats_without_raw (samples : list Sample) (fb : option string) :
  self_stats (map without_raw samples) fb = self_stats samples fb.
Proof.
  unfold self_stats. rewrite fold_left_map. apply fold_left_ext.
  intros st s. apply self_sample_step_without_raw.
Qed.

Lemma app_stats_without_raw (samples : list Sample) (ab : string) :
  app_stats (map without_raw samples) ab = app_stats samples ab.
Proof.
  unfold app_stats. rewrite fold_left_map. apply fold_left_ext.
  intros st s. apply app_sample_step_without_raw.
Qed.

(** ** No key of the weights is a raw address *)

Lemma od_set_keys_Forall {V : Type} (P : string -> Prop) (d : list (string * V))
    (k : string) (v : V) :
  Forall (fun kv => P kv.1) d -> P k -> Forall (fun kv => P kv.1) (od_set d k v).
Proof.
  intros Hd Hk. induction Hd as [|[k0 v0] d H0 Hd IH]; simpl.
  - repeat constructor. exact Hk.
  - destruct (String.eqb k k0); constructor; assumption.
Qed.

Lemma weight_up_no_raw (d : list (string * PyFloat.float)) (f : Frame) (w : PyFloat.float) :
  Forall (fun kv : string * PyFloat.float => raw_name kv.1 = false) d ->
  raw_address f = false ->
  Forall (fun kv : string * PyFloat.float => raw_name kv.1 = false)
         (weight_up d (name f) w).
Proof.
  intros Hd Hf. unfold weight_up.
  apply (od_set_keys_Forall (fun k => raw_name k = false)); assumption.
Qed.

Lemma fold_left_invariant {A B : Type} (I : A -> Prop) (step : A -> B -> A)
    (l : list B) (a : A) :
  (forall a x, I a -> I (step a x)) -> I a -> I (fold_left step l a).
Proof.
  intros Hstep. revert a. induction l as [|x l IH]; intros a Ha; [exact Ha|].
  simpl. apply IH, Hstep, Ha.
Qed.

Lemma hot_stats_no_raw (samples : list Sample) (fb : option string) (es : bool) :
  no_raw_key (hot_stats samples fb es).
Proof.
  unfold hot_stats. apply fold_left_invariant; [|constructor].
  intros st s Hst. unfold hot_sample_step.
  apply (fold_left_invariant (fun acc : Stats * gset string => no_raw_key acc.1));
    [|exact Hst].
  intros [a seen] f Ha. unfold hot_frame_step.
  destruct (raw_address f) eqn:Hf; [exact Ha|].
  destruct (binary_differs fb f); [exact Ha|].
  destruct (es && _is_system_frame f); [exact Ha|].
  destruct (bool_decide (name f ∈ seen)); [exact Ha|].
  apply weight_up_no_raw; assumption.
Qed.

Lemma app_stats_no_raw (samples : list Sample) (ab : string) :
  no_raw_key (app_stats samples ab).
Proof.
  unfold app_stats. apply fold_left_invariant; [|constructor].
  intros st s Hst. unfold app_sample_step.
  apply (fold_left_invariant (fun acc : Stats * gset string => no_raw_key acc.1));
    [|exact Hst].
  intros [a seen] f Ha. unfold app_frame_step.
  destruct (raw_address f) eqn:Hf; [exact Ha|].
  destruct (not_app ab f); [exact Ha|].
  destruct (bool_decide (name f ∈ seen)); [exact Ha|].
  apply weight_up_no_raw; assumption.
Qed.

Lemma self_stats_no_raw (samples : list Sample) (fb : option string) :
  no_raw_key (self_stats samples fb).
Proof.
  unfold self_stats. apply fold_left_invariant; [|constructor].
  intros st s Hst. unfold self_sample_step. rewrite find_leaf_find.
  destruct (List.find (leaf_passes fb) (backtrace s)) as [leaf|] eqn:Hl; [|exact Hst].
  apply find_some in Hl. destruct Hl as [_ Hl].
  apply andb_true_iff in Hl. destruct Hl as [Hl _]. apply negb_true_iff in Hl.
  apply weight_up_no_raw; assumption.
Qed.

Lemma Forall_slice_to {A : Type} (P : A -> Prop) (l : list A) (n : Z) :
  Forall P l -> Forall P (slice_to l n).
Proof. intros H. unfold slice_to. destruct (0 <=? n); apply Forall_take, H. Qed.

Lemma ranked_no_raw (st : Stats) (top_n : Z) :
  no_raw_key st -> Forall (fun r => raw_name (row_name r) = false) (ranked st top_n).
Proof.
  intros H. rewrite ranked_stats_row. apply Forall_fmap.
  apply Forall_slice_to. rewrite sorted_reverse_perm. exact H.
Qed.

Lemma swiftui_loop_Forall (P : string -> Prop) (top_n : Z) (rows : list row)
    (results : list (string * Z * PyFloat.float)) :
  Forall (fun r => P (row_name r)) rows ->
  Forall (fun t => P t.1.1) results ->
  Forall (fun t => P t.1.1) (swiftui_loop top_n rows results).
Proof.
  intros Hrows. revert results.
  induction Hrows as [|[[[n c] w] b] rows Hr Hrows IH]; intros results Hres;
    [exact Hres|].
  simpl. destruct (is_swiftui n b); [|apply IH, Hres].
  assert (Hres' : Forall (fun t : string * Z * PyFloat.float => P t.1.1)
                         (results ++ [(n, c, w)])).
  { apply Forall_app. split; [exact Hres|]. repeat constructor. exact Hr. }
  destruct (top_n <=? _); [exact Hres' | apply IH, Hres'].
Qed.

Lemma filter_filter_implied {A : Type} (p q : A -> bool) (l : list A) :
  (forall x, p x = true -> q x = true) ->
  List.filter p (List.filter q l) = List.filter p l.
Proof.
  intros H. induction l as [|x l IH]; [reflexivity|].
  simpl. destruct (q x) eqn:Hq; simpl.
  - rewrite IH. reflexivity.
  - destruct (p x) eqn:Hp; [|exact IH]. rewrite (H x Hp) in Hq. discriminate.
Qed.

Lemma raw_name_truthy (n : string) : raw_name n = true -> PyStr.truthy n = true.
Proof. destruct n; [discriminate | reflexivity]. Qed.

(** C6. A reconstructed backtrace has the named frames of the row in their
    traversal order, and all the frames with a raw-address name among them;
    the four aggregations give the same result with and without the
    raw-address frames, and no row of their results has a raw-address
    name. *)
Theorem raw_address_frames_kept_not_aggregated
    (id_cache : gmap string Element) (row : Element)
    (samples : list Sample) (top_n : Z) (fb : option string) (es : bool)
    (app_binary : string) :
  match _parse_row id_cache row with
  | Some sample =>
      map name (backtrace sample)
      = List.filter PyStr.truthy
          (map (resolved_name id_cache) (frame_elems id_cache row))
      /\ List.filter raw_name (map name (backtrace sample))
         = List.filter raw_name
             (map (resolved_name id_cache) (frame_elems id_cache row))
  | None => True
  end
  /\ (get_hot_frames (map without_raw samples) top_n fb es
      = get_hot_frames samples top_n fb es
      /\ Forall (fun r => raw_name (row_name r) = false)
                (get_hot_frames samples top_n fb es))
  /\ (get_self_time_frames (map without_raw samples) top_n fb
      = get_self_time_frames samples top_n fb
      /\ Forall (fun r => raw_name (row_name r) = false)
                (get_self_time_frames samples top_n fb))
  /\ (get_app_frames (map without_raw samples) app_binary top_n
      = get_app_frames samples app_binary top_n
      /\ Forall (fun t => raw_name t.1.1 = false)
                (get_app_frames samples app_binary top_n))
  /\ (get_swiftui_frames (map without_raw samples) top_n
      = get_swiftui_frames samples top_n
      /\ Forall (fun t => raw_name t.1.1 = false)
                (get_swiftui_frames samples top_n)).
Proof.
  split; [|split; [|split; [|split]]].
  - pose proof (parse_row_backtrace id_cache row) as H.
    destruct (_parse_row id_cache row) as [sample|]; [|exact I].
    destruct H as [-> _]. rewrite row_backtrace_omap, omap_frame_of_names.
    split; [reflexivity|].
    apply filter_filter_implied. exact raw_name_truthy.
  - unfold get_hot_frames. rewrite hot_stats_without_raw.
    split; [reflexivity|]. apply ranked_no_raw, hot_stats_no_raw.
  - unfold get_self_time_frames. rewrite self_stats_without_raw.
    split; [reflexivity|]. apply ranked_no_raw, self_stats_no_raw.
  - unfold get_app_frames. rewrite app_stats_without_raw.
    split; [reflexivity|]. apply Forall_fmap.
    eapply Forall_impl; [apply ranked_no_raw, app_stats_no_raw|].
    intros [[[n c] w] b] H. exact H.
  - unfold get_swiftui_frames, get_hot_frames. rewrite hot_stats_without_raw.
    split; [reflexivity|].
    apply (swiftui_loop_Forall (fun n => raw_name n = false)); [|constructor].
    apply ranked_no_raw, hot_stats_no_raw.
Qed.

(* ===================================================================== *)
(** * Collapsed stacks *)
(* ===================================================================== *)

Lemma prefix_empty (s : string) : String.prefix "" s = true.
Proof. destruct s; reflexivity. Qed.

Lemma prefix_cons (a b : ascii) (s1 s2 : string) :
  String.prefix (String a s1) (String b s2)
  = if Ascii.eqb a b then String.prefix s1 s2 else false.
Proof.
  cbn [String.prefix].
  destruct (Ascii.ascii_dec a b) as [->|Hne].
  - rewrite Ascii.eqb_refl. reflexivity.
  - destruct (Ascii.eqb_spec a b); [contradiction | reflexivity].
Qed.

Lemma replace_char (c d : ascii) (s : string) :
  PyStr.replace s (String c EmptyString) (String d EmptyString)
  = string_map (fun x => if Ascii.eqb x c then d else x) s.
Proof.
  unfold PyStr.replace.
  induction s as [|x s IH]; [reflexivity|].
  cbn [PyStr.replace_from string_map String.length Nat.pred].
  rewrite prefix_cons, prefix_empty, (Ascii.eqb_sym c x), IH.
  destruct (Ascii.eqb x c); reflexivity.
Qed.

Lemma string_map_map (f g : ascii -> ascii) (s : string) :
  string_map g (string_map f s) = string_map (fun c => g (f c)) s.
Proof. induction s as [|c s IH]; [reflexivity|]. simpl. rewrite IH. reflexivity. Qed.

Lemma string_map_ext (f g : ascii -> ascii) (s : string) :
  (forall c, f c = g c) -> string_map f s = string_map g s.
Proof.
  intros H. induction s as [|c s IH]; [reflexivity|]. simpl. rewrite H, IH. reflexivity.
Qed.

(** The cleaned name: every separator becomes a colon and every blank an
    underscore. *)
Lemma clean_name_chars (n : string) : clean_name n = string_map clean_char n.
Proof.
  unfold clean_name. rewrite !replace_char, string_map_map.
  apply string_map_ext. intros c. unfold clean_char.
  destruct (Ascii.eqb_spec c ";") as [->|_]; [reflexivity|].
  reflexivity.
Qed.

Lemma stack_step_fold (fb : option string) (l : list Frame) (acc : list string) :
  fold_left (stack_step fb) l acc
  = acc ++ map (fun f => clean_name (name f)) (List.filter (survives fb) l).
Proof.
  revert acc. induction l as [|f l IH]; intros acc.
  - simpl. rewrite app_nil_r. reflexivity.
  - cbn [fold_left List.filter]. rewrite IH. unfold stack_step, survives.
    destruct (raw_address f); [reflexivity|].
    destruct (collapsed_rejects fb f); [reflexivity|].
    simpl. rewrite <- app_assoc. reflexivity.
Qed.

Lemma sample_stack_survivors (fb : option string) (s : Sample) :
  sample_stack fb s
  = map (fun f => string_map clean_char (name f))
        (List.filter (survives fb) (rev (backtrace s))).
Proof.
  unfold sample_stack. rewrite stack_step_fold. simpl.
  apply map_ext. intros f. apply clean_name_chars.
Qed.

Lemma to_int_truncate (x : PyFloat.float) :
  PyFloat.is_finite x = true -> PyFloat.to_int x = Ok (truncate x).
Proof.
  destruct x as [s|s| |s m e]; try discriminate; intros _; [reflexivity|].
  unfold PyFloat.to_int, truncate. f_equal.
  destruct (Z.leb_spec 0 e) as [He|He].
  - rewrite Z.shiftl_mul_pow2 by exact He. destruct s; simpl; lia.
  - rewrite Z.shiftl_div_pow2 by lia.
    assert (Hp : 0 < 2 ^ (- e)) by (apply Z.pow_pos_nonneg; lia).
    destruct s; simpl.
    + change (Z.neg m) with (- Z.pos m). rewrite Z.quot_opp_l by lia.
      rewrite Z.quot_div_nonneg by lia. reflexivity.
    + rewrite Z.quot_div_nonneg by lia. reflexivity.
Qed.

Lemma line_step_raise (fb : option string) (e : pyexn) (samples : list Sample) :
  fold_left (line_step fb) samples (Raise e) = Raise e.
Proof. induction samples as [|s samples IH]; [reflexivity | exact IH]. Qed.

Lemma to_int_error (x : PyFloat.float) :
  PyFloat.is_finite x = false -> PyFloat.to_int x = Raise (weight_error x).
Proof. destruct x; try discriminate; reflexivity. Qed.

Lemma line_step_outcome (fb : option string) (lines : list string) (s : Sample) :
  line_step fb (Ok lines) s
  = if unprintable fb s then Raise (weight_error (weight_ms s))
    else Ok (lines ++ option_list (line_of fb s)).
Proof.
  unfold line_step, line_of, unprintable. cbn [result_bind].
  rewrite sample_stack_survivors.
  destruct (List.filter (survives fb) (rev (backtrace s))) as [|f fs].
  - simpl. rewrite app_nil_r. reflexivity.
  - cbn [map]. destruct (PyFloat.is_finite (weight_ms s)) eqn:Hw.
    + rewrite (to_int_truncate _ Hw). reflexivity.
    + rewrite (to_int_error _ Hw). reflexivity.
Qed.

Lemma line_step_fold_outcome (fb : option string) (samples : list Sample)
    (lines : list string) :
  fold_left (line_step fb) samples (Ok lines)
  = match List.find (unprintable fb) samples with
    | Some s => Raise (weight_error (weight_ms s))
    | None => Ok (lines ++ omap (line_of fb) samples)
    end.
Proof.
  revert lines. induction samples as [|s samples IH]; intros lines.
  - simpl. rewrite app_nil_r. reflexivity.
  - cbn [fold_left List.find]. rewrite line_step_outcome.
    destruct (unprintable fb s).
    + apply line_step_raise.
    + rewrite IH. destruct (List.find (unprintable fb) samples); [reflexivity|].
      rewrite <- app_assoc. cbn [omap list_omap].
      destruct (line_of fb s); reflexivity.
Qed.

(** C7. The collapsed stacks, when every sample that has a frame that
    survives has a finite weight: the lines of the samples, joined by
    newlines, where a sample with a frame that survives has the line made
    of the cleaned names of the surviving frames from the root to the leaf
    (the backtrace reversed), joined by semicolons, a blank and the weight
    truncated to an integer, and a sample with no such frame has no line,
    whatever its weight.  The sample [leaf, mid, root] of weight 12.9 has
    the line "root;mid;leaf 12". *)
Theorem collapsed_stacks_lines (samples : list Sample) (fb : option string) :
  Forall (fun s => unprintable fb s = false) samples ->
  generate_collapsed_stacks samples fb
  = Ok (PyStr.join newline (omap (line_of fb) samples))
  /\ generate_collapsed_stacks [leaf_mid_root] None = Ok "root;mid;leaf 12".
Proof.
  intros H. split; [|vm_compute; reflexivity].
  unfold generate_collapsed_stacks. rewrite line_step_fold_outcome.
  replace (List.find (unprintable fb) samples) with (@None Sample); [reflexivity|].
  symmetry. induction H as [|s samples Hs _ IH]; [reflexivity|].
  cbn [List.find]. rewrite Hs. exact IH.
Qed.

Lemma collapsed_stacks_lines_witness :
  generate_collapsed_stacks [leaf_mid_root; unknown_binary_sample] None
  = Ok (PyStr.join newline
          (omap (line_of None) [leaf_mid_root; unknown_binary_sample]))
  /\ generate_collapsed_stacks [leaf_mid_root] None = Ok "root;mid;leaf 12".
Proof.
  apply (collapsed_stacks_lines [leaf_mid_root; unknown_binary_sample] None).
  repeat constructor.
Defined.

(** The claim without the condition on the weights fails.  The row of
    [endless_doc] has the weight text "inf ms", which is a float for
    [float]: its sample has a frame that survives and an infinite weight,
    [int] raises on it, and the collapsed stacks give no line at all. *)
Lemma collapsed_stacks_lines_counterexample :
  parse endless_doc = [mkSample "" "" "" (S754_infinity false) [mkFrame "spin" "" None]]
  /\ sample_stack None (mkSample "" "" "" (S754_infinity false) [mkFrame "spin" "" None])
     = ["spin"]
  /\ generate_collapsed_stacks (parse endless_doc) None = Raise OverflowError.
Proof. split; [|split]; vm_compute; reflexivity. Qed.

Lemma survives_binary (fb : string) (f : Frame) :
  survives (Some fb) f
  = negb (raw_address f) && (binary_unrecorded f || binary_matches fb f).
Proof.
  unfold survives, collapsed_rejects, binary_unrecorded, binary_matches, truthy_opt.
  destruct (raw_address f); [reflexivity|]. simpl.
  destruct (binary f) as [b|].
  - destruct (PyStr.truthy fb) eqn:Hfb.
    + destruct (PyStr.truthy b); simpl; [|reflexivity].
      rewrite negb_involutive. reflexivity.
    + apply truthy_false in Hfb. subst fb. simpl.
      destruct (PyStr.truthy b); simpl; [|reflexivity].
      destruct (PyStr.lower b); reflexivity.
  - rewrite andb_false_r. reflexivity.
Qed.

(** C9, as the code has it.  With a binary filter, the names of the line
    of a sample are the cleaned names of the frames, root first, that are
    not raw addresses and whose binary either is not recorded (absent or
    empty) or contains the filter, letter case apart: a frame whose recorded
    binary does not contain the filter is skipped, a frame with no recorded
    binary is kept. *)
Theorem collapsed_filter_keeps_unrecorded (fb : string) (s : Sample) :
  sample_stack (Some fb) s
  = map (fun f => string_map clean_char (name f))
        (List.filter (fun f => negb (raw_address f)
                               && (binary_unrecorded f || binary_matches fb f))
                     (rev (backtrace s))).
Proof.
  rewrite sample_stack_survivors. f_equal.
  apply filter_ext. intros f. apply survives_binary.
Qed.

(** C9 as stated fails: with the filter "MyApp", the frame [main] of a
    sample has no recorded binary, so it fails the match, and its name is in
    the line all the same. *)
Lemma collapsed_filter_strict_counterexample :
  binary_matches "MyApp" (mkFrame "main" "0x1" None) = false
  /\ generate_collapsed_stacks [unknown_binary_sample] (Some "MyApp") = Ok "main 1"
  /\ ~ (forall (fb : string) (s : Sample),
          PyStr.truthy fb = true ->
          sample_stack (Some fb) s
          = map (fun f => string_map clean_char (name f))
                (List.filter (fun f => negb (raw_address f) && binary_matches fb f)
                             (rev (backtrace s)))).
Proof.
  split; [reflexivity|]. split; [vm_compute; reflexivity|].
  intros H. specialize (H "MyApp" unknown_binary_sample eq_refl).
  vm_compute in H. discriminate H.
Qed.

(* ===================================================================== *)
(** * Weight parsing *)
(* ===================================================================== *)

Ltac by_ascii c :=
  destruct c as [[] [] [] [] [] [] [] []];
  vm_compute; intros; try discriminate; try reflexivity; try congruence.

Lemma append_empty_l (s : string) : "" +:+ s = s.
Proof. reflexivity. Qed.

Lemma append_cons (c : ascii) (s r : string) : String c s +:+ r = String c (s +:+ r).
Proof. reflexivity. Qed.

Lemma append_empty_r (s : string) : s +:+ "" = s.
Proof.
  induction s as [|c s IH]; [reflexivity|]. rewrite append_cons, IH. reflexivity.
Qed.

Lemma append_assoc (a b c : string) : (a +:+ b) +:+ c = a +:+ (b +:+ c).
Proof.
  induction a as [|x a IH]; [reflexivity|]. rewrite !append_cons, IH. reflexivity.
Qed.

Lemma string_forallb_app (p : ascii -> bool) (a b : string) :
  string_forallb p (a +:+ b) = string_forallb p a && string_forallb p b.
Proof.
  induction a as [|x a IH]; [reflexivity|].
  rewrite append_cons. simpl. rewrite IH, andb_assoc. reflexivity.
Qed.

Lemma string_forallb_impl (p q : ascii -> bool) (s : string) :
  (forall c, p c = true -> q c = true) ->
  string_forallb p s = true -> string_forallb q s = true.
Proof.
  intros H. induction s as [|c s IH]; [reflexivity|]. simpl.
  intros Hs. apply andb_true_iff in Hs. destruct Hs as [Hc Hs].
  rewrite (H c Hc), (IH Hs). reflexivity.
Qed.

Lemma string_filter_app (p : ascii -> bool) (a b : string) :
  string_filter p (a +:+ b) = string_filter p a +:+ string_filter p b.
Proof.
  induction a as [|x a IH]; [reflexivity|].
  rewrite append_cons. simpl. rewrite IH. destruct (p x); reflexivity.
Qed.

Lemma string_filter_all (p : ascii -> bool) (s : string) :
  string_forallb p s = true -> string_filter p s = s.
Proof.
  induction s as [|c s IH]; [reflexivity|]. simpl.
  intros H. apply andb_true_iff in H. destruct H as [Hc Hs].
  rewrite Hc, (IH Hs). reflexivity.
Qed.

Lemma string_filter_forallb (p : ascii -> bool) (s : string) :
  string_forallb p (string_filter p s) = true.
Proof.
  induction s as [|c s IH]; [reflexivity|]. simpl.
  destruct (p c) eqn:Hc; [|exact IH]. simpl. rewrite Hc, IH. reflexivity.
Qed.

(** ** The unit and the separators *)

Lemma replace_ms (u : string) :
  string_forallb (fun c => negb (Ascii.eqb c "m")) u = true ->
  PyStr.replace (u +:+ "ms") "ms" "" = u.
Proof.
  unfold PyStr.replace. induction u as [|c u IH]; [reflexivity|].
  cbn [string_forallb]. intros H. apply andb_true_iff in H. destruct H as [Hc Hu].
  rewrite append_cons. cbn [PyStr.replace_from].
  rewrite prefix_cons, (Ascii.eqb_sym "m" c).
  apply negb_true_iff in Hc. rewrite Hc, (IH Hu). reflexivity.
Qed.

Lemma replace_comma (s : string) : PyStr.replace s "," "" = no_commas s.
Proof.
  unfold PyStr.replace, no_commas.
  induction s as [|c s IH]; [reflexivity|].
  cbn [PyStr.replace_from string_filter String.length Nat.pred].
  unfold is_comma. rewrite prefix_cons, prefix_empty, (Ascii.eqb_sym "," c), IH.
  destruct (Ascii.eqb c ","); reflexivity.
Qed.

Lemma rstrip_blank (u : string) :
  string_forallb (fun c => negb (PyStr.is_space c)) u = true ->
  PyStr.rstrip (u +:+ " ") = u.
Proof.
  induction u as [|c u IH]; [reflexivity|].
  cbn [string_forallb]. intros H. apply andb_true_iff in H. destruct H as [Hc Hu].
  rewrite append_cons. cbn [PyStr.rstrip]. rewrite (IH Hu).
  apply negb_true_iff in Hc. rewrite Hc. destruct u; reflexivity.
Qed.

Lemma strip_blank (u : string) :
  string_forallb (fun c => negb (PyStr.is_space c)) u = true ->
  PyStr.strip (u +:+ " ") = u.
Proof.
  intros H. unfold PyStr.strip.
  destruct u as [|c u]; [reflexivity|].
  assert (Hl : PyStr.lstrip (String c u +:+ " ") = String c u +:+ " ").
  { cbn [string_forallb] in H. apply andb_true_iff in H. destruct H as [Hc _].
    apply negb_true_iff in Hc. rewrite append_cons. cbn [PyStr.lstrip].
    rewrite Hc. reflexivity. }
  rewrite Hl. apply rstrip_blank, H.
Qed.

(** ** Characters of a number *)

Lemma numeric_not_m (c : ascii) :
  numeric_char c || is_comma c || Ascii.eqb c " " = true -> negb (Ascii.eqb c "m") = true.
Proof. by_ascii c. Qed.

Lemma numeric_not_space (c : ascii) :
  numeric_char c = true -> negb (PyStr.is_space c) = true.
Proof. by_ascii c. Qed.

Lemma numeric_not_comma (c : ascii) :
  numeric_char c = true -> negb (is_comma c) = true.
Proof. by_ascii c. Qed.

Lemma numeric_to_ascii (c : ascii) :
  numeric_char c = true -> PyFloat.to_ascii_char c = c.
Proof. by_ascii c. Qed.

Lemma numeric_not_c_space (c : ascii) :
  numeric_char c = true -> PyFloat.is_c_space c = false.
Proof. by_ascii c. Qed.

Lemma numeric_not_underscore (c : ascii) :
  numeric_char c = true -> Ascii.eqb c "_" = false.
Proof. by_ascii c. Qed.

Lemma digit_numeric (c : ascii) : PyFloat.is_digit c = true -> numeric_char c = true.
Proof. unfold numeric_char. intros ->. reflexivity. Qed.

Lemma dot_not_digit : PyFloat.is_digit "." = false.
Proof. reflexivity. Qed.

(** ** [float] of digits, a point and digits *)

Lemma to_ascii_numeric (u : string) :
  string_forallb numeric_char u = true -> PyFloat.to_ascii u = u.
Proof.
  induction u as [|c u IH]; [reflexivity|].
  cbn [string_forallb]. intros H. apply andb_true_iff in H. destruct H as [Hc Hu].
  cbn [PyFloat.to_ascii]. rewrite (numeric_to_ascii c Hc), (IH Hu). reflexivity.
Qed.

Lemma c_lstrip_numeric (u : string) :
  string_forallb numeric_char u = true -> PyFloat.c_lstrip u = u.
Proof.
  destruct u as [|c u]; [reflexivity|].
  cbn [string_forallb]. intros H. apply andb_true_iff in H. destruct H as [Hc _].
  cbn [PyFloat.c_lstrip]. rewrite (numeric_not_c_space c Hc). reflexivity.
Qed.

Lemma c_rstrip_numeric (u : string) :
  string_forallb numeric_char u = true -> PyFloat.c_rstrip u = u.
Proof.
  induction u as [|c u IH]; [reflexivity|].
  cbn [string_forallb]. intros H. apply andb_true_iff in H. destruct H as [Hc Hu].
  cbn [PyFloat.c_rstrip]. rewrite (IH Hu), (numeric_not_c_space c Hc).
  destruct u; reflexivity.
Qed.

Lemma drop_underscores_numeric (u : string) (prev : option ascii) :
  string_forallb numeric_char u = true ->
  match prev with Some p => Ascii.eqb p "_" = false | None => True end ->
  PyFloat.drop_underscores prev u = Some u.
Proof.
  revert prev. induction u as [|c u IH]; intros prev Hu Hp.
  - destruct prev as [p|]; simpl; [rewrite Hp|]; reflexivity.
  - cbn [string_forallb] in Hu. apply andb_true_iff in Hu. destruct Hu as [Hc Hu].
    cbn [PyFloat.drop_underscores].
    rewrite (numeric_not_underscore c Hc).
    assert (Hpu : match prev with Some p => Ascii.eqb p "_" | None => false end = false).
    { destruct prev; [exact Hp | reflexivity]. }
    rewrite Hpu. cbn [andb].
    rewrite (IH (Some c) Hu (numeric_not_underscore c Hc)). reflexivity.
Qed.

Lemma split_sign_numeric (c : ascii) (r : string) :
  numeric_char c = true ->
  PyFloat.split_sign (String c r) = (false, String c r).
Proof. revert r. by_ascii c. Qed.

Lemma numeric_not_word (c : ascii) (r w : string) :
  numeric_char c = true ->
  String.eqb (PyStr.lower (String c r)) (String "i" w) = false
  /\ String.eqb (PyStr.lower (String c r)) (String "n" w) = false.
Proof. revert r w. by_ascii c; split; reflexivity. Qed.

Lemma span_digits_app (d r : string) :
  all_digits d = true ->
  match r with EmptyString => True | String c _ => PyFloat.is_digit c = false end ->
  PyFloat.span_digits (d +:+ r) = (d, r).
Proof.
  intros Hd Hr. induction d as [|c d IH].
  - rewrite append_empty_l. destruct r as [|c r]; [reflexivity|].
    cbn [PyFloat.span_digits]. rewrite Hr. reflexivity.
  - unfold all_digits in Hd. cbn [string_forallb] in Hd.
    apply andb_true_iff in Hd. destruct Hd as [Hc Hd].
    rewrite append_cons. cbn [PyFloat.span_digits]. rewrite Hc, (IH Hd). reflexivity.
Qed.

Lemma parse_decimal_point (d f : string) :
  all_digits d = true -> all_digits f = true ->
  PyStr.truthy d || PyStr.truthy f = true ->
  PyFloat.parse_decimal (d +:+ "." +:+ f)
  = Some (PyFloat.digits_value 0 (d +:+ f), - Z.of_nat (String.length f)).
Proof.
  intros Hd Hf Hne. unfold PyFloat.parse_decimal.
  change ("." +:+ f) with (String "." f).
  rewrite (span_digits_app d (String "." f) Hd dot_not_digit).
  cbv iota beta.
  pose proof (span_digits_app f "" Hf I) as Hs. rewrite append_empty_r in Hs.
  rewrite Hs. cbv iota beta.
  destruct (PyStr.truthy d), (PyStr.truthy f); try discriminate; reflexivity.
Qed.

Lemma of_string_point (d f : string) :
  all_digits d = true -> all_digits f = true ->
  PyStr.truthy d || PyStr.truthy f = true ->
  PyFloat.of_string (d +:+ "." +:+ f)
  = Some (PyFloat.of_decimal false (PyFloat.digits_value 0 (d +:+ f))
                             (- Z.of_nat (String.length f))).
Proof.
  intros Hd Hf Hne.
  assert (Hu : string_forallb numeric_char (d +:+ "." +:+ f) = true).
  { rewrite !string_forallb_app.
    rewrite (string_forallb_impl _ _ d digit_numeric Hd).
    rewrite (string_forallb_impl _ _ f digit_numeric Hf). reflexivity. }
  unfold PyFloat.of_string.
  rewrite (to_ascii_numeric _ Hu), (c_lstrip_numeric _ Hu), (c_rstrip_numeric _ Hu).
  rewrite (drop_underscores_numeric _ None Hu I). cbn [mbind option_bind].
  destruct (d +:+ "." +:+ f) as [|c r] eqn:Hb.
  { destruct d; discriminate Hb. }
  cbn [string_forallb] in Hu. apply andb_true_iff in Hu. destruct Hu as [Hc _].
  rewrite (split_sign_numeric c r Hc).
  destruct (numeric_not_word c r "nf" Hc) as [Hinf _].
  destruct (numeric_not_word c r "nfinity" Hc) as [Hinfinity _].
  destruct (numeric_not_word c r "an" Hc) as [_ Hnan].
  rewrite Hinf, Hinfinity, Hnan. cbn [orb].
  rewrite <- Hb, (parse_decimal_point d f Hd Hf Hne). reflexivity.
Qed.

Lemma no_commas_digits (t : string) :
  separated_digits t = true -> all_digits (no_commas t) = true.
Proof.
  unfold separated_digits, all_digits, no_commas.
  induction t as [|c t IH]; [reflexivity|].
  cbn [string_forallb string_filter]. intros H.
  apply andb_true_iff in H. destruct H as [Hc Ht].
  destruct (is_comma c) eqn:Hcomma; cbn [negb].
  - apply IH, Ht.
  - cbn [string_forallb]. rewrite orb_false_r in Hc. rewrite Hc. apply IH, Ht.
Qed.

Lemma string_filter_forallb_from (r p q : ascii -> bool) (s : string) :
  (forall c, r c = true -> p c = true -> q c = true) ->
  string_forallb r s = true -> string_forallb q (string_filter p s) = true.
Proof.
  intros H. induction s as [|c s IH]; [reflexivity|].
  cbn [string_forallb string_filter]. intros Hs.
  apply andb_true_iff in Hs. destruct Hs as [Hc Hs].
  destruct (p c) eqn:Hp; [|apply IH, Hs].
  cbn [string_forallb]. rewrite (H c Hc Hp), (IH Hs). reflexivity.
Qed.

(** The text of a number with its unit: the unit, the separators and the
    blank go. *)
Lemma clean_weight_numeric (u : string) :
  string_forallb (fun c => numeric_char c || is_comma c) u = true ->
  clean_weight (u +:+ " ms") = no_commas u.
Proof.
  intros Hu. unfold clean_weight.
  replace (u +:+ " ms") with ((u +:+ " ") +:+ "ms")
    by (rewrite append_assoc; reflexivity).
  rewrite replace_ms.
  - rewrite replace_comma. unfold no_commas. rewrite string_filter_app.
    apply strip_blank.
    apply (string_filter_forallb_from _ _ _ u) with (2 := Hu).
    clear. intro c. by_ascii c.
  - rewrite string_forallb_app. apply andb_true_iff. split; [|reflexivity].
    eapply string_forallb_impl; [|exact Hu]. clear. intro c. by_ascii c.
Qed.

Lemma separated_numeric (t : string) :
  separated_digits t = true ->
  string_forallb (fun c => numeric_char c || is_comma c) t = true.
Proof.
  apply string_forallb_impl. intros c H. unfold numeric_char.
  destruct (PyFloat.is_digit c); [reflexivity|].
  simpl in H. rewrite H. apply orb_true_r.
Qed.

Lemma clean_weight_point (t f : string) :
  separated_digits t = true -> all_digits f = true ->
  clean_weight (t +:+ "." +:+ f +:+ " ms") = no_commas t +:+ "." +:+ f.
Proof.
  intros Ht Hf.
  replace (t +:+ "." +:+ f +:+ " ms") with ((t +:+ "." +:+ f) +:+ " ms")
    by (rewrite !append_assoc; reflexivity).
  rewrite clean_weight_numeric.
  - unfold no_commas. rewrite !string_filter_app. rewrite (string_filter_all _ f).
    + reflexivity.
    + eapply string_forallb_impl; [|exact Hf].
      intros c H. apply numeric_not_comma, digit_numeric, H.
  - rewrite !string_forallb_app, (separated_numeric t Ht).
    apply andb_true_iff. split; [reflexivity|].
    eapply string_forallb_impl; [|exact Hf].
    intros c H. rewrite (digit_numeric c H). reflexivity.
Qed.

Lemma parse_decimal_digits (d : string) :
  all_digits d = true -> PyStr.truthy d = true ->
  PyFloat.parse_decimal d = Some (PyFloat.digits_value 0 d, 0).
Proof.
  intros Hd Hne. unfold PyFloat.parse_decimal.
  pose proof (span_digits_app d "" Hd I) as Hs. rewrite append_empty_r in Hs.
  rewrite Hs. cbv iota beta. rewrite append_empty_r, Hne. reflexivity.
Qed.

Lemma of_string_digits (d : string) :
  all_digits d = true -> PyStr.truthy d = true ->
  PyFloat.of_string d = Some (PyFloat.of_decimal false (PyFloat.digits_value 0 d) 0).
Proof.
  intros Hd Hne.
  assert (Hu : string_forallb numeric_char d = true)
    by exact (string_forallb_impl _ _ d digit_numeric Hd).
  unfold PyFloat.of_string.
  rewrite (to_ascii_numeric _ Hu), (c_lstrip_numeric _ Hu), (c_rstrip_numeric _ Hu).
  rewrite (drop_underscores_numeric _ None Hu I). cbn [mbind option_bind].
  destruct d as [|c r]; [discriminate|].
  pose proof Hu as Hu'.
  cbn [string_forallb] in Hu'. apply andb_true_iff in Hu'. destruct Hu' as [Hc _].
  rewrite (split_sign_numeric c r Hc).
  destruct (numeric_not_word c r "nf" Hc) as [Hinf _].
  destruct (numeric_not_word c r "nfinity" Hc) as [Hinfinity _].
  destruct (numeric_not_word c r "an" Hc) as [_ Hnan].
  rewrite Hinf, Hinfinity, Hnan. cbn [orb].
  rewrite (parse_decimal_digits _ Hd Hne). reflexivity.
Qed.

(** ** The weight of a row *)

Lemma parse_weight_point (t f : string) :
  separated_digits t = true -> all_digits f = true ->
  PyStr.truthy (no_commas t) || PyStr.truthy f = true ->
  parse_weight (t +:+ "." +:+ f +:+ " ms")
  = PyFloat.of_decimal false (PyFloat.digits_value 0 (no_commas t +:+ f))
                       (- Z.of_nat (String.length f)).
Proof.
  intros Ht Hf Hne. unfold parse_weight.
  rewrite (clean_weight_point t f Ht Hf).
  rewrite (of_string_point (no_commas t) f (no_commas_digits t Ht) Hf Hne).
  reflexivity.
Qed.

Lemma parse_weight_digits (t : string) :
  separated_digits t = true -> PyStr.truthy (no_commas t) = true ->
  parse_weight (t +:+ " ms")
  = PyFloat.of_decimal false (PyFloat.digits_value 0 (no_commas t)) 0.
Proof.
  intros Ht Hne. unfold parse_weight.
  rewrite (clean_weight_numeric t (separated_numeric t Ht)).
  rewrite (of_string_digits (no_commas t) (no_commas_digits t Ht) Hne).
  reflexivity.
Qed.

Lemma weight_of_text (id_cache : gmap string Element) (row : Element) (fmt : string) :
  weight_text id_cache row fmt -> weight id_cache row = parse_weight fmt.
Proof.
  intros (e & He & Hf). unfold weight, get_default. rewrite He, Hf. reflexivity.
Qed.

Lemma row_gives_weight (id_cache : gmap string Element) (row : Element) :
  row_backtrace id_cache row <> [] -> row_gives id_cache row (weight id_cache row).
Proof.
  intros Hbt. unfold row_gives, _parse_row.
  destruct (row_backtrace id_cache row) as [|fr bt]; [contradiction|].
  eexists. split; [reflexivity|]. split; reflexivity.
Qed.

Lemma row_gives_text (id_cache : gmap string Element) (row : Element) (fmt : string) :
  row_backtrace id_cache row <> [] -> weight_text id_cache row fmt ->
  row_gives id_cache row (parse_weight fmt).
Proof.
  intros Hbt Hf. rewrite <- (weight_of_text id_cache row fmt Hf).
  apply row_gives_weight, Hbt.
Qed.

Lemma parse_keeps (root row : Element) (sample : Sample) :
  row ∈ iter_tag root "row" ->
  _parse_row (_build_id_cache ∅ root) row = Some sample ->
  sample ∈ parse root.
Proof.
  intros Hin Hs. rewrite parse_omap. apply list_elem_of_omap.
  exists row. split; assumption.
Qed.

(** C4. Weight parsing.  A row with named frames gives a sample whose
    weight is what its weight text parses to.  A text made of digits with
    thousands separators and the unit, with a point and digits before the
    unit or without, as in "1,234.5 ms", gives the float of the decimal
    number that the digits spell, the separators left out; "1,234.5 ms"
    gives 1234.5.  When the text is not a number, the weight of the sample
    is 1.0.  In each case the sample has the whole backtrace of the row,
    and it is among the samples of the document of the row. *)
Theorem weight_parsing (id_cache : gmap string Element) (row : Element) :
  row_backtrace id_cache row <> [] ->
  (forall t : string,
      weight_text id_cache row (t +:+ " ms") ->
      separated_digits t = true -> PyStr.truthy (no_commas t) = true ->
      row_gives id_cache row
        (PyFloat.of_decimal false (PyFloat.digits_value 0 (no_commas t)) 0))
  /\ (forall t f : string,
      weight_text id_cache row (t +:+ "." +:+ f +:+ " ms") ->
      separated_digits t = true -> all_digits f = true ->
      PyStr.truthy (no_commas t) || PyStr.truthy f = true ->
      row_gives id_cache row
        (PyFloat.of_decimal false (PyFloat.digits_value 0 (no_commas t +:+ f))
                            (- Z.of_nat (String.length f))))
  /\ (weight_text id_cache row "1,234.5 ms" -> row_gives id_cache row float_1234_5)
  /\ (float_1234_5 = S754_finite false 5429388417957888 (-42)
      /\ 5429388417957888 * 10 = 12345 * 2 ^ 42)
  /\ (forall fmt : string,
      weight_text id_cache row fmt ->
      PyFloat.of_string (clean_weight fmt) = None ->
      row_gives id_cache row PyFloat.one)
  /\ (forall root : Element,
      id_cache = _build_id_cache ∅ root -> row ∈ iter_tag root "row" ->
      exists sample,
        _parse_row id_cache row = Some sample
        /\ weight_ms sample = weight id_cache row
        /\ sample ∈ parse root).
Proof.
  intros Hbt. split; [|split; [|split; [|split; [|split]]]].
  - intros t Hf Ht Hne. rewrite <- (parse_weight_digits t Ht Hne).
    apply row_gives_text; assumption.
  - intros t f Hf Ht Hd Hne. rewrite <- (parse_weight_point t f Ht Hd Hne).
    apply row_gives_text; assumption.
  - intros Hf.
    replace float_1234_5 with (parse_weight "1,234.5 ms") by (vm_compute; reflexivity).
    apply row_gives_text; assumption.
  - split; reflexivity.
  - intros fmt Hf Hnone.
    replace PyFloat.one with (parse_weight fmt)
      by (unfold parse_weight; rewrite Hnone; reflexivity).
    apply row_gives_text; assumption.
  - intros root -> Hin.
    destruct (row_gives_weight _ row Hbt) as (sample & Hs & Hw & _).
    exists sample. split; [exact Hs|]. split; [exact Hw|].
    apply (parse_keeps root row sample Hin Hs).
Qed.

Lemma weight_parsing_witness :
  row_gives ∅ (one_frame_row "main" "12,000 ms") (PyFloat.of_decimal false 12000 0)
  /\ row_gives ∅ (one_frame_row "main" "1,234.5 ms") (PyFloat.of_decimal false 12345 (-1))
  /\ row_gives ∅ (one_frame_row "main" "1,234.5 ms") float_1234_5
  /\ row_gives ∅ bad_weight_row PyFloat.one
  /\ exists sample,
       _parse_row ∅ (one_frame_row "main" "1,234.5 ms") = Some sample
       /\ weight_ms sample = weight ∅ (one_frame_row "main" "1,234.5 ms")
       /\ sample ∈ parse (one_frame_row "main" "1,234.5 ms").
Proof.
  assert (Ha : row_backtrace ∅ (one_frame_row "main" "12,000 ms") <> [])
    by (vm_compute; discriminate).
  assert (Hb : row_backtrace ∅ (one_frame_row "main" "1,234.5 ms") <> [])
    by (vm_compute; discriminate).
  assert (Hc : row_backtrace ∅ bad_weight_row <> []) by (vm_compute; discriminate).
  destruct (weight_parsing ∅ (one_frame_row "main" "12,000 ms") Ha)
    as (Hint & _).
  destruct (weight_parsing ∅ (one_frame_row "main" "1,234.5 ms") Hb)
    as (_ & Hnum & Hval & _ & _ & Hdoc).
  destruct (weight_parsing ∅ bad_weight_row Hc) as (_ & _ & _ & _ & Hbad & _).
  split; [|split; [|split; [|split]]].
  - apply (Hint "12,000"); [|reflexivity | reflexivity].
    exists (Elem "weight" [("fmt", "12,000 ms")] []). split; reflexivity.
  - apply (Hnum "1,234" "5"); [|reflexivity | reflexivity | reflexivity].
    exists (Elem "weight" [("fmt", "1,234.5 ms")] []). split; reflexivity.
  - apply Hval.
    exists (Elem "weight" [("fmt", "1,234.5 ms")] []). split; reflexivity.
  - apply (Hbad "n/a"); [|vm_compute; reflexivity].
    exists (Elem "weight" [("fmt", "n/a")] []). split; reflexivity.
  - apply (Hdoc (one_frame_row "main" "1,234.5 ms")).
    + vm_compute. reflexivity.
    + vm_compute. left.
Defined.

(** Some values of [float] on strings, as Python gives them: rounding to
    the nearest float, the smallest subnormal, overflow to infinity, signed
    zero, the words, underscores between digits, and refused strings. *)
Example of_string_values :
  PyFloat.of_string "0.1" = Some (S754_finite false 7205759403792794 (-56))
  /\ PyFloat.of_string "12.9" = Some float_12_9
  /\ PyFloat.of_string " 1e3 " = Some (S754_finite false 8796093022208000 (-43))
  /\ PyFloat.of_string "5e-324" = Some (S754_finite false 1 (-1074))
  /\ PyFloat.of_string "2e-324" = Some (S754_zero false)
  /\ PyFloat.of_string "1.7976931348623157e308"
     = Some (S754_finite false 9007199254740991 971)
  /\ PyFloat.of_string "1e309" = Some (S754_infinity false)
  /\ PyFloat.of_string "-0" = Some (S754_zero true)
  /\ PyFloat.of_string "-Infinity" = Some (S754_infinity true)
  /\ PyFloat.of_string "NaN" = Some S754_nan
  /\ PyFloat.of_string "1_000.5" = PyFloat.of_string "1000.5"
  /\ PyFloat.of_string "1__0" = None
  /\ PyFloat.of_string "1e" = None
  /\ PyFloat.of_string "." = None
  /\ PyFloat.of_string "" = None
  /\ PyFloat.of_string "12 m" = None.
Proof. vm_compute. repeat split. Qed.

(* ===================================================================== *)
(** * More on the index and the rows *)
(* ===================================================================== *)

(** X1. The index after [_build_id_cache]: at an identifier that the
    document declares it holds the last element, in document order, that
    declares it; at any other identifier it holds what it held before; the
    empty identifier is never declared. *)
Theorem id_cache_last_declaration_wins
    (m : gmap string Element) (root : Element) (r : string) :
  _build_id_cache m root !! r
  = match node_at root r with
    | Some e => Some e
    | None => m !! r
    end
  /\ node_at root "" = None.
Proof.
  split; [|apply node_at_empty].
  unfold _build_id_cache, node_at. apply cache_fold_lookup.
Qed.

(** X2. In a document where no node that is the target of an identifier
    carries a reference, resolving twice is resolving once. *)
Theorem resolve_ref_idempotent (root : Element) :
  (forall r t, node_at root r = Some t -> get t "ref" = None) ->
  forall elem,
    _resolve_ref (_build_id_cache ∅ root)
                 (_resolve_ref (_build_id_cache ∅ root) elem)
    = _resolve_ref (_build_id_cache ∅ root) elem.
Proof.
  intros Hplain elem. rewrite (resolve_ref_node_at root elem).
  destruct (get elem "ref") as [r|] eqn:He.
  - destruct (node_at root r) as [t|] eqn:Hn; simpl.
    + rewrite resolve_ref_node_at, (Hplain r t Hn). reflexivity.
    + rewrite resolve_ref_node_at, He, Hn. reflexivity.
  - rewrite resolve_ref_node_at, He. reflexivity.
Qed.

Lemma node_at_plain_doc (r : string) (t : Element) :
  node_at plain_doc r = Some t -> get t "ref" = None.
Proof.
  intros H. apply last_filter_In in H. destruct H as [Hin Hd].
  simpl in Hin.
  repeat (destruct Hin as [<-|Hin]; [first [discriminate Hd | reflexivity]|]).
  destruct Hin.
Qed.

Lemma resolve_ref_idempotent_witness :
  let c := _build_id_cache ∅ plain_doc in
  _resolve_ref c (_resolve_ref c (Elem "frame" [("ref", "7")] []))
  = _resolve_ref c (Elem "frame" [("ref", "7")] []).
Proof.
  exact (resolve_ref_idempotent plain_doc node_at_plain_doc
           (Elem "frame" [("ref", "7")] [])).
Defined.

Lemma has_named_frame_backtrace (id_cache : gmap string Element) (row : Element) :
  has_named_frame id_cache row = true <-> row_backtrace id_cache row <> [].
Proof.
  rewrite row_backtrace_omap. unfold has_named_frame.
  induction (frame_elems id_cache row) as [|fe l IH].
  - simpl. split; [discriminate | congruence].
  - cbn [existsb omap list_omap]. unfold frame_of at 1.
    destruct (PyStr.truthy (resolved_name id_cache fe)).
    + simpl. split; [discriminate | reflexivity].
    + simpl. exact IH.
Qed.

Lemma omap_length_filter {A B : Type} (f : A -> option B) (p : A -> bool) (l : list A) :
  (forall x, p x = true <-> f x <> None) ->
  length (omap f l) = length (List.filter p l).
Proof.
  intros H. induction l as [|x l IH]; [reflexivity|].
  cbn [omap list_omap List.filter].
  destruct (f x) as [y|] eqn:Hf.
  - rewrite (proj2 (H x)) by (rewrite Hf; discriminate). simpl. rewrite IH. reflexivity.
  - destruct (p x) eqn:Hp; [|exact IH].
    apply H in Hp. contradiction.
Qed.

(** X3. The samples of a document are the samples of its rows, in
    document order, the rows that give none left out: there are as many
    samples as rows with a named frame. *)
Theorem parse_samples_in_row_order (root : Element) :
  let id_cache := _build_id_cache ∅ root in
  parse root = omap (_parse_row id_cache) (iter_tag root "row")
  /\ length (parse root)
     = length (List.filter (has_named_frame id_cache) (iter_tag root "row")).
Proof.
  intros id_cache. split; [apply parse_omap|].
  rewrite parse_omap. apply omap_length_filter.
  intros row. fold id_cache. rewrite has_named_frame_backtrace.
  unfold _parse_row. destruct (row_backtrace id_cache row); split; congruence.
Qed.

(* ===================================================================== *)
(** * Counts and weights of the aggregations *)
(* ===================================================================== *)

Lemma replay_count (st : Stats) (ev : list (Frame * PyFloat.float)) (n : string) :
  count_of (replay st ev) n
  = count_of st n + Z.of_nat (length (List.filter (named n) ev)).
Proof.
  revert st. induction ev as [|[f w] ev IH]; intros st.
  - simpl. lia.
  - change (replay st ((f, w) :: ev)) with (replay (accumulate st f w) ev).
    rewrite IH, count_of_accumulate. cbn [List.filter]. unfold named at 2. cbn [fst].
    rewrite (String.eqb_sym n (name f)).
    destruct (String.eqb (name f) n); cbn [length]; lia.
Qed.

Lemma replay_weight (st : Stats) (ev : list (Frame * PyFloat.float)) (n : string) :
  weight_of (replay st ev) n
  = fold_left PyFloat.add (map snd (List.filter (named n) ev)) (weight_of st n).
Proof.
  revert st. induction ev as [|[f w] ev IH]; intros st; [reflexivity|].
  change (replay st ((f, w) :: ev)) with (replay (accumulate st f w) ev).
  rewrite IH, weight_of_accumulate. cbn [List.filter]. unfold named at 2. cbn [fst].
  rewrite (String.eqb_sym n (name f)).
  destruct (String.eqb (name f) n); reflexivity.
Qed.

Lemma filter_flat_map {A B : Type} (p : B -> bool) (g : A -> list B) (l : list A) :
  List.filter p (flat_map g l) = flat_map (fun x => List.filter p (g x)) l.
Proof.
  induction l as [|x l IH]; [reflexivity|].
  simpl. rewrite List.filter_app, IH. reflexivity.
Qed.

(** Of frames with distinct names, at most one has the name [n]. *)
Lemma named_once (fs : list Frame) (w : PyFloat.float) (n : string) :
  NoDup (map name fs) ->
  map snd (List.filter (named n) (map (fun f => (f, w)) fs))
  = if bool_decide (n ∈ map name fs) then [w] else [].
Proof.
  induction fs as [|f fs IH]; intros Hnd; [reflexivity|].
  cbn [map] in Hnd. apply NoDup_cons in Hnd. destruct Hnd as [Hf Hnd].
  cbn [map List.filter]. unfold named at 1. cbn [fst].
  destruct (String.eqb_spec (name f) n) as [<-|Hne]; cbn [map snd]; rewrite (IH Hnd).
  - rewrite bool_decide_eq_false_2 by exact Hf.
    rewrite bool_decide_eq_true_2 by left. reflexivity.
  - destruct (bool_decide (n ∈ map name fs)) eqn:Hin.
    + apply bool_decide_eq_true in Hin.
      rewrite bool_decide_eq_true_2 by (right; exact Hin). reflexivity.
    + apply bool_decide_eq_false in Hin.
      rewrite bool_decide_eq_false_2; [reflexivity|].
      rewrite not_elem_of_cons. split; [congruence | exact Hin].
Qed.

(** The weights accumulated under the name [n]: those of the samples that
    bring [n], in the order of the samples. *)
Lemma weights_of_name (ev : Sample -> list Frame) (m : Sample -> bool)
    (n : string) (samples : list Sample) :
  (forall s, NoDup (map name (ev s))) ->
  (forall s, m s = true <-> n ∈ map name (ev s)) ->
  map snd (List.filter (named n)
             (flat_map (fun s => map (fun f => (f, weight_ms s)) (ev s)) samples))
  = map weight_ms (List.filter m samples).
Proof.
  intros Hnd Hm. induction samples as [|s samples IH]; [reflexivity|].
  cbn [flat_map List.filter]. rewrite List.filter_app, map_app, IH, (named_once _ _ _ (Hnd s)).
  destruct (m s) eqn:Hs.
  - rewrite bool_decide_eq_true_2 by (apply Hm, Hs). reflexivity.
  - rewrite bool_decide_eq_false_2; [reflexivity|].
    intros Hin. apply Hm in Hin. congruence.
Qed.

Lemma replay_totals (ev : Sample -> list Frame) (m : Sample -> bool)
    (n : string) (samples : list Sample) :
  (forall s, NoDup (map name (ev s))) ->
  (forall s, m s = true <-> n ∈ map name (ev s)) ->
  let st := replay empty_stats
              (flat_map (fun s => map (fun f => (f, weight_ms s)) (ev s)) samples) in
  count_of st n = Z.of_nat (length (List.filter m samples))
  /\ weight_of st n = float_sum (map weight_ms (List.filter m samples)).
Proof.
  intros Hnd Hm st. unfold st.
  rewrite replay_count, replay_weight.
  rewrite <- (length_map snd), (weights_of_name ev m n samples Hnd Hm), length_map.
  split; reflexivity.
Qed.

Lemma existsb_names_filter (P : Frame -> bool) (bt : list Frame) (n : string) :
  existsb (fun f => P f && String.eqb (name f) n) bt = true
  <-> n ∈ map name (List.filter P bt).
Proof.
  induction bt as [|f bt IH]; simpl.
  - split; [discriminate | intros H; apply elem_of_nil in H; destruct H].
  - destruct (P f); simpl.
    + rewrite elem_of_cons, <- IH.
      destruct (String.eqb_spec (name f) n) as [->|Hn]; simpl.
      * split; [left; reflexivity | reflexivity].
      * split; [right; assumption | intros [E|H]; [congruence | exact H]].
    + exact IH.
Qed.

Lemma first_seen_mentions (P : Frame -> bool) (bt : list Frame) (n : string) :
  existsb (fun f => P f && String.eqb (name f) n) bt = true
  <-> n ∈ map name (first_seen ∅ (List.filter P bt)).
Proof.
  rewrite first_seen_names, elem_of_uniq_from, existsb_names_filter.
  split; [intros H; split; [exact H | set_solver] | intros [H _]; exact H].
Qed.

Lemma first_seen_NoDup (l : list Frame) : NoDup (map name (first_seen ∅ l)).
Proof. rewrite first_seen_names. apply uniq_from_NoDup. Qed.

Lemma hot_stats_totals (samples : list Sample) (fb : option string) (es : bool)
    (n : string) :
  count_of (hot_stats samples fb es) n
  = Z.of_nat (length (List.filter (mentions fb es n) samples))
  /\ weight_of (hot_stats samples fb es) n
     = float_sum (map weight_ms (List.filter (mentions fb es n) samples)).
Proof.
  rewrite hot_stats_replay.
  apply (replay_totals
           (fun s => first_seen ∅ (List.filter (hot_passes fb es) (backtrace s)))).
  - intros s. apply first_seen_NoDup.
  - intros s. apply first_seen_mentions.
Qed.

Lemma app_stats_totals (samples : list Sample) (ab : string) (n : string) :
  count_of (app_stats samples ab) n
  = Z.of_nat (length (List.filter (app_mentions ab n) samples))
  /\ weight_of (app_stats samples ab) n
     = float_sum (map weight_ms (List.filter (app_mentions ab n) samples)).
Proof.
  rewrite app_stats_replay.
  apply (replay_totals
           (fun s => map without_binary
                       (first_seen ∅ (List.filter (app_passes ab) (backtrace s))))).
  - intros s. rewrite map_map. apply first_seen_NoDup.
  - intros s. rewrite map_map. apply first_seen_mentions.
Qed.

Lemma option_list_names (o : option Frame) (n : string) :
  n ∈ map name (option_list o)
  <-> match o with Some f => String.eqb (name f) n | None => false end = true.
Proof.
  destruct o as [f|]; simpl.
  - rewrite list_elem_of_singleton. destruct (String.eqb_spec (name f) n); split; congruence.
  - split; [intros H; apply elem_of_nil in H; destruct H | discriminate].
Qed.

Lemma self_stats_totals (samples : list Sample) (fb : option string) (n : string) :
  count_of (self_stats samples fb) n
  = Z.of_nat (length (List.filter (leaf_is fb n) samples))
  /\ weight_of (self_stats samples fb) n
     = float_sum (map weight_ms (List.filter (leaf_is fb n) samples)).
Proof.
  rewrite self_stats_replay.
  apply (replay_totals
           (fun s => option_list (List.find (leaf_passes fb) (backtrace s)))).
  - intros s. destruct (List.find _ _); simpl; [apply NoDup_singleton | constructor].
  - intros s. unfold leaf_is. symmetry. apply option_list_names.
Qed.

(** A property of the rows of [ranked], from one of the names and
    weights of the dictionary. *)
Lemma ranked_Forall (P : row -> Prop) (st : Stats) (top_n : Z) :
  Forall (fun kv => P (stats_row st kv)) (frame_weights st) ->
  Forall P (ranked st top_n).
Proof.
  intros H. rewrite ranked_stats_row. apply Forall_fmap.
  apply Forall_slice_to. rewrite sorted_reverse_perm. exact H.
Qed.

Lemma ranked_rows (st : Stats) (top_n : Z) :
  NoDup (map fst (frame_weights st)) ->
  Forall (fun r => row_count r = count_of st (row_name r)
                   /\ row_weight r = weight_of st (row_name r)
                   /\ row_binary r = frame_binary st !! row_name r
                   /\ row_name r ∈ map fst (frame_weights st))
         (ranked st top_n).
Proof.
  intros Hnd. apply ranked_Forall. apply Forall_forall. intros [k v] Hkv.
  unfold row_count, row_weight, row_binary, row_name, stats_row,
    count_of, weight_of. simpl.
  rewrite (od_elem_of_get _ k v Hnd Hkv).
  repeat split. eapply od_get_elem_of, Hkv.
Qed.

Lemma hot_stats_NoDup (samples : list Sample) (fb : option string) (es : bool) :
  NoDup (map fst (frame_weights (hot_stats samples fb es))).
Proof. rewrite hot_stats_keys. apply uniq_from_NoDup. Qed.

Lemma self_stats_NoDup (samples : list Sample) (fb : option string) :
  NoDup (map fst (frame_weights (self_stats samples fb))).
Proof. rewrite self_stats_keys. apply uniq_from_NoDup. Qed.

Lemma app_stats_NoDup (samples : list Sample) (ab : string) :
  NoDup (map fst (frame_weights (app_stats samples ab))).
Proof. rewrite app_stats_keys. apply uniq_from_NoDup. Qed.

(** X5. The count and the weight of a row of the inclusive result: the
    number of samples that have a frame of that name that is not skipped,
    and the sum, in the order of the samples, of the weights of these
    samples. *)
Theorem inclusive_row_totals (samples : list Sample) (top_n : Z)
    (fb : option string) (es : bool) :
  Forall (fun r =>
            row_count r
            = Z.of_nat (length (List.filter (mentions fb es (row_name r)) samples))
            /\ row_weight r
               = float_sum (map weight_ms
                              (List.filter (mentions fb es (row_name r)) samples)))
         (get_hot_frames samples top_n fb es).
Proof.
  unfold get_hot_frames.
  eapply Forall_impl; [apply ranked_rows, hot_stats_NoDup|].
  intros r (-> & -> & _). apply hot_stats_totals.
Qed.

(** X6. The count and the weight of a row of the leaf-only result: the
    number of samples whose leaf has that name, and the sum, in the order of
    the samples, of the weights of these samples. *)
Theorem leaf_only_row_totals (samples : list Sample) (top_n : Z)
    (fb : option string) :
  Forall (fun r =>
            row_count r
            = Z.of_nat (length (List.filter (leaf_is fb (row_name r)) samples))
            /\ row_weight r
               = float_sum (map weight_ms
                              (List.filter (leaf_is fb (row_name r)) samples)))
         (get_self_time_frames samples top_n fb).
Proof.
  unfold get_self_time_frames.
  eapply Forall_impl; [apply ranked_rows, self_stats_NoDup|].
  intros r (-> & -> & _). apply self_stats_totals.
Qed.

(** X7. The count and the weight of a row of the scoped result: the
    number of samples that have a frame of that name whose recorded binary
    contains the application name, and the sum of their weights. *)
Theorem scoped_row_totals (samples : list Sample) (app_binary : string) (top_n : Z) :
  Forall (fun t : string * Z * PyFloat.float =>
            t.1.2
            = Z.of_nat (length (List.filter (app_mentions app_binary t.1.1) samples))
            /\ t.2
               = float_sum (map weight_ms
                              (List.filter (app_mentions app_binary t.1.1) samples)))
         (get_app_frames samples app_binary top_n).
Proof.
  unfold get_app_frames. apply Forall_fmap.
  eapply Forall_impl; [apply ranked_rows, app_stats_NoDup|].
  intros [[[n c] w] b] (Hc & Hw & _).
  unfold row_count, row_weight, row_name in Hc, Hw. simpl in *. subst c w.
  apply app_stats_totals.
Qed.

(* ===================================================================== *)
(** * Filters of the aggregations *)
(* ===================================================================== *)

Lemma filter_length_le {A : Type} (p q : A -> bool) (l : list A) :
  (forall x, p x = true -> q x = true) ->
  (length (List.filter p l) <= length (List.filter q l))%nat.
Proof.
  intros H. induction l as [|x l IH]; [reflexivity|].
  simpl. destruct (p x) eqn:Hp.
  - rewrite (H x Hp). simpl. lia.
  - destruct (q x); simpl; lia.
Qed.

Lemma existsb_impl {A : Type} (p q : A -> bool) (l : list A) :
  (forall x, p x = true -> q x = true) -> existsb p l = true -> existsb q l = true.
Proof.
  intros H. rewrite !existsb_exists. intros (x & Hx & Hp). exists x. auto.
Qed.

Lemma leaf_passes_hot (fb : option string) (f : Frame) :
  hot_passes fb false f = leaf_passes fb f.
Proof. unfold hot_passes, leaf_passes. apply andb_true_r. Qed.

Lemma leaf_is_mentions (fb : option string) (n : string) (s : Sample) :
  leaf_is fb n s = true -> mentions fb false n s = true.
Proof.
  unfold leaf_is, mentions.
  destruct (List.find (leaf_passes fb) (backtrace s)) as [f|] eqn:Hf; [|discriminate].
  intros Hn. apply find_some in Hf. destruct Hf as [Hin Hp].
  apply existsb_exists. exists f. split; [exact Hin|].
  rewrite leaf_passes_hot, Hp, Hn. reflexivity.
Qed.

Lemma app_passes_hot (ab : string) (f : Frame) :
  app_passes ab f = true -> hot_passes None false f = true.
Proof.
  unfold app_passes, hot_passes. intros H.
  apply andb_true_iff in H. destruct H as [-> _]. reflexivity.
Qed.

Lemma app_mentions_mentions (ab n : string) (s : Sample) :
  app_mentions ab n s = true -> mentions None false n s = true.
Proof.
  apply existsb_impl. intros f H.
  apply andb_true_iff in H. destruct H as [Hp Hn].
  rewrite (app_passes_hot ab f Hp), Hn. reflexivity.
Qed.

(** X8. A name is the leaf of no more samples than have it in their stack:
    its leaf-only count is at most its inclusive count under the same binary
    filter, system frames not excluded; and its scoped count is at most its
    inclusive count without filter. *)
Theorem counts_at_most_inclusive (samples : list Sample) (fb : option string)
    (app_binary n : string) :
  count_of (self_stats samples fb) n <= count_of (hot_stats samples fb false) n
  /\ count_of (app_stats samples app_binary) n
     <= count_of (hot_stats samples None false) n.
Proof.
  destruct (self_stats_totals samples fb n) as [-> _].
  destruct (app_stats_totals samples app_binary n) as [-> _].
  destruct (hot_stats_totals samples fb false n) as [-> _].
  destruct (hot_stats_totals samples None false n) as [-> _].
  split; apply inj_le, filter_length_le.
  - apply leaf_is_mentions.
  - apply app_mentions_mentions.
Qed.

(** ** The empty filter *)

Lemma binary_differs_empty (f : Frame) : binary_differs (Some "") f = false.
Proof. reflexivity. Qed.

Lemma hot_stats_empty_filter (samples : list Sample) (es : bool) :
  hot_stats samples (Some "") es = hot_stats samples None es.
Proof.
  unfold hot_stats. apply fold_left_ext. intros st s. reflexivity.
Qed.

Lemma find_leaf_empty_filter (bt : list Frame) :
  find_leaf (Some "") bt = find_leaf None bt.
Proof. induction bt as [|f bt IH]; [reflexivity|]. simpl. rewrite IH. reflexivity. Qed.

Lemma self_stats_empty_filter (samples : list Sample) :
  self_stats samples (Some "") = self_stats samples None.
Proof.
  unfold self_stats. apply fold_left_ext. intros st s.
  unfold self_sample_step. rewrite find_leaf_empty_filter. reflexivity.
Qed.

Lemma line_step_ext (fb fb' : option string) (samples : list Sample)
    (acc : result (list string)) :
  (forall f, collapsed_rejects fb f = collapsed_rejects fb' f) ->
  fold_left (line_step fb) samples acc = fold_left (line_step fb') samples acc.
Proof.
  intros H. apply fold_left_ext. intros lines s.
  unfold line_step, sample_stack.
  replace (fold_left (stack_step fb) (rev (backtrace s)) [])
    with (fold_left (stack_step fb') (rev (backtrace s)) []); [reflexivity|].
  apply fold_left_ext. intros stack f. unfold stack_step. rewrite H. reflexivity.
Qed.

(** X9. An empty filter is no filter: the inclusive and the leaf-only
    aggregation and the collapsed stacks give, with the empty string as
    binary filter, what they give without a filter. *)
Theorem empty_filter_is_no_filter (samples : list Sample) (top_n : Z) (es : bool) :
  get_hot_frames samples top_n (Some "") es = get_hot_frames samples top_n None es
  /\ get_self_time_frames samples top_n (Some "")
     = get_self_time_frames samples top_n None
  /\ generate_collapsed_stacks samples (Some "")
     = generate_collapsed_stacks samples None.
Proof.
  split; [|split].
  - unfold get_hot_frames. rewrite hot_stats_empty_filter. reflexivity.
  - unfold get_self_time_frames. rewrite self_stats_empty_filter. reflexivity.
  - unfold generate_collapsed_stacks.
    rewrite (line_step_ext (Some "") None); reflexivity.
Qed.

(** ** The binary of the rows under a filter *)

Lemma accumulate_binary_filter (fb : string) (st : Stats) (f : Frame) (w : PyFloat.float) :
  PyStr.truthy fb = true -> binary f = Some fb ->
  Forall (fun kv : string * PyFloat.float => frame_binary st !! kv.1 = Some fb)
         (frame_weights st) ->
  Forall (fun kv : string * PyFloat.float =>
            frame_binary (accumulate st f w) !! kv.1 = Some fb)
         (frame_weights (accumulate st f w)).
Proof.
  intros Hfb Hb Hst. unfold accumulate, weight_up, binary_up. simpl.
  rewrite Hb, Hfb.
  apply (od_set_keys_Forall
           (fun k => <[name f := fb]> (frame_binary st) !! k = Some fb)).
  - eapply Forall_impl; [exact Hst|]. intros [k v] Hk. simpl in *.
    destruct (decide (name f = k)) as [->|Hne].
    + apply lookup_insert_eq.
    + rewrite lookup_insert_ne by exact Hne. exact Hk.
  - apply lookup_insert_eq.
Qed.

Lemma binary_differs_false (fb : string) (f : Frame) :
  PyStr.truthy fb = true -> binary_differs (Some fb) f = false ->
  binary f = Some fb.
Proof.
  unfold binary_differs. simpl. intros -> H. simpl in H.
  apply bool_decide_eq_false in H.
  destruct (decide (binary f = Some fb)) as [E|N]; [exact E | contradiction].
Qed.

Lemma hot_stats_binary_filter (samples : list Sample) (fb : string) (es : bool) :
  PyStr.truthy fb = true ->
  Forall (fun kv : string * PyFloat.float =>
            frame_binary (hot_stats samples (Some fb) es) !! kv.1 = Some fb)
         (frame_weights (hot_stats samples (Some fb) es)).
Proof.
  intros Hfb. unfold hot_stats. apply fold_left_invariant; [|constructor].
  intros st s Hst. unfold hot_sample_step.
  apply (fold_left_invariant
           (fun acc : Stats * gset string =>
              Forall (fun kv : string * PyFloat.float =>
                        frame_binary acc.1 !! kv.1 = Some fb)
                     (frame_weights acc.1))); [|exact Hst].
  intros [a seen] f Ha. unfold hot_frame_step.
  destruct (raw_address f); [exact Ha|].
  destruct (binary_differs (Some fb) f) eqn:Hd; [exact Ha|].
  destruct (es && _is_system_frame f); [exact Ha|].
  destruct (bool_decide (name f ∈ seen)); [exact Ha|].
  apply accumulate_binary_filter;
    [exact Hfb | apply binary_differs_false; assumption | exact Ha].
Qed.

Lemma self_stats_binary_filter (samples : list Sample) (fb : string) :
  PyStr.truthy fb = true ->
  Forall (fun kv : string * PyFloat.float =>
            frame_binary (self_stats samples (Some fb)) !! kv.1 = Some fb)
         (frame_weights (self_stats samples (Some fb))).
Proof.
  intros Hfb. unfold self_stats. apply fold_left_invariant; [|constructor].
  intros st s Hst. unfold self_sample_step. rewrite find_leaf_find.
  destruct (List.find (leaf_passes (Some fb)) (backtrace s)) as [leaf|] eqn:Hl;
    [|exact Hst].
  apply find_some in Hl. destruct Hl as [_ Hl].
  apply andb_true_iff in Hl. destruct Hl as [_ Hl]. apply negb_true_iff in Hl.
  apply accumulate_binary_filter;
    [exact Hfb | apply binary_differs_false; assumption | exact Hst].
Qed.

(** X10. With a binary filter that is not empty, every row of the
    inclusive and of the leaf-only result has exactly the filter as its
    binary: the filter is an exact match, and a frame with another binary,
    or with none, brings nothing. *)
Theorem filtered_rows_have_the_filter_binary (samples : list Sample) (top_n : Z)
    (fb : string) (es : bool) :
  PyStr.truthy fb = true ->
  Forall (fun r => row_binary r = Some fb)
         (get_hot_frames samples top_n (Some fb) es)
  /\ Forall (fun r => row_binary r = Some fb)
            (get_self_time_frames samples top_n (Some fb)).
Proof.
  intros Hfb. split.
  - apply ranked_Forall, hot_stats_binary_filter, Hfb.
  - apply ranked_Forall, self_stats_binary_filter, Hfb.
Qed.

Lemma filtered_rows_have_the_filter_binary_witness :
  Forall (fun r => row_binary r = Some "binY")
         (get_hot_frames two_rows 5 (Some "binY") false)
  /\ Forall (fun r => row_binary r = Some "binY")
            (get_self_time_frames two_rows 5 (Some "binY")).
Proof.
  apply (filtered_rows_have_the_filter_binary two_rows 5 "binY" false).
  reflexivity.
Defined.

(** ** System frames *)

Lemma hot_stats_keys_Forall (P : string -> Prop) (samples : list Sample)
    (fb : option string) (es : bool) :
  (forall f, hot_passes fb es f = true -> P (name f)) ->
  Forall (fun kv : string * PyFloat.float => P kv.1)
         (frame_weights (hot_stats samples fb es)).
Proof.
  intros HP. unfold hot_stats. apply fold_left_invariant; [|constructor].
  intros st s Hst. unfold hot_sample_step.
  apply (fold_left_invariant
           (fun acc : Stats * gset string =>
              Forall (fun kv : string * PyFloat.float => P kv.1)
                     (frame_weights acc.1))); [|exact Hst].
  intros [a seen] f Ha. rewrite hot_frame_step_passes.
  destruct (hot_passes fb es f) eqn:Hp; [|exact Ha].
  destruct (bool_decide (name f ∈ seen)); [exact Ha|].
  unfold accumulate, weight_up. simpl.
  apply (od_set_keys_Forall P); [exact Ha | apply HP, Hp].
Qed.

(** X11. When system frames are excluded, no row of the inclusive result
    has a name that begins with one of the system prefixes. *)
Theorem excluded_system_names_absent (samples : list Sample) (top_n : Z)
    (fb : option string) :
  Forall (fun r =>
            existsb (fun p => PyStr.startswith (row_name r) p) system_prefixes = false)
         (get_hot_frames samples top_n fb true).
Proof.
  apply ranked_Forall.
  apply (hot_stats_keys_Forall
           (fun n => existsb (fun p => PyStr.startswith n p) system_prefixes = false)).
  intros f Hp. unfold hot_passes in Hp.
  apply andb_true_iff in Hp. destruct Hp as [_ Hs].
  apply negb_true_iff in Hs. cbn [andb] in Hs.
  unfold _is_system_frame in Hs.
  apply not_true_is_false. intros Hex.
  rewrite existsb_exists in Hex. destruct Hex as (p & Hin & Hp).
  assert (Hex' : existsb
                   (fun p => PyStr.startswith (name f) p
                             || match binary f with
                                | Some b => PyStr.truthy b && PyStr.startswith b p
                                | None => false
                                end) system_prefixes = true).
  { apply existsb_exists. exists p. split; [exact Hin|]. rewrite Hp. reflexivity. }
  congruence.
Qed.

(** ** Letter case of the filter *)

Lemma lower_truthy (s : string) : PyStr.truthy (PyStr.lower s) = PyStr.truthy s.
Proof. destruct s; reflexivity. Qed.

Lemma lower_eq_truthy (a b : string) :
  PyStr.lower a = PyStr.lower b -> PyStr.truthy a = PyStr.truthy b.
Proof. intros H. rewrite <- (lower_truthy a), <- (lower_truthy b), H. reflexivity. Qed.

Lemma app_stats_case (samples : list Sample) (a b : string) :
  PyStr.lower a = PyStr.lower b -> app_stats samples a = app_stats samples b.
Proof.
  intros H. unfold app_stats. apply fold_left_ext. intros st s.
  unfold app_sample_step. f_equal. apply fold_left_ext. intros [st' seen] f.
  unfold app_frame_step, not_app. rewrite H. reflexivity.
Qed.

(** X12. The letter case of the filter does not count: two application
    names, or two filters of the collapsed stacks, that are the same once in
    lower case give the same result. *)
Theorem filter_case_insensitive (samples : list Sample) (top_n : Z) (a b : string) :
  PyStr.lower a = PyStr.lower b ->
  get_app_frames samples a top_n = get_app_frames samples b top_n
  /\ generate_collapsed_stacks samples (Some a)
     = generate_collapsed_stacks samples (Some b).
Proof.
  intros H. split.
  - unfold get_app_frames. rewrite (app_stats_case samples a b H). reflexivity.
  - unfold generate_collapsed_stacks.
    rewrite (line_step_ext (Some a) (Some b)); [reflexivity|].
    intros f. unfold collapsed_rejects. rewrite H, (lower_eq_truthy a b H). reflexivity.
Qed.

Lemma filter_case_insensitive_witness :
  get_app_frames two_rows "BinX" 5 = get_app_frames two_rows "BINX" 5
  /\ generate_collapsed_stacks two_rows (Some "BinX")
     = generate_collapsed_stacks two_rows (Some "BINX").
Proof.
  apply (filter_case_insensitive two_rows 5 "BinX" "BINX"). reflexivity.
Defined.

(* ===================================================================== *)
(** * The cut to [top_n] *)
(* ===================================================================== *)

Lemma slice_to_all {A : Type} (l : list A) (n : Z) :
  Z.of_nat (length l) <= n -> slice_to l n = l.
Proof.
  intros H. rewrite slice_to_take by lia. apply take_ge. lia.
Qed.

Lemma sorted_reverse_length {A : Type} (key : A -> PyFloat.float) (l : list A) :
  length (sorted_reverse key l) = length l.
Proof. apply Permutation_length, sorted_reverse_perm. Qed.

(** With room for every name, [ranked] gives the whole ranking. *)
Lemma ranked_full (st : Stats) (N : Z) :
  Z.of_nat (length (frame_weights st)) <= N ->
  ranked st N = map (stats_row st) (sorted_reverse snd (frame_weights st)).
Proof.
  intros H. rewrite ranked_stats_row, slice_to_all; [reflexivity|].
  rewrite sorted_reverse_length. exact H.
Qed.

Lemma ranked_slice (st : Stats) (n N : Z) :
  Z.of_nat (length (frame_weights st)) <= N ->
  ranked st n = slice_to (ranked st N) n.
Proof.
  intros H. rewrite (ranked_full st N H), slice_to_map. apply ranked_stats_row.
Qed.

Lemma uniq_from_length (seen : gset string) (l : list string) :
  (length (uniq_from seen l) <= length l)%nat.
Proof.
  revert seen. induction l as [|x l IH]; intros seen; [reflexivity|].
  simpl. destruct (bool_decide (x ∈ seen)).
  - specialize (IH seen). lia.
  - specialize (IH (seen ∪ {[x]})). simpl. lia.
Qed.

Lemma filter_length_le_all {A : Type} (p : A -> bool) (l : list A) :
  (length (List.filter p l) <= length l)%nat.
Proof.
  induction l as [|x l IH]; [reflexivity|].
  simpl. destruct (p x); simpl; lia.
Qed.

Lemma hot_trace_length (fb : option string) (es : bool) (samples : list Sample) :
  (length (hot_trace fb es samples) <= length (all_frames samples))%nat.
Proof.
  unfold hot_trace, all_frames.
  induction samples as [|s samples IH]; [reflexivity|].
  cbn [flat_map]. rewrite !length_app, length_map.
  pose proof (filter_length_le_all (hot_passes fb es) (backtrace s)). lia.
Qed.

Lemma self_trace_length (fb : option string) (samples : list Sample) :
  (length (self_trace fb samples) <= length (all_frames samples))%nat.
Proof.
  unfold self_trace, all_frames.
  induction samples as [|s samples IH]; [reflexivity|].
  cbn [flat_map omap list_omap]. rewrite length_app.
  destruct (List.find (leaf_passes fb) (backtrace s)) as [f|] eqn:Hf; simpl.
  - apply find_some in Hf. destruct Hf as [Hin _].
    destruct (backtrace s); [destruct Hin|]. simpl. lia.
  - lia.
Qed.

Lemma hot_stats_size (samples : list Sample) (fb : option string) (es : bool) :
  (length (frame_weights (hot_stats samples fb es)) <= length (all_frames samples))%nat.
Proof.
  rewrite <- (length_map fst), hot_stats_keys.
  pose proof (uniq_from_length ∅ (hot_trace fb es samples)).
  pose proof (hot_trace_length fb es samples). lia.
Qed.

Lemma self_stats_size (samples : list Sample) (fb : option string) :
  (length (frame_weights (self_stats samples fb)) <= length (all_frames samples))%nat.
Proof.
  rewrite <- (length_map fst), self_stats_keys.
  pose proof (uniq_from_length ∅ (self_trace fb samples)).
  pose proof (self_trace_length fb samples). lia.
Qed.

(** X13. [top_n] only cuts.  With [N] at least the number of frames of the
    samples, the result for [N] is the complete ranking, and the result for
    any [top_n] is the slice [[:top_n]] of it: its first [top_n] rows, or,
    for a negative [top_n], all its rows but the last [-top_n]. *)
Theorem top_n_slices_the_complete_ranking (samples : list Sample) (top_n N : Z)
    (fb : option string) (es : bool) :
  Z.of_nat (length (all_frames samples)) <= N ->
  get_hot_frames samples top_n fb es
  = slice_to (get_hot_frames samples N fb es) top_n
  /\ get_self_time_frames samples top_n fb
     = slice_to (get_self_time_frames samples N fb) top_n.
Proof.
  intros HN. split.
  - apply ranked_slice. pose proof (hot_stats_size samples fb es). lia.
  - apply ranked_slice. pose proof (self_stats_size samples fb). lia.
Qed.

Lemma top_n_slices_the_complete_ranking_witness :
  get_hot_frames two_rows (-1) None false
  = slice_to (get_hot_frames two_rows 4 None false) (-1)
  /\ get_self_time_frames two_rows (-1) None
     = slice_to (get_self_time_frames two_rows 4 None) (-1).
Proof.
  apply (top_n_slices_the_complete_ranking two_rows (-1) 4 None false).
  vm_compute. discriminate.
Defined.

(* ===================================================================== *)
(** * The leaf-only counts add up *)
(* ===================================================================== *)

Lemma fold_left_add_shift (l : list Z) (a : Z) :
  fold_left Z.add l a = a + fold_left Z.add l 0.
Proof.
  revert a. induction l as [|x l IH]; intros a; cbn [fold_left]; [lia|].
  rewrite (IH (a + x)), (IH (0 + x)). lia.
Qed.

Lemma int_sum_cons (x : Z) (l : list Z) : int_sum (x :: l) = x + int_sum l.
Proof. unfold int_sum. simpl. apply fold_left_add_shift. Qed.

Lemma int_sum_perm (l l' : list Z) : l ≡ₚ l' -> int_sum l = int_sum l'.
Proof.
  induction 1 as [|x l l' _ IH|x y l|l l' l'' _ IH1 _ IH2].
  - reflexivity.
  - rewrite !int_sum_cons, IH. reflexivity.
  - rewrite !int_sum_cons. lia.
  - congruence.
Qed.

Lemma int_sum_map_add {A : Type} (a b : A -> Z) (l : list A) :
  int_sum (map (fun k => a k + b k) l) = int_sum (map a l) + int_sum (map b l).
Proof.
  induction l as [|k l IH]; [reflexivity|].
  cbn [map]. rewrite !int_sum_cons, IH. lia.
Qed.

Lemma int_sum_map_zero {A : Type} (a : A -> Z) (l : list A) :
  (forall k, k ∈ l -> a k = 0) -> int_sum (map a l) = 0.
Proof.
  induction l as [|k l IH]; intros H; [reflexivity|].
  cbn [map]. rewrite int_sum_cons, (H k) by left.
  rewrite IH; [reflexivity|]. intros k' Hk'. apply H. right. exact Hk'.
Qed.

(** Among distinct names, one is [k0]. *)
Lemma int_sum_indicator (k0 : string) (ks : list string) :
  NoDup ks -> k0 ∈ ks ->
  int_sum (map (fun k => if String.eqb k0 k then 1 else 0) ks) = 1.
Proof.
  induction ks as [|k ks IH]; intros Hnd Hin.
  - apply elem_of_nil in Hin. destruct Hin.
  - apply NoDup_cons in Hnd. destruct Hnd as [Hk Hnd].
    cbn [map]. rewrite int_sum_cons.
    destruct (String.eqb_spec k0 k) as [->|Hne].
    + rewrite int_sum_map_zero; [reflexivity|].
      intros k' Hk'. destruct (String.eqb_spec k k'); [congruence | reflexivity].
    + apply elem_of_cons in Hin. destruct Hin as [E|Hin]; [contradiction|].
      rewrite (IH Hnd Hin). reflexivity.
Qed.

Lemma leaf_counts_add_up (fb : option string) (ks : list string) (samples : list Sample) :
  NoDup ks ->
  (forall s f, s ∈ samples -> List.find (leaf_passes fb) (backtrace s) = Some f ->
               name f ∈ ks) ->
  int_sum (map (fun k => Z.of_nat (length (List.filter (leaf_is fb k) samples))) ks)
  = Z.of_nat (length (List.filter (has_leaf fb) samples)).
Proof.
  intros Hnd. induction samples as [|s samples IH]; intros Hks.
  - simpl. apply int_sum_map_zero. reflexivity.
  - assert (IH' := IH (fun s' f Hs' => Hks s' f (list_elem_of_further _ _ _ Hs'))).
    cbn [List.filter].
    rewrite (map_ext _ (fun k => (if leaf_is fb k s then 1 else 0)
                                 + Z.of_nat (length (List.filter (leaf_is fb k) samples)))).
    2:{ intros k. destruct (leaf_is fb k s); simpl; lia. }
    rewrite int_sum_map_add, IH'.
    destruct (List.find (leaf_passes fb) (backtrace s)) as [f|] eqn:Hf.
    + assert (Hh : has_leaf fb s = true) by (unfold has_leaf; rewrite Hf; reflexivity).
      rewrite Hh.
      rewrite (map_ext _ (fun k => if String.eqb (name f) k then 1 else 0))
        by (intros k; unfold leaf_is; rewrite Hf; reflexivity).
      rewrite (int_sum_indicator (name f) ks Hnd (Hks s f (list_elem_of_here _ _) Hf)).
      cbn [length]. lia.
    + assert (Hh : has_leaf fb s = false) by (unfold has_leaf; rewrite Hf; reflexivity).
      rewrite Hh.
      rewrite int_sum_map_zero; [lia|].
      intros k _. unfold leaf_is. rewrite Hf. reflexivity.
Qed.

Lemma self_trace_leaf (fb : option string) (samples : list Sample) (s : Sample) (f : Frame) :
  s ∈ samples -> List.find (leaf_passes fb) (backtrace s) = Some f ->
  name f ∈ self_trace fb samples.
Proof.
  intros Hs Hf. unfold self_trace. apply list_elem_of_omap.
  exists s. split; [exact Hs|]. rewrite Hf. reflexivity.
Qed.

(** X14. When nothing is cut off, the counts of the leaf-only rows add up
    to the number of samples that have a leaf: every such sample is counted
    once, under one name. *)
Theorem leaf_only_counts_add_up (samples : list Sample) (N : Z) (fb : option string) :
  Z.of_nat (length (all_frames samples)) <= N ->
  int_sum (map row_count (get_self_time_frames samples N fb))
  = Z.of_nat (length (List.filter (has_leaf fb) samples)).
Proof.
  intros HN. unfold get_self_time_frames.
  set (st := self_stats samples fb).
  rewrite ranked_full by (pose proof (self_stats_size samples fb); unfold st; lia).
  rewrite map_map.
  rewrite (int_sum_perm _ (map (fun kv => row_count (stats_row st kv)) (frame_weights st)))
    by (apply Permutation_map, sorted_reverse_perm).
  rewrite (map_ext _ (fun kv =>
             Z.of_nat (length (List.filter (leaf_is fb (fst kv)) samples)))).
  2:{ intros [k v]. cbn [fst]. unfold st.
      destruct (self_stats_totals samples fb k) as [<- _]. reflexivity. }
  rewrite <- (map_map fst
                (fun k => Z.of_nat (length (List.filter (leaf_is fb k) samples)))).
  unfold st. rewrite self_stats_keys.
  apply leaf_counts_add_up; [apply uniq_from_NoDup|].
  intros s f Hs Hf. apply elem_of_uniq_from. split; [|set_solver].
  eapply self_trace_leaf; eassumption.
Qed.

Lemma leaf_only_counts_add_up_witness :
  int_sum (map row_count (get_self_time_frames two_rows 4 None))
  = Z.of_nat (length (List.filter (has_leaf None) two_rows)).
Proof.
  apply (leaf_only_counts_add_up two_rows 4 None). vm_compute. discriminate.
Defined.

(* ===================================================================== *)
(** * The keyword subset *)
(* ===================================================================== *)

(** X15. The keyword subset: the rows of the first hundred of the
    inclusive ranking that have a keyword, in the order of that ranking, cut
    to [top_n] rows; a [top_n] of zero or less still lets the first such row
    through, the length being tested after the row is added. *)
Theorem swiftui_frames_first_matches (samples : list Sample) (top_n : Z) :
  get_swiftui_frames samples top_n
  = take (Z.to_nat (Z.max 1 top_n))
         (map row_triple
              (List.filter is_swiftui_row (get_hot_frames samples 100 None false))).
Proof.
  unfold get_swiftui_frames. rewrite swiftui_loop_take. simpl.
  rewrite Z.sub_0_r. reflexivity.
Qed.

(* ===================================================================== *)
(** * The binary of a row *)
(* ===================================================================== *)

Lemma frame_binary_accumulate (st : Stats) (f : Frame) (w : PyFloat.float) (n : string) :
  frame_binary (accumulate st f w) !! n
  = match event_binary n (f, w) with
    | Some b => Some b
    | None => frame_binary st !! n
    end.
Proof.
  unfold accumulate, binary_up, event_binary, named, truthy_opt. simpl.
  destruct (binary f) as [b|].
  - destruct (PyStr.truthy b).
    + destruct (String.eqb_spec (name f) n) as [->|Hne]; simpl.
      * apply lookup_insert_eq.
      * apply lookup_insert_ne. exact Hne.
    + rewrite andb_false_r. reflexivity.
  - rewrite andb_false_r. reflexivity.
Qed.

(** The binary of a name after a sequence of accumulations: the one that
    the last accumulation recording a binary for it recorded. *)
Lemma replay_binary (st : Stats) (ev : list (Frame * PyFloat.float)) (n : string) :
  frame_binary (replay st ev) !! n
  = match last (omap (event_binary n) ev) with
    | Some b => Some b
    | None => frame_binary st !! n
    end.
Proof.
  revert st. induction ev as [|[f w] ev IH]; intros st; [reflexivity|].
  change (replay st ((f, w) :: ev)) with (replay (accumulate st f w) ev).
  rewrite IH, frame_binary_accumulate. cbn [omap list_omap].
  destruct (event_binary n (f, w)) as [b|]; [|reflexivity].
  rewrite last_cons. destruct (last (omap (event_binary n) ev)); reflexivity.
Qed.

Lemma first_seen_named (n : string) (l : list Frame) (seen : gset string) :
  List.filter (fun f => String.eqb (name f) n) (first_seen seen l)
  = if bool_decide (n ∈ seen) then []
    else option_list (List.find (fun f => String.eqb (name f) n) l).
Proof.
  revert seen. induction l as [|f l IH]; intros seen.
  - simpl. destruct (bool_decide (n ∈ seen)); reflexivity.
  - cbn [first_seen List.find].
    destruct (bool_decide (name f ∈ seen)) eqn:Hs.
    + apply bool_decide_eq_true in Hs. rewrite IH.
      destruct (String.eqb_spec (name f) n) as [<-|Hne]; [|reflexivity].
      rewrite bool_decide_eq_true_2 by exact Hs. reflexivity.
    + apply bool_decide_eq_false in Hs. cbn [List.filter]. rewrite IH.
      destruct (String.eqb_spec (name f) n) as [<-|Hne].
      * rewrite bool_decide_eq_true_2 by set_solver.
        rewrite bool_decide_eq_false_2 by exact Hs. reflexivity.
      * destruct (bool_decide (n ∈ seen)) eqn:Hn.
        -- apply bool_decide_eq_true in Hn.
           rewrite bool_decide_eq_true_2 by set_solver. reflexivity.
        -- apply bool_decide_eq_false in Hn.
           rewrite bool_decide_eq_false_2 by set_solver. reflexivity.
Qed.

Lemma find_filter_and {A : Type} (p q : A -> bool) (l : list A) :
  List.find q (List.filter p l) = List.find (fun x => p x && q x) l.
Proof.
  induction l as [|x l IH]; [reflexivity|].
  simpl. destruct (p x); simpl; [rewrite IH; reflexivity | exact IH].
Qed.

Lemma omap_event_binary (n : string) (w : PyFloat.float) (fs : list Frame) :
  omap (event_binary n) (map (fun f => (f, w)) fs)
  = omap recorded_binary (List.filter (fun f => String.eqb (name f) n) fs).
Proof.
  induction fs as [|f fs IH]; [reflexivity|].
  cbn [map omap list_omap List.filter]. unfold event_binary at 1, named. cbn [fst].
  destruct (String.eqb (name f) n); cbn [andb omap list_omap].
  - unfold recorded_binary at 1. rewrite IH. reflexivity.
  - exact IH.
Qed.

Lemma hot_events_binary (P : Frame -> bool) (n : string) (s : Sample) :
  omap (event_binary n)
       (map (fun f => (f, weight_ms s)) (first_seen ∅ (List.filter P (backtrace s))))
  = option_list (binary_seen P n s).
Proof.
  rewrite omap_event_binary, first_seen_named.
  rewrite bool_decide_eq_false_2 by set_solver.
  rewrite find_filter_and. unfold binary_seen.
  destruct (List.find _ (backtrace s)) as [f|]; [|reflexivity].
  simpl. unfold recorded_binary. destruct (truthy_opt (binary f)); reflexivity.
Qed.

Lemma omap_flat_map_option {A B C : Type} (g : B -> option C) (ev : A -> list B)
    (h : A -> option C) (l : list A) :
  (forall x, omap g (ev x) = option_list (h x)) ->
  omap g (flat_map ev l) = omap h l.
Proof.
  intros H. induction l as [|x l IH]; [reflexivity|].
  cbn [flat_map omap list_omap]. rewrite omap_app, H, IH.
  destruct (h x); reflexivity.
Qed.

Lemma hot_stats_binary (samples : list Sample) (fb : option string) (es : bool)
    (n : string) :
  frame_binary (hot_stats samples fb es) !! n
  = last (omap (binary_seen (hot_passes fb es) n) samples).
Proof.
  rewrite hot_stats_replay, replay_binary.
  rewrite (omap_flat_map_option _ _ (binary_seen (hot_passes fb es) n)).
  - destruct (last _); reflexivity.
  - intros s. apply hot_events_binary.
Qed.

Lemma self_events_binary (fb : option string) (n : string) (s : Sample) :
  omap (event_binary n)
       (map (fun f => (f, weight_ms s))
            (option_list (List.find (leaf_passes fb) (backtrace s))))
  = option_list (leaf_binary_seen fb n s).
Proof.
  unfold leaf_binary_seen.
  destruct (List.find (leaf_passes fb) (backtrace s)) as [f|]; [|reflexivity].
  change (option_list (Some f)) with [f]. cbn [map omap list_omap].
  unfold event_binary, named, recorded_binary. cbn [fst].
  destruct (String.eqb (name f) n); [|reflexivity].
  cbn [andb]. destruct (truthy_opt (binary f)); reflexivity.
Qed.

Lemma self_stats_binary (samples : list Sample) (fb : option string) (n : string) :
  frame_binary (self_stats samples fb) !! n
  = last (omap (leaf_binary_seen fb n) samples).
Proof.
  rewrite self_stats_replay, replay_binary.
  rewrite (omap_flat_map_option _ _ (leaf_binary_seen fb n)).
  - destruct (last _); reflexivity.
  - intros s. apply self_events_binary.
Qed.

(** X16. The binary of a row is the last one seen.  Each sample records,
    for a name, the binary of its first frame of that name that is not
    skipped (for the leaf-only aggregation: of its leaf), when that binary is
    not empty; the row has the binary that the last sample recording one
    recorded, and none when no sample did. *)
Theorem row_binary_is_last_seen (samples : list Sample) (top_n : Z)
    (fb : option string) (es : bool) :
  Forall (fun r =>
            row_binary r
            = last (omap (binary_seen (hot_passes fb es) (row_name r)) samples))
         (get_hot_frames samples top_n fb es)
  /\ Forall (fun r =>
               row_binary r = last (omap (leaf_binary_seen fb (row_name r)) samples))
            (get_self_time_frames samples top_n fb).
Proof.
  split.
  - unfold get_hot_frames.
    eapply Forall_impl; [apply ranked_rows, hot_stats_NoDup|].
    intros r (_ & _ & -> & _). apply hot_stats_binary.
  - unfold get_self_time_frames.
    eapply Forall_impl; [apply ranked_rows, self_stats_NoDup|].
    intros r (_ & _ & -> & _). apply self_stats_binary.
Qed.

(* ===================================================================== *)
(** * The collapsed stacks: failures, raw addresses, names *)
(* ===================================================================== *)

(** X17. The collapsed stacks fail on the first sample that has a line and
    a weight without an integer part: with [ValueError] when the weight is
    not a number and with [OverflowError] when it is infinite.  A sample
    without a frame that survives never makes them fail, whatever its
    weight; without such a failing sample the result is the lines of the
    samples joined by newlines. *)
Theorem collapsed_stacks_outcome (samples : list Sample) (fb : option string) :
  generate_collapsed_stacks samples fb
  = match List.find (unprintable fb) samples with
    | Some s => Raise (weight_error (weight_ms s))
    | None => Ok (PyStr.join newline (omap (line_of fb) samples))
    end.
Proof.
  unfold generate_collapsed_stacks. rewrite line_step_fold_outcome.
  destruct (List.find (unprintable fb) samples); reflexivity.
Qed.

(** ** Raw addresses *)

Lemma survives_not_raw (fb : option string) (f : Frame) :
  survives fb f = true -> negb (raw_address f) = true.
Proof. unfold survives. intros H. apply andb_true_iff in H. apply H. Qed.

Lemma sample_stack_without_raw (fb : option string) (s : Sample) :
  sample_stack fb (without_raw s) = sample_stack fb s.
Proof.
  rewrite !sample_stack_survivors. f_equal. unfold without_raw. cbn [backtrace].
  rewrite <- List.filter_rev.
  apply filter_filter_implied. apply survives_not_raw.
Qed.

(** X18. The collapsed stacks do not depend on the frames with a
    raw-address name: they are the same, failures included, when these
    frames are taken out of every backtrace. *)
Theorem collapsed_stacks_without_raw (samples : list Sample) (fb : option string) :
  generate_collapsed_stacks (map without_raw samples) fb
  = generate_collapsed_stacks samples fb.
Proof.
  unfold generate_collapsed_stacks. rewrite fold_left_map. f_equal.
  apply fold_left_ext. intros lines s. unfold line_step.
  rewrite sample_stack_without_raw. reflexivity.
Qed.

(** ** The names of a stack *)

Lemma clean_char_plain (n : string) :
  string_forallb plain_char (string_map clean_char n) = true.
Proof.
  induction n as [|c n IH]; [reflexivity|].
  cbn [string_map string_forallb]. rewrite IH, andb_true_r.
  unfold plain_char, clean_char.
  destruct (Ascii.eqb_spec c ";") as [->|H1]; [reflexivity|].
  destruct (Ascii.eqb_spec c " ") as [->|H2]; [reflexivity|].
  apply Ascii.eqb_neq in H1, H2. rewrite H1, H2. reflexivity.
Qed.

Lemma clean_char_raw (n : string) :
  raw_name (string_map clean_char n) = raw_name n.
Proof.
  unfold raw_name, PyStr.startswith.
  destruct n as [|a n]; [reflexivity|].
  cbn [string_map]. rewrite !prefix_cons.
  assert (Ha : Ascii.eqb "0" (clean_char a) = Ascii.eqb "0" a).
  { unfold clean_char.
    destruct (Ascii.eqb_spec a ";") as [->|_]; [reflexivity|].
    destruct (Ascii.eqb_spec a " ") as [->|_]; reflexivity. }
  rewrite Ha. destruct (Ascii.eqb "0" a); [|reflexivity].
  destruct n as [|b n]; [reflexivity|].
  cbn [string_map]. rewrite !prefix_cons, !prefix_empty.
  unfold clean_char.
  destruct (Ascii.eqb_spec b ";") as [->|_]; [reflexivity|].
  destruct (Ascii.eqb_spec b " ") as [->|_]; reflexivity.
Qed.

(** X19. The names of a collapsed stack: none has a semicolon or a blank
    left, so that the semicolons of a line separate its frames and its last
    blank comes before the weight; none is a raw address; and there are as
    many of them as frames of the backtrace at most. *)
Theorem collapsed_stack_names (fb : option string) (s : Sample) :
  Forall (fun n => string_forallb plain_char n = true /\ raw_name n = false)
         (sample_stack fb s)
  /\ (length (sample_stack fb s) <= length (backtrace s))%nat.
Proof.
  rewrite sample_stack_survivors. split.
  - apply Forall_fmap, Forall_forall. intros f Hf. cbn.
    split; [apply clean_char_plain|].
    rewrite clean_char_raw.
    apply list_elem_of_In, filter_In in Hf. destruct Hf as [_ Hf].
    apply survives_not_raw, negb_true_iff in Hf. exact Hf.
  - rewrite length_map, <- (length_rev (backtrace s)). apply filter_length_le_all.
Qed.

(* ===================================================================== *)
(** * Thresholds *)
(* ===================================================================== *)

Lemma float_ge_trans (x y z : PyFloat.float) :
  float_ge x y = true -> float_ge y z = true -> float_ge x z = true.
Proof.
  unfold float_ge, SFleb, SFcompare.
  destruct x as [sx|sx| |sx mx ex], y as [sy|sy| |sy my ey], z as [sz|sz| |sz mz ez];
    try destruct sx; try destruct sy; try destruct sz;
    try discriminate; try reflexivity;
    compare_cases.
Qed.

Lemma float_ge_not_nan (x y : PyFloat.float) :
  float_ge x y = true -> not_nan x = true /\ not_nan y = true.
Proof.
  unfold float_ge, SFleb, SFcompare.
  destruct x as [sx|sx| |sx mx ex], y as [sy|sy| |sy my ey];
    try discriminate; split; reflexivity.
Qed.

Lemma filter_ge_raise {A : Type} (key : A -> PyFloat.float) (t1 t2 : PyFloat.float)
    (l : list A) :
  float_ge t2 t1 = true ->
  List.filter (fun x => float_ge (key x) t2)
              (List.filter (fun x => float_ge (key x) t1) l)
  = List.filter (fun x => float_ge (key x) t2) l.
Proof.
  intros H. apply filter_filter_implied.
  intros x Hx. exact (float_ge_trans _ _ _ Hx H).
Qed.

Lemma filter_ge_not_nan {A : Type} (key : A -> PyFloat.float) (t : PyFloat.float)
    (l : list A) :
  Forall (fun x => not_nan (key x) = true /\ not_nan t = true)
         (List.filter (fun x => float_ge (key x) t) l).
Proof.
  apply Forall_forall. intros x Hx.
  apply list_elem_of_In, filter_In in Hx. destruct Hx as [_ Hx].
  apply float_ge_not_nan, Hx.
Qed.

Lemma filter_ge_nan {A : Type} (key : A -> PyFloat.float) (l : list A) :
  List.filter (fun x => float_ge (key x) S754_nan) l = [].
Proof.
  induction l as [|x l IH]; [reflexivity|].
  simpl. unfold float_ge at 1. destruct (key x); exact IH.
Qed.

(** X20. Raising a threshold only drops.  With a threshold that is not
    lower, the slow updates are the slow updates of the slow updates of the
    lower threshold, and so for the samples of high energy: nothing is
    selected that the lower threshold did not select. *)
Theorem raising_threshold_only_drops
    (updates : list SwiftUIUpdatesParser.SwiftUIUpdate)
    (samples : list EnergyUsageParser.EnergyUsage) (t1 t2 : PyFloat.float) :
  float_ge t2 t1 = true ->
  SwiftUIUpdatesParser.get_slow_updates
    (SwiftUIUpdatesParser.get_slow_updates updates t1) t2
  = SwiftUIUpdatesParser.get_slow_updates updates t2
  /\ EnergyUsageParser.get_high_energy_samples
       (EnergyUsageParser.get_high_energy_samples samples t1) t2
     = EnergyUsageParser.get_high_energy_samples samples t2.
Proof.
  intros H. split.
  - apply (filter_ge_raise SwiftUIUpdatesParser.duration_us), H.
  - apply (filter_ge_raise EnergyUsageParser.energy_impact), H.
Qed.

Lemma raising_threshold_only_drops_witness :
  SwiftUIUpdatesParser.get_slow_updates
    (SwiftUIUpdatesParser.get_slow_updates three_updates float_3) float_5
  = SwiftUIUpdatesParser.get_slow_updates three_updates float_5
  /\ EnergyUsageParser.get_high_energy_samples
       (EnergyUsageParser.get_high_energy_samples two_energy_samples float_3) float_5
     = EnergyUsageParser.get_high_energy_samples two_energy_samples float_5.
Proof.
  apply (raising_threshold_only_drops three_updates two_energy_samples float_3 float_5).
  reflexivity.
Defined.

(** X21. What a threshold selects.  The slow updates, and the samples of
    high energy, are taken from the list in its order; a duration or an
    impact that is not a number is never selected, and a threshold that is
    not a number selects nothing. *)
Theorem threshold_selection
    (updates : list SwiftUIUpdatesParser.SwiftUIUpdate)
    (samples : list EnergyUsageParser.EnergyUsage) (t : PyFloat.float) :
  (sublist (SwiftUIUpdatesParser.get_slow_updates updates t) updates
   /\ Forall (fun u => not_nan (SwiftUIUpdatesParser.duration_us u) = true)
             (SwiftUIUpdatesParser.get_slow_updates updates t)
   /\ SwiftUIUpdatesParser.get_slow_updates updates S754_nan = [])
  /\ (sublist (EnergyUsageParser.get_high_energy_samples samples t) samples
      /\ Forall (fun s => not_nan (EnergyUsageParser.energy_impact s) = true)
                (EnergyUsageParser.get_high_energy_samples samples t)
      /\ EnergyUsageParser.get_high_energy_samples samples S754_nan = []).
Proof.
  split; (split; [apply filter_sublist | split]).
  - eapply Forall_impl;
      [apply (filter_ge_not_nan SwiftUIUpdatesParser.duration_us)|].
    intros u [H _]. exact H.
  - apply (filter_ge_nan SwiftUIUpdatesParser.duration_us).
  - eapply Forall_impl;
      [apply (filter_ge_not_nan EnergyUsageParser.energy_impact)|].
    intros u [H _]. exact H.
  - apply (filter_ge_nan EnergyUsageParser.energy_impact).
Qed.

(* ===================================================================== *)
(** * The table of contents *)
(* ===================================================================== *)

Lemma toc_step_fold (l : list Element) (acc : list string) :
  fold_left toc_step (List.filter (has_tag "table") l) acc
  = acc ++ omap table_schema l.
Proof.
  revert acc. induction l as [|e l IH]; intros acc.
  - simpl. rewrite app_nil_r. reflexivity.
  - cbn [List.filter omap list_omap]. unfold table_schema at 1.
    destruct (has_tag "table" e); [|apply IH].
    cbn [fold_left]. rewrite IH. unfold toc_step.
    destruct (get e "schema") as [s|]; [|reflexivity].
    destruct (PyStr.truthy s); [|reflexivity].
    rewrite <- app_assoc. reflexivity.
Qed.

(** X22. The schemas of a table of contents: the schemas of its [table]
    elements in document order, the tables without schema or with an empty
    one left out, so that no schema of the list is empty and there are as
    many as such tables at most; a file that cannot be read gives the empty
    list. *)
Theorem toc_schemas (root : Element) :
  parse_toc (Some root) = omap table_schema (iter root)
  /\ Forall (fun s => PyStr.truthy s = true) (parse_toc (Some root))
  /\ (length (parse_toc (Some root)) <= length (iter_tag root "table"))%nat
  /\ parse_toc None = [].
Proof.
  assert (E : parse_toc (Some root) = omap table_schema (iter root)).
  { unfold parse_toc, iter_tag. rewrite toc_step_fold. reflexivity. }
  split; [exact E|]. rewrite E. split; [|split; [|reflexivity]].
  - apply Forall_forall. intros s Hs.
    apply list_elem_of_omap in Hs. destruct Hs as (e & _ & He).
    unfold table_schema in He.
    destruct (has_tag "table" e); [|discriminate].
    destruct (get e "schema") as [s'|]; [|discriminate].
    destruct (PyStr.truthy s') eqn:Ht; [|discriminate].
    injection He as <-. exact Ht.
  - unfold iter_tag. clear E. induction (iter root) as [|e l IH]; [reflexivity|].
    cbn [omap list_omap List.filter]. unfold table_schema at 1.
    destruct (has_tag "table" e); [|exact IH].
    destruct (get e "schema") as [s'|]; [|simpl; lia].
    destruct (PyStr.truthy s'); simpl; lia.
Qed.

(* ===================================================================== *)
(** * The stable sort on integer keys *)
(* ===================================================================== *)

Section IntSortFacts.
Context {A : Type} (key : A -> Z).
Implicit Types (l : list A) (x y : A).

Lemma insert_asc_int_perm x l : insert_asc_int key x l ≡ₚ x :: l.
Proof.
  induction l as [|y l IH]; [reflexivity|].
  simpl. destruct (key y <? key x); [|reflexivity].
  rewrite IH. apply Permutation_swap.
Qed.

Lemma sort_asc_int_perm l : sort_asc_int key l ≡ₚ l.
Proof.
  induction l as [|x l IH]; [reflexivity|].
  simpl. rewrite insert_asc_int_perm, IH. reflexivity.
Qed.

Lemma sorted_reverse_int_perm l : sorted_reverse_int key l ≡ₚ l.
Proof.
  unfold sorted_reverse_int.
  rewrite <- Permutation_rev, sort_asc_int_perm, <- Permutation_rev. reflexivity.
Qed.

Lemma sorted_reverse_int_length l : length (sorted_reverse_int key l) = length l.
Proof. apply Permutation_length, sorted_reverse_int_perm. Qed.

Lemma insert_asc_int_sorted (R : relation A) x l :
  (forall y, y ∈ l -> key y < key x -> R y x) ->
  (forall y, y ∈ l -> key x <= key y -> R x y) ->
  (forall y z, R y z -> key y <= key z) ->
  StronglySorted R l ->
  StronglySorted R (insert_asc_int key x l).
Proof.
  intros Hlt Hge HR Hs.
  induction Hs as [|y l Hs IH Hy]; simpl.
  - repeat constructor.
  - destruct (Z.ltb_spec (key y) (key x)) as [Hyx|Hyx].
    + apply StronglySorted_cons. split.
      * rewrite insert_asc_int_perm. constructor; [|exact Hy].
        apply Hlt; [left | exact Hyx].
      * apply IH.
        -- intros z Hz. apply Hlt. right. exact Hz.
        -- intros z Hz. apply Hge. right. exact Hz.
    + apply StronglySorted_cons. split.
      * constructor.
        -- apply Hge; [left | exact Hyx].
        -- apply Forall_forall. intros z Hz. apply Hge; [right; exact Hz|].
           rewrite Forall_forall in Hy. specialize (HR y z (Hy z Hz)). lia.
      * constructor; assumption.
Qed.

Lemma asc_stable_int_cons l x a b :
  asc_stable_int key l a b -> asc_stable_int key (x :: l) a b.
Proof.
  intros [H1 H2]. split; [exact H1|].
  intros H. apply precedes_cons, H2, H.
Qed.

Lemma sort_asc_int_sorted l :
  StronglySorted (asc_stable_int key l) (sort_asc_int key l).
Proof.
  induction l as [|x l IH]; [constructor|].
  simpl. apply insert_asc_int_sorted.
  - intros y _ Hyx. split; [lia|]. intros H. lia.
  - intros y Hy Hyx. split; [exact Hyx|].
    intros _. apply precedes_head. rewrite sort_asc_int_perm in Hy. exact Hy.
  - intros y z [H _]. exact H.
  - apply (StronglySorted_weaken (asc_stable_int key l)).
    + intros a b. apply asc_stable_int_cons.
    + exact IH.
Qed.

(** The result of [sorted(..., reverse=True)] on integer keys: a
    rearrangement of the list in which no element has a smaller key than a
    later one, and equal keys stay in the order of the list. *)
Lemma sorted_reverse_int_sorted l :
  StronglySorted (desc_stable_int key l) (sorted_reverse_int key l).
Proof.
  unfold sorted_reverse_int.
  apply (StronglySorted_weaken (flip (asc_stable_int key (rev l)))).
  - intros a b [H1 H2]. split; [exact H1|].
    intros H. apply precedes_rev, H2, H.
  - apply StronglySorted_rev, sort_asc_int_sorted.
Qed.

End IntSortFacts.

Lemma slice_to_rest {A : Type} (l : list A) (n : Z) :
  slice_to l n ++ slice_rest l n = l.
Proof. unfold slice_to, slice_rest. destruct (0 <=? n); apply take_drop. Qed.

Lemma slice_to_length {A B : Type} (l : list A) (l' : list B) (n : Z) :
  length l = length l' -> length (slice_to l n) = length (slice_to l' n).
Proof.
  intros H. unfold slice_to. destruct (0 <=? n); rewrite !length_take, H; reflexivity.
Qed.

(* ===================================================================== *)
(** * The top categories *)
(* ===================================================================== *)

Lemma top_categories_slice
    (statistics : list AllocationStatisticsParser.AllocationStatistics)
    (top_n : Z) (by_ : string) :
  AllocationStatisticsParser.get_top_categories statistics top_n by_
  = slice_to (sorted_reverse_int (bytes_key by_) statistics) top_n.
Proof.
  unfold AllocationStatisticsParser.get_top_categories, bytes_key.
  destruct (String.eqb by_ "persistent"); reflexivity.
Qed.

(** X23. The top categories are the largest ones.  With what the slice
    leaves out put after them, the top categories are the statistics
    rearranged, in descending order of the bytes that [by] selects
    (persistent for ["persistent"], total for any other string), equal
    bytes in the order of the list; so no category left out has more bytes
    than one of the result.  There are as many as a slice of the list
    itself has. *)
Theorem top_categories_are_the_largest
    (statistics : list AllocationStatisticsParser.AllocationStatistics)
    (top_n : Z) (by_ : string) :
  let top := AllocationStatisticsParser.get_top_categories statistics top_n by_ in
  exists rest : list AllocationStatisticsParser.AllocationStatistics,
    top ++ rest ≡ₚ statistics
    /\ StronglySorted (desc_stable_int (bytes_key by_) statistics) (top ++ rest)
    /\ Forall (fun a => Forall (fun b => bytes_key by_ b <= bytes_key by_ a) rest) top
    /\ length top = length (slice_to statistics top_n).
Proof.
  intros top. unfold top. rewrite top_categories_slice.
  exists (slice_rest (sorted_reverse_int (bytes_key by_) statistics) top_n).
  pose proof (sorted_reverse_int_sorted (bytes_key by_) statistics) as Hs.
  rewrite <- (slice_to_rest (sorted_reverse_int (bytes_key by_) statistics) top_n)
    in Hs.
  split; [|split; [|split]].
  - rewrite slice_to_rest. apply sorted_reverse_int_perm.
  - exact Hs.
  - apply Forall_forall. intros a Ha. apply Forall_forall. intros b Hb.
    apply (StronglySorted_app_1_elem_of _ _ _ a b Hs Ha Hb).
  - apply slice_to_length, sorted_reverse_int_length.
Qed.

(* ===================================================================== *)
(** * The summary of the leaks *)
(* ===================================================================== *)

Section LeakGroupFacts.
Context (key : LeaksParser.MemoryLeak -> string).
Implicit Types (d : list (string * list LeaksParser.MemoryLeak))
               (leaks : list LeaksParser.MemoryLeak) (k : string).

Lemma group_step_keys d leak :
  map fst (group_step key d leak)
  = map fst d ++ uniq_from (list_to_set (map fst d))
                           (List.filter PyStr.truthy [key leak]).
Proof.
  unfold group_step, has_key, LeaksParser.append_to. cbn [List.filter].
  destruct (PyStr.truthy (key leak)).
  - rewrite od_keys_set. cbn [uniq_from].
    destruct (bool_decide (key leak ∈ map fst d)) eqn:Hk.
    + apply bool_decide_eq_true in Hk.
      rewrite bool_decide_eq_true_2 by (apply elem_of_list_to_set; exact Hk).
      rewrite app_nil_r. reflexivity.
    + apply bool_decide_eq_false in Hk.
      rewrite bool_decide_eq_false_2 by (rewrite elem_of_list_to_set; exact Hk).
      reflexivity.
  - simpl. rewrite app_nil_r. reflexivity.
Qed.

Lemma groups_keys leaks d :
  map fst (fold_left (group_step key) leaks d)
  = map fst d ++ uniq_from (list_to_set (map fst d))
                           (List.filter PyStr.truthy (map key leaks)).
Proof.
  revert d. induction leaks as [|leak leaks IH]; intros d.
  - simpl. rewrite app_nil_r. reflexivity.
  - cbn [fold_left]. rewrite IH, group_step_keys.
    change (map key (leak :: leaks)) with ([key leak] ++ map key leaks).
    rewrite List.filter_app, uniq_from_app, <- app_assoc.
    do 3 f_equal. rewrite list_to_set_app_L.
    pose proof (uniq_from_set (list_to_set (map fst d))
                  (List.filter PyStr.truthy [key leak])) as H.
    rewrite H. reflexivity.
Qed.

Lemma groups_get leaks d k :
  od_get (fold_left (group_step key) leaks d) k
  = merge_group (od_get d k) (joining key k leaks).
Proof.
  revert d. induction leaks as [|leak leaks IH]; intros d.
  - simpl. destruct (od_get d k) as [v|]; [|reflexivity].
    simpl. rewrite app_nil_r. reflexivity.
  - cbn [fold_left]. rewrite IH. unfold joining. cbn [List.filter].
    fold (joining key k leaks). unfold group_step.
    destruct (has_key key leak); [|reflexivity].
    unfold LeaksParser.append_to. rewrite od_get_set. unfold keyed.
    rewrite (String.eqb_sym (key leak) k).
    destruct (String.eqb_spec k (key leak)) as [->|Hne]; [|reflexivity].
    cbn [andb merge_group].
    destruct (od_get d (key leak)) as [v|]; simpl.
    + rewrite <- app_assoc. reflexivity.
    + reflexivity.
Qed.

Lemma groups_NoDup leaks : NoDup (map fst (fold_left (group_step key) leaks [])).
Proof. rewrite groups_keys. simpl. apply uniq_from_NoDup. Qed.

Lemma groups_keys_of leaks :
  map fst (fold_left (group_step key) leaks []) = keys_of key leaks.
Proof. rewrite groups_keys. reflexivity. Qed.

Lemma joining_leaks_of k leaks :
  PyStr.truthy k = true -> joining key k leaks = leaks_of key k leaks.
Proof.
  intros Hk. unfold joining, leaks_of. apply filter_ext. intros leak.
  unfold has_key, keyed. destruct (String.eqb_spec (key leak) k) as [->|_].
  - rewrite Hk. reflexivity.
  - apply andb_false_r.
Qed.

Lemma keys_of_truthy leaks : Forall (fun k => PyStr.truthy k = true) (keys_of key leaks).
Proof.
  apply Forall_forall. intros k Hk. unfold keys_of in Hk.
  apply elem_of_uniq_from in Hk. destruct Hk as [Hk _].
  apply list_elem_of_In, filter_In in Hk. apply Hk.
Qed.

Lemma keys_of_leaks leaks k :
  k ∈ keys_of key leaks -> leaks_of key k leaks <> [].
Proof.
  intros Hk. unfold keys_of in Hk.
  apply elem_of_uniq_from in Hk. destruct Hk as [Hk _].
  apply list_elem_of_In, filter_In in Hk. destruct Hk as [Hk _].
  apply in_map_iff in Hk. destruct Hk as (leak & <- & Hin).
  intros E. assert (Hl : In leak (leaks_of key (key leak) leaks)).
  { apply filter_In. split; [exact Hin|]. unfold keyed. apply String.eqb_refl. }
  rewrite E in Hl. destruct Hl.
Qed.

(** The groups: each key with its leaks, in their order. *)
Lemma groups_entries leaks :
  Forall (fun kv => kv.2 = leaks_of key kv.1 leaks)
         (fold_left (group_step key) leaks []).
Proof.
  apply Forall_forall. intros [k v] Hkv. cbn [fst snd].
  pose proof (od_get_elem_of _ _ _ Hkv) as Hk.
  rewrite groups_keys_of in Hk.
  pose proof (keys_of_truthy leaks) as Ht. rewrite Forall_forall in Ht.
  pose proof (od_elem_of_get _ k v (groups_NoDup leaks) Hkv) as Hg.
  rewrite groups_get in Hg. cbn [od_get merge_group] in Hg.
  rewrite (joining_leaks_of k leaks (Ht k Hk)) in Hg.
  destruct (leaks_of key k leaks); [discriminate|]. congruence.
Qed.

End LeakGroupFacts.

Lemma leak_step_groups (leaks : list LeaksParser.MemoryLeak)
    (a b : list (string * list LeaksParser.MemoryLeak)) :
  fold_left LeaksParser.leak_step leaks (a, b)
  = (fold_left (group_step LeaksParser.responsible_library) leaks a,
     fold_left (group_step LeaksParser.responsible_frame) leaks b).
Proof.
  revert a b. induction leaks as [|leak leaks IH]; intros a b; [reflexivity|].
  cbn [fold_left]. unfold LeaksParser.leak_step at 2. cbn [fst snd].
  rewrite IH. reflexivity.
Qed.

Lemma od_set_fresh {V : Type} (d : list (string * V)) (k : string) (v : V) :
  k ∉ map fst d -> od_set d k v = d ++ [(k, v)].
Proof.
  induction d as [|[k0 v0] d IH]; intros Hk; [reflexivity|].
  cbn [map fst] in Hk. apply not_elem_of_cons in Hk. destruct Hk as [Hne Hk].
  cbn [od_set]. destruct (String.eqb_spec k k0) as [E|_]; [contradiction|].
  rewrite (IH Hk). reflexivity.
Qed.

Lemma summarize_fold (items : list (string * list LeaksParser.MemoryLeak))
    (d : list (string * (Z * Z))) :
  NoDup (map fst d ++ map fst items) ->
  fold_left (fun d kv =>
               od_set d kv.1 (Z.of_nat (length kv.2), LeaksParser.sum_sizes kv.2))
            items d
  = d ++ map group_entry items.
Proof.
  revert d. induction items as [|[k v] items IH]; intros d Hnd.
  - simpl. rewrite app_nil_r. reflexivity.
  - cbn [fold_left map fst snd]. cbn [map fst] in Hnd.
    rewrite od_set_fresh.
    + rewrite IH.
      * rewrite <- app_assoc. reflexivity.
      * rewrite map_app. cbn [map fst]. rewrite <- app_assoc. exact Hnd.
    + apply NoDup_app in Hnd. destruct Hnd as (_ & Hd & _).
      intros Hk. apply (Hd k Hk). left.
Qed.

(** Distinct keys: the dictionary of the comprehension has one entry for
    each item, in the order of the items. *)
Lemma summarize_map (items : list (string * list LeaksParser.MemoryLeak)) :
  NoDup (map fst items) -> LeaksParser.summarize items = map group_entry items.
Proof. intros H. unfold LeaksParser.summarize. apply summarize_fold. exact H. Qed.

Lemma take_NoDup {A : Type} (l : list A) (n : nat) : NoDup l -> NoDup (take n l).
Proof. intros H. eapply sublist_NoDup; [exact H | apply sublist_take]. Qed.

Lemma slice_to_20 {A : Type} (l : list A) : slice_to l 20 = take 20 l.
Proof. reflexivity. Qed.

Section LeakSummaryFacts.
Context (key : LeaksParser.MemoryLeak -> string).
Implicit Types (leaks : list LeaksParser.MemoryLeak).

(** The complete ranking of the groups of a key. *)
Lemma ranking_perm leaks :
  sorted_reverse_int (fun x => LeaksParser.sum_sizes x.2)
                     (fold_left (group_step key) leaks [])
  ≡ₚ fold_left (group_step key) leaks [].
Proof. apply sorted_reverse_int_perm. Qed.

Lemma ranking_NoDup leaks :
  NoDup (map fst (sorted_reverse_int (fun x => LeaksParser.sum_sizes x.2)
                                     (fold_left (group_step key) leaks []))).
Proof. rewrite ranking_perm. apply groups_NoDup. Qed.

Lemma ranking_entries leaks :
  Forall (fun e => e = entry_of key leaks e.1)
         (map group_entry
              (sorted_reverse_int (fun x => LeaksParser.sum_sizes x.2)
                                  (fold_left (group_step key) leaks []))).
Proof.
  apply Forall_fmap. rewrite ranking_perm.
  eapply Forall_impl; [apply groups_entries|].
  intros [k v] H. cbn [fst snd] in *. subst v. reflexivity.
Qed.

Lemma ranking_keys leaks :
  map fst (map group_entry
             (sorted_reverse_int (fun x => LeaksParser.sum_sizes x.2)
                                 (fold_left (group_step key) leaks [])))
  ≡ₚ keys_of key leaks.
Proof.
  rewrite map_map. cbn [group_entry fst].
  change (map (fun x : string * list LeaksParser.MemoryLeak => x.1)) with
    (map (@fst string (list LeaksParser.MemoryLeak))).
  rewrite ranking_perm, groups_keys_of. reflexivity.
Qed.

Lemma ranking_sorted leaks :
  StronglySorted (entry_before (keys_of key leaks))
    (map group_entry
         (sorted_reverse_int (fun x => LeaksParser.sum_sizes x.2)
                             (fold_left (group_step key) leaks []))).
Proof.
  apply (StronglySorted_fmap group_entry
           (desc_stable_int (fun x => LeaksParser.sum_sizes x.2)
                            (fold_left (group_step key) leaks []))).
  - intros a b [H1 H2]. split; [exact H1|].
    intros H. rewrite <- groups_keys_of.
    change (group_entry a).1 with (fst a). change (group_entry b).1 with (fst b).
    apply precedes_map, H2, H.
  - apply sorted_reverse_int_sorted.
Qed.

End LeakSummaryFacts.

Lemma summary_by_library (leaks : list LeaksParser.MemoryLeak) :
  LeaksParser.by_library (LeaksParser.get_leak_summary leaks)
  = map group_entry
        (sorted_reverse_int (fun x => LeaksParser.sum_sizes x.2)
           (fold_left (group_step LeaksParser.responsible_library) leaks [])).
Proof.
  unfold LeaksParser.get_leak_summary. cbn [LeaksParser.by_library].
  rewrite leak_step_groups. cbn [fst].
  apply summarize_map, ranking_NoDup.
Qed.

Lemma summary_by_frame (leaks : list LeaksParser.MemoryLeak) :
  LeaksParser.by_frame (LeaksParser.get_leak_summary leaks)
  = take 20
      (map group_entry
         (sorted_reverse_int (fun x => LeaksParser.sum_sizes x.2)
            (fold_left (group_step LeaksParser.responsible_frame) leaks []))).
Proof.
  unfold LeaksParser.get_leak_summary. cbn [LeaksParser.by_frame].
  rewrite leak_step_groups. cbn [snd]. rewrite slice_to_20.
  rewrite summarize_map by (rewrite <- firstn_map; apply take_NoDup, ranking_NoDup).
  symmetry. apply firstn_map.
Qed.

Lemma Forall_take_of {A : Type} (P : A -> Prop) (l : list A) (n : nat) :
  Forall P l -> Forall P (take n l).
Proof. apply Forall_take. Qed.

Lemma entry_of_count (key : LeaksParser.MemoryLeak -> string)
    (leaks : list LeaksParser.MemoryLeak) (k : string) :
  k ∈ keys_of key leaks -> 0 < entry_count (entry_of key leaks k).
Proof.
  intros Hk. apply keys_of_leaks in Hk. unfold entry_count, entry_of. cbn [fst snd].
  destruct (leaks_of key k leaks); [contradiction|]. simpl. lia.
Qed.

(** X24. The entries of the summary of the leaks.  [by_library] has one
    entry for each library that a leak names, the empty name apart, with the
    number of the leaks of this library and the sum of their sizes; the
    number is positive.  [by_frame] has such entries for 20 frames at most,
    each frame once. *)
Theorem leak_summary_entries (leaks : list LeaksParser.MemoryLeak) :
  let s := LeaksParser.get_leak_summary leaks in
  (map fst (LeaksParser.by_library s)
     ≡ₚ keys_of LeaksParser.responsible_library leaks
   /\ Forall (fun e => e = entry_of LeaksParser.responsible_library leaks e.1
                       /\ 0 < entry_count e)
             (LeaksParser.by_library s))
  /\ (NoDup (map fst (LeaksParser.by_frame s))
      /\ (length (LeaksParser.by_frame s) <= 20)%nat
      /\ Forall (fun e => e.1 ∈ keys_of LeaksParser.responsible_frame leaks
                          /\ e = entry_of LeaksParser.responsible_frame leaks e.1
                          /\ 0 < entry_count e)
                (LeaksParser.by_frame s)).
Proof.
  intros s. unfold s. rewrite summary_by_library, summary_by_frame.
  split; [split | split; [|split]].
  - apply ranking_keys.
  - pose proof (ranking_keys LeaksParser.responsible_library leaks) as Hk.
    pose proof (ranking_entries LeaksParser.responsible_library leaks) as He.
    rewrite Forall_forall in He. apply Forall_forall. intros e Hin.
    split; [apply He, Hin|]. rewrite (He e Hin).
    apply entry_of_count. rewrite <- Hk.
    apply list_elem_of_In, in_map, list_elem_of_In, Hin.
  - rewrite <- firstn_map. apply take_NoDup.
    rewrite ranking_keys. apply uniq_from_NoDup.
  - rewrite length_take. lia.
  - apply Forall_take_of.
    pose proof (ranking_keys LeaksParser.responsible_frame leaks) as Hk.
    pose proof (ranking_entries LeaksParser.responsible_frame leaks) as He.
    rewrite Forall_forall in He. apply Forall_forall. intros e Hin.
    assert (Hek : e.1 ∈ keys_of LeaksParser.responsible_frame leaks).
    { rewrite <- Hk. apply list_elem_of_In, in_map, list_elem_of_In, Hin. }
    split; [exact Hek|]. split; [apply He, Hin|].
    rewrite (He e Hin). apply entry_of_count, Hek.
Qed.

(** X25. The order of the summary of the leaks.  The entries of
    [by_library] stand in descending order of their bytes, equal bytes in
    the order in which the libraries first appear in the leaks; [by_frame]
    is the first 20 entries of such a ranking of all the frames, so that no
    frame left out has more bytes than a frame of [by_frame]. *)
Theorem leak_summary_ranked (leaks : list LeaksParser.MemoryLeak) :
  let s := LeaksParser.get_leak_summary leaks in
  StronglySorted (entry_before (keys_of LeaksParser.responsible_library leaks))
                 (LeaksParser.by_library s)
  /\ exists full : list (string * (Z * Z)),
       LeaksParser.by_frame s = take 20 full
       /\ map fst full ≡ₚ keys_of LeaksParser.responsible_frame leaks
       /\ Forall (fun e => e = entry_of LeaksParser.responsible_frame leaks e.1) full
       /\ StronglySorted (entry_before (keys_of LeaksParser.responsible_frame leaks))
                         full
       /\ Forall (fun a => Forall (fun b => entry_bytes b <= entry_bytes a)
                                   (drop 20 full))
                  (LeaksParser.by_frame s).
Proof.
  intros s. unfold s. rewrite summary_by_library, summary_by_frame.
  split; [apply ranking_sorted|].
  eexists. split; [reflexivity|].
  split; [apply ranking_keys|]. split; [apply ranking_entries|].
  split; [apply ranking_sorted|].
  apply Forall_forall. intros a Ha. apply Forall_forall. intros b Hb.
  pose proof (ranking_sorted LeaksParser.responsible_frame leaks) as Hs.
  rewrite <- (take_drop 20) in Hs.
  apply (StronglySorted_app_1_elem_of _ _ _ a b Hs Ha Hb).
Qed.

(** ** The totals *)

Lemma sum_sizes_snoc (v : list LeaksParser.MemoryLeak) (leak : LeaksParser.MemoryLeak) :
  LeaksParser.sum_sizes (v ++ [leak])
  = LeaksParser.sum_sizes v + LeaksParser.size_bytes leak.
Proof.
  unfold LeaksParser.sum_sizes. rewrite map_app, fold_left_app. reflexivity.
Qed.

Section Totals.
Context (f : list LeaksParser.MemoryLeak -> Z) (c : LeaksParser.MemoryLeak -> Z).
Hypothesis f_nil : f [] = 0.
Hypothesis f_snoc : forall v leak, f (v ++ [leak]) = f v + c leak.

Lemma append_to_total (d : list (string * list LeaksParser.MemoryLeak)) (k : string)
    (leak : LeaksParser.MemoryLeak) :
  int_sum (map (fun kv => f kv.2) (LeaksParser.append_to d k leak))
  = int_sum (map (fun kv => f kv.2) d) + c leak.
Proof.
  unfold LeaksParser.append_to. induction d as [|[k0 v0] d IH].
  - cbn [od_get od_set default map snd]. rewrite int_sum_cons, f_snoc, f_nil.
    unfold int_sum. simpl. lia.
  - cbn [od_get od_set]. destruct (String.eqb k k0).
    + simpl. rewrite !int_sum_cons, f_snoc. lia.
    + cbn [map snd]. rewrite !int_sum_cons, IH. lia.
Qed.

Lemma groups_total (key : LeaksParser.MemoryLeak -> string)
    (leaks : list LeaksParser.MemoryLeak)
    (d : list (string * list LeaksParser.MemoryLeak)) :
  int_sum (map (fun kv => f kv.2) (fold_left (group_step key) leaks d))
  = int_sum (map (fun kv => f kv.2) d)
    + int_sum (map c (List.filter (has_key key) leaks)).
Proof.
  revert d. induction leaks as [|leak leaks IH]; intros d.
  - simpl. unfold int_sum at 3. simpl. lia.
  - cbn [fold_left List.filter]. rewrite IH. unfold group_step.
    destruct (has_key key leak).
    + rewrite append_to_total. cbn [map]. rewrite int_sum_cons. lia.
    + reflexivity.
Qed.

End Totals.

Lemma int_sum_ones {A : Type} (l : list A) :
  int_sum (map (fun _ => 1) l) = Z.of_nat (length l).
Proof.
  induction l as [|x l IH]; [reflexivity|].
  cbn [map length]. rewrite int_sum_cons, IH. lia.
Qed.

(** X26. The summary of the leaks adds up.  The numbers of [by_library]
    add up to the number of the leaks that name a library, and its bytes to
    the sum of their sizes; [total_count] and [total_bytes] are the number
    and the sum of the sizes of all the leaks, so that the two agree when
    every leak names a library. *)
Theorem leak_summary_adds_up (leaks : list LeaksParser.MemoryLeak) :
  let s := LeaksParser.get_leak_summary leaks in
  let named := List.filter (has_key LeaksParser.responsible_library) leaks in
  int_sum (map entry_count (LeaksParser.by_library s)) = Z.of_nat (length named)
  /\ int_sum (map entry_bytes (LeaksParser.by_library s)) = LeaksParser.sum_sizes named
  /\ LeaksParser.total_count s = Z.of_nat (length leaks)
  /\ LeaksParser.total_bytes s = LeaksParser.sum_sizes leaks.
Proof.
  intros s named.
  assert (Hc : int_sum (map entry_count (LeaksParser.by_library s))
               = Z.of_nat (length named)).
  { unfold s. rewrite summary_by_library, map_map.
    rewrite (int_sum_perm _ _ (Permutation_map _ (ranking_perm _ leaks))).
    change (fun x => entry_count (group_entry x))
      with (fun kv : string * list LeaksParser.MemoryLeak => Z.of_nat (length kv.2)).
    rewrite (groups_total (fun v => Z.of_nat (length v)) (fun _ => 1)).
    - rewrite int_sum_ones. reflexivity.
    - reflexivity.
    - intros v leak. rewrite length_app. simpl. lia. }
  assert (Hb : int_sum (map entry_bytes (LeaksParser.by_library s))
               = LeaksParser.sum_sizes named).
  { unfold s. rewrite summary_by_library, map_map.
    rewrite (int_sum_perm _ _ (Permutation_map _ (ranking_perm _ leaks))).
    change (fun x => entry_bytes (group_entry x))
      with (fun kv : string * list LeaksParser.MemoryLeak => LeaksParser.sum_sizes kv.2).
    rewrite (groups_total LeaksParser.sum_sizes LeaksParser.size_bytes).
    - reflexivity.
    - reflexivity.
    - apply sum_sizes_snoc. }
  split; [exact Hc|]. split; [exact Hb|]. split; reflexivity.
Qed.
